(** * buildwithclaude: data-access core of the web UI

    A shallow embedding of the server-side modules of [web-ui/lib]:

    - [lib/db/safe-query.ts]      the resilient query wrapper ([SafeQuery]);
    - [lib/mcp-server-db.ts]      the MCP server listing ([McpServerDb]);
    - [lib/marketplace-server.ts] the marketplace listing ([MarketplaceServer]);
    - [lib/plugin-db-server.ts]   the unified plugin listing ([PluginDbServer]);
    - the three [app/api/*/list/route.ts] handlers ([Routes]);
    - the MCP indexer and stats syncer ([Indexer]).

    Asynchronous functions are state transformers over a [World] (clock,
    database, module-level breaker state) that settle to an [Outcome];
    strings are sequences of 8-bit code units. *)

From Stdlib Require Import ZArith List String Ascii Bool Lia Permutation Sorted.
From stdpp Require Import base gmap strings.
Import ListNotations.
Open Scope Z_scope.

(* ================================================================== *)
(** * JavaScript primitives used by the sources                        *)
(* ================================================================== *)

Module JS.

(** [c] lies in the inclusive code-unit range [lo..hi]. *)
Definition in_range (lo hi : nat) (c : ascii) : bool :=
  let n := nat_of_ascii c in (Nat.leb lo n) && (Nat.leb n hi).

Definition lower_ascii (c : ascii) : ascii :=
  if in_range 65 90 c then ascii_of_nat (nat_of_ascii c + 32) else c.

Definition upper_ascii (c : ascii) : ascii :=
  if in_range 97 122 c then ascii_of_nat (nat_of_ascii c - 32) else c.

Fixpoint map_string (f : ascii -> ascii) (s : string) : string :=
  match s with
  | EmptyString => EmptyString
  | String c s' => String (f c) (map_string f s')
  end.

(** [String.prototype.toLowerCase], on the ASCII letters. *)
Definition toLowerCase (s : string) : string := map_string lower_ascii s.

(** [s.startsWith(p)] *)
Definition startsWith (s p : string) : bool := String.prefix p s.

(** [s.includes(p)] *)
Fixpoint includes (s p : string) : bool :=
  String.prefix p s ||
  match s with
  | EmptyString => false
  | String _ s' => includes s' p
  end.

(** Truthiness of a possibly missing string: [undefined], [null] and
    the empty string are falsy. *)
Definition truthy (o : option string) : bool :=
  match o with
  | Some EmptyString | None => false
  | Some _ => true
  end.

(** [x || null] on strings. *)
Definition orNull (o : option string) : option string :=
  if truthy o then o else None.

(** [x || d] on strings. *)
Definition orStr (o : option string) (d : string) : string :=
  match o with
  | Some (String c s) => String c s
  | _ => d
  end.

(** [x || 0] on numbers. *)
Definition orZero (o : option Z) : Z :=
  match o with Some n => n | None => 0 end.

(** [a || b] on possibly missing strings. *)
Definition orElse (a b : option string) : option string :=
  if truthy a then a else b.

(** [xs || []] on arrays. *)
Definition orEmpty {A} (o : option (list A)) : list A :=
  match o with Some l => l | None => [] end.

(** [Array.prototype.slice(start, end)], negative indices counting
    from the end as ECMAScript prescribes. *)
Definition slice {A} (start end_ : Z) (l : list A) : list A :=
  let len := Z.of_nat (length l) in
  let k := if start <? 0 then Z.max (len + start) 0 else Z.min start len in
  let final := if end_ <? 0 then Z.max (len + end_) 0 else Z.min end_ len in
  firstn (Z.to_nat (Z.max (final - k) 0)) (skipn (Z.to_nat k) l).

(** [Array.prototype.sort(cmp)]: the sort is stable (ES2019); an
    element goes in front of the first one it does not follow. *)
Fixpoint insert_sorted {A} (cmp : A -> A -> Z) (x : A) (l : list A) : list A :=
  match l with
  | [] => [x]
  | y :: l' => if cmp x y <=? 0 then x :: y :: l'
               else y :: insert_sorted cmp x l'
  end.

Fixpoint sort {A} (cmp : A -> A -> Z) (l : list A) : list A :=
  match l with
  | [] => []
  | x :: l' => insert_sorted cmp x (sort cmp l')
  end.

(** [s.replace(/[^a-z0-9-]/g, '-')] *)
Definition slug_char (c : ascii) : bool :=
  in_range 97 122 c || in_range 48 57 c || Ascii.eqb c "-".

Definition replace_non_slug (s : string) : string :=
  map_string (fun c => if slug_char c then c else "-"%char) s.

(** [s.replace(/-+/g, '-')] *)
Fixpoint collapse_hyphens (s : string) : string :=
  match s with
  | EmptyString => EmptyString
  | String c s' =>
      if Ascii.eqb c "-" then
        match s' with
        | String c' _ => if Ascii.eqb c' "-" then collapse_hyphens s'
                         else String c (collapse_hyphens s')
        | EmptyString => String c EmptyString
        end
      else String c (collapse_hyphens s')
  end.

(** [name.includes('/') ? name.split('/').pop() : name]: the part
    after the last slash. *)
Fixpoint after_last_slash (s : string) : string :=
  match s with
  | EmptyString => EmptyString
  | String c s' =>
      if includes s' "/" then after_last_slash s'
      else if Ascii.eqb c "/" then s' else String c s'
  end.

(** [String.prototype.trim], on the ASCII white space. *)
Definition is_space (c : ascii) : bool :=
  in_range 9 13 c || Ascii.eqb c " ".

Fixpoint trimStart (s : string) : string :=
  match s with
  | EmptyString => EmptyString
  | String c s' => if is_space c then trimStart s' else s
  end.

Fixpoint trimEnd (s : string) : string :=
  match s with
  | EmptyString => EmptyString
  | String c s' =>
      match trimEnd s' with
      | EmptyString => if is_space c then EmptyString else String c EmptyString
      | t => String c t
      end
  end.

Definition trim (s : string) : string := trimEnd (trimStart s).

(** [s.split(sep)] for a one-character separator. *)
Fixpoint split (sep : ascii) (s : string) : list string :=
  match s with
  | EmptyString => [EmptyString]
  | String c s' =>
      if Ascii.eqb c sep then EmptyString :: split sep s'
      else match split sep s' with
           | h :: t => String c h :: t
           | [] => [String c EmptyString]
           end
  end.

(** [s.split('/')[0]]: the part before the first slash. *)
Fixpoint before_first_slash (s : string) : string :=
  match s with
  | EmptyString => EmptyString
  | String c s' => if Ascii.eqb c "/" then EmptyString
                   else String c (before_first_slash s')
  end.

(** The rest of [s] after the prefix [p], if [s] starts with [p]. *)
Fixpoint strip_prefix (p s : string) : option string :=
  match p with
  | EmptyString => Some s
  | String c p' =>
      match s with
      | EmptyString => None
      | String d s' => if Ascii.eqb c d then strip_prefix p' s' else None
      end
  end.

(** [s.replace(/X$/, '')] for a literal non-empty suffix [X]. *)
Fixpoint strip_suffix (suffix s : string) : string :=
  match s with
  | EmptyString => EmptyString
  | String c s' => if String.eqb s suffix then EmptyString
                   else String c (strip_suffix suffix s')
  end.

(** [\w] of regular expressions. *)
Definition is_word (c : ascii) : bool :=
  in_range 97 122 c || in_range 65 90 c || in_range 48 57 c || Ascii.eqb c "_".

(** [kw] stands at the start of [text] and a word boundary follows. *)
Definition word_at_start (kw text : string) : bool :=
  match strip_prefix kw text with
  | Some EmptyString => true
  | Some (String c _) => negb (is_word c)
  | None => false
  end.

Fixpoint has_word_from (prev_is_word : bool) (kw text : string) : bool :=
  (negb prev_is_word && word_at_start kw text) ||
  match text with
  | EmptyString => false
  | String c t => has_word_from (is_word c) kw t
  end.

(** [text.match(/\b(k1|k2|...)\b/)] for keywords that begin and end
    with a word character. *)
Definition matches_word (kws : list string) (text : string) : bool :=
  existsb (fun kw => has_word_from false kw text) kws.

(** [word.charAt(0).toUpperCase() + word.slice(1)] *)
Definition capitalize (word : string) : string :=
  match word with
  | EmptyString => EmptyString
  | String c s => String (upper_ascii c) s
  end.

(** [[...new Set(xs)]] *)
Fixpoint dedupe (xs : list string) : list string :=
  match xs with
  | [] => []
  | x :: xs' => x :: List.filter (fun y => negb (String.eqb x y)) (dedupe xs')
  end.

(** [xs.filter(Boolean)] on strings. *)
Definition filterBoolean (xs : list string) : list string :=
  List.filter (fun s => negb (String.eqb s "")) xs.

(** [obj[k] = v] on an object literal used as a map from strings to
    numbers: the key [__proto__] reaches the prototype setter, which
    ignores a number, so no property is stored. *)
Definition setProp (k : string) (v : Z) (obj : gmap string Z) : gmap string Z :=
  if String.eqb k "__proto__" then obj else <[k := v]> obj.

(** The longest prefix of [s] that holds no slash, and what follows
    it: how a greedy [[^/]+] reads [s]. *)
Fixpoint span_no_slash (s : string) : string * string :=
  match s with
  | EmptyString => (EmptyString, EmptyString)
  | String c s' =>
      if Ascii.eqb c "/" then (EmptyString, s)
      else let (run, rest) := span_no_slash s' in (String c run, rest)
  end.

End JS.

(* ================================================================== *)
(** * Tables                                                           *)
(* ================================================================== *)

Module Schema.

(** Modelled from the spec: [lib/db/schema.ts] is not among the
    sources.  Each row type lists the columns that the functions
    below read or write; nullable columns are options, timestamps are
    milliseconds, and row identifiers are drawn from a counter. *)
Record MCPServerDB := {
  id : nat;
  name : string;
  displayName : string;
  slug : string;
  description : option string;
  version : option string;
  category : string;
  tags : list string;
  serverType : string;
  vendor : option string;
  logoUrl : option string;
  sourceRegistry : string;
  sourceUrl : option string;
  githubUrl : option string;
  dockerUrl : option string;
  npmUrl : option string;
  documentationUrl : option string;
  githubStars : option Z;
  dockerPulls : option Z;
  npmDownloads : option Z;
  packages : option string;
  remotes : option string;
  environmentVariables : option string;
  installationMethods : option string;
  verificationStatus : option string;
  active : bool;
  lastIndexedAt : option Z;
  lastStatsSync : option Z;
  createdAt : Z;
  updatedAt : Z
}.

(** One row of [mcpServerStats], the append-only snapshot table. *)
Record MCPServerStat := {
  mcpServerId : nat;
  statGithubStars : Z;
  statDockerPulls : Z;
  statNpmDownloads : Z
}.

Record MarketplaceDB := {
  mId : string;
  mName : string;
  mDisplayName : string;
  mDescription : option string;
  mUrl : option string;
  mRepository : string;
  mInstallCommand : option string;
  mNamespace : string;
  mPluginCount : Z;
  mSkillCount : Z;
  mCategories : option (list string);
  mBadges : option (list string);
  mMaintainerName : option string;
  mMaintainerGithub : option string;
  mStars : Z;
  mInstalls : Z;
  mVerified : bool;
  mLastIndexedAt : option Z;
  mUpdatedAt : Z;
  mActive : bool
}.

Record PluginDB := {
  pId : string;
  pName : string;
  pNamespace : string;
  pSlug : string;
  pDescription : option string;
  pVersion : option string;
  pAuthor : option string;
  pType : string;
  pCategories : option (list string);
  pKeywords : option (list string);
  pRepository : option string;
  pStars : option Z;
  pInstallCommand : option string;
  pMarketplaceId : option string;
  pMarketplaceName : option string;
  pUpdatedAt : Z;
  pActive : bool
}.

Record Db := {
  mcpServers : list MCPServerDB;
  mcpServerStats : list MCPServerStat;
  marketplaces : list MarketplaceDB;
  plugins : list PluginDB;
  nextId : nat
}.

End Schema.

(* ================================================================== *)
(** * The world an asynchronous function runs in                       *)
(* ================================================================== *)

Module Async.
Import Schema.

(** Module state of [safe-query.ts]: [circuitOpen], [circuitOpenedAt]. *)
Record Breaker := { circuitOpen : bool; circuitOpenedAt : Z }.

(** [now] is what [Date.now()] reads; [dbUp] tells whether the
    database answers statements at all. *)
Record World := {
  now : Z;
  dbUp : bool;
  db : Db;
  breaker : Breaker
}.

Definition set_breaker (b : Breaker) (w : World) : World :=
  {| now := now w; dbUp := dbUp w; db := db w; breaker := b |}.

Definition set_db (d : Db) (w : World) : World :=
  {| now := now w; dbUp := dbUp w; db := d; breaker := breaker w |}.

Definition advance (d : Z) (w : World) : World :=
  {| now := now w + d; dbUp := dbUp w; db := db w; breaker := breaker w |}.


(** A settled promise. *)
Inductive Outcome (T : Type) : Type :=
| Resolved (v : T)
| Rejected.
Arguments Resolved {T} v.
Arguments Rejected {T}.

(** An [async] function body: it may change the world and settles. *)
Definition M (T : Type) : Type := World -> Outcome T * World.

Definition ret {T} (v : T) : M T := fun w => (Resolved v, w).

Definition throw {T} : M T := fun w => (Rejected, w).

Definition bind {A B} (m : M A) (k : A -> M B) : M B :=
  fun w => match m w with
           | (Resolved a, w') => k a w'
           | (Rejected, w') => (Rejected, w')
           end.

(** [try { body } catch { handler }] *)
Definition try_catch {A} (body : M A) (handler : M A) : M A :=
  fun w => match body w with
           | (Resolved a, w') => (Resolved a, w')
           | (Rejected, w') => handler w'
           end.

(** [Promise.all([p, q])]: both statements are issued; the pair
    rejects as soon as one of them does. *)
Definition all2 {A B} (p : M A) (q : M B) : M (A * B) :=
  bind p (fun a => bind q (fun b => ret (a, b))).


(** A read statement against the database. *)
Definition dbRead {T} (f : Db -> Outcome T) : M T :=
  fun w => if dbUp w then (f (db w), w) else (Rejected, w).

(** A write statement against the database. *)
Definition dbWrite (f : Db -> Db) : M unit :=
  fun w => if dbUp w then (Resolved tt, set_db (f (db w)) w) else (Rejected, w).

End Async.

Declare Scope async_scope.
Delimit Scope async_scope with async.
Notation "x <- m ;; k" := (Async.bind m (fun x => k))
  (at level 100, m at next level, right associativity) : async_scope.

(* ================================================================== *)
(** * lib/db/safe-query.ts                                             *)
(* ================================================================== *)

Module SafeQuery.
Import Async.

Definition CIRCUIT_TTL_MS : Z := 30000.

Record SafeResult (T : Type) := { data : T; fromDb : bool }.
Arguments data {T} _.
Arguments fromDb {T} _.

(** Lines 15-21: the breaker is open and its TTL has not expired. *)
Definition short_circuits (w : World) : bool :=
  circuitOpen (breaker w) &&
  negb (now w - circuitOpenedAt (breaker w) >? CIRCUIT_TTL_MS).

(** Line 17: [circuitOpen = false]. *)
Definition closeCircuit (w : World) : World :=
  if circuitOpen (breaker w)
  then set_breaker {| circuitOpen := false;
                      circuitOpenedAt := circuitOpenedAt (breaker w) |} w
  else w.

(** Lines 28-29: [circuitOpen = true; circuitOpenedAt = Date.now()]. *)
Definition openCircuit (w : World) : World :=
  set_breaker {| circuitOpen := true; circuitOpenedAt := now w |} w.

(** Lines 23-31: the [try]/[catch] around [await queryFn()]. *)
Definition attempt {T} (queryFn : M T) (fallback : T) : M (SafeResult T) :=
  fun w => match queryFn w with
           | (Resolved d, w') => (Resolved {| data := d; fromDb := true |}, w')
           | (Rejected, w') =>
               (Resolved {| data := fallback; fromDb := false |}, openCircuit w')
           end.

Definition safeDbQuery {T} (queryFn : M T) (fallback : T) : M (SafeResult T) :=
  fun w =>
    if short_circuits w
    then (Resolved {| data := fallback; fromDb := false |}, w)
    else attempt queryFn fallback (closeCircuit w).

(** ** Sequences of calls

    Between two calls the environment lets time pass; a call names its
    operation and its fallback, whose types vary from call to call. *)
Record Call := {
  resultT : Type;
  queryFn : M resultT;
  fallback : resultT
}.

Inductive Event :=
| Tick (d : Z)
| Query (c : Call).

Definition step (e : Event) (w : World) : World :=
  match e with
  | Tick d => advance d w
  | Query c => snd (safeDbQuery (queryFn c) (fallback c) w)
  end.

Definition run (es : list Event) (w : World) : World :=
  fold_left (fun w e => step e w) es w.

(** Time does not run backwards: neither between calls nor while an
    operation is awaited. *)
Definition monotone_op {T} (q : M T) : Prop :=
  forall w, now w <= now (snd (q w)).

Definition wf_event (e : Event) : Prop :=
  match e with
  | Tick d => 0 <= d
  | Query c => monotone_op (queryFn c)
  end.

(** Every call of the trace [es], started from [w], is made while at
    most [CIRCUIT_TTL_MS] have elapsed since [t0]. *)
Definition calls_within_window (t0 : Z) (w : World) (es : list Event) : Prop :=
  forall pre c post, es = pre ++ Query c :: post ->
    now (run pre w) - t0 <= CIRCUIT_TTL_MS.

End SafeQuery.

(* ================================================================== *)
(** * What the runtime and the database leave open                     *)
(* ================================================================== *)

(** [Json] stands for the values of the [unknown[]] columns;
    [JSON_parse] is [None] where [JSON.parse] throws;
    [encodeURIComponent] is the global of that name; [collate] is the
    database's ordering of text and [localeCompare] is
    [String.prototype.localeCompare], both three-way comparisons. *)
Record Platform := {
  Json : Type;
  JSON_parse : string -> option (list Json);
  encodeURIComponent : string -> string;
  collate : string -> string -> Z;
  localeCompare : string -> string -> Z
}.

(* ================================================================== *)
(** * The SQL the query builder emits                                  *)
(* ================================================================== *)

Module Sql.
Import Async.

(** [s LIKE p]: [%] matches any run of characters, [_] any single
    one, and a backslash takes the next pattern character literally.
    PostgreSQL raises an error when a match reaches a lone backslash
    at the end of the pattern; here such a pattern matches nothing,
    and what is proved of single patterns is for terms without a
    backslash. *)
Fixpoint like (p : string) : string -> bool :=
  match p with
  | EmptyString =>
      fun s => match s with EmptyString => true | _ => false end
  | String c p' =>
      if Ascii.eqb c "%" then
        fix any (s : string) : bool :=
          like p' s ||
          match s with EmptyString => false | String _ s' => any s' end
      else if Ascii.eqb c "_" then
        fun s => match s with
                 | EmptyString => false
                 | String _ s' => like p' s'
                 end
      else if Ascii.eqb c "\" then
        match p' with
        | EmptyString => fun _ => false
        | String e p'' =>
            fun s => match s with
                     | EmptyString => false
                     | String d s' => Ascii.eqb e d && like p'' s'
                     end
        end
      else
        fun s => match s with
                 | EmptyString => false
                 | String d s' => Ascii.eqb c d && like p' s'
                 end
  end.

(** [col ILIKE pat]; a NULL column matches nothing. *)
Definition ilike (col : option string) (pat : string) : bool :=
  match col with
  | Some s => like (JS.toLowerCase pat) (JS.toLowerCase s)
  | None => false
  end.

(** [x = ANY(col)] *)
Definition any_eq (x : string) (col : list string) : bool :=
  existsb (String.eqb x) col.

(** [col && ARRAY[...]]: the two arrays share an element. *)
Definition overlaps (col xs : list string) : bool :=
  existsb (fun c => existsb (String.eqb c) xs) col.

(** What [LIMIT] and [OFFSET] keep of the rows of a query, as the
    query builder sends them: [.limit(n)] writes a LIMIT clause for
    [n >= 0] only, so that a negative limit reads every row from the
    offset on, as an absent one does. *)
Definition window {R} (limit : option Z) (offset : Z) (rows : list R) : list R :=
  let rest := skipn (Z.to_nat offset) rows in
  match limit with
  | Some n => if n <? 0 then rest else firstn (Z.to_nat n) rest
  | None => rest
  end.

(** [SELECT ... WHERE cond ORDER BY cmp LIMIT limit OFFSET offset].
    [.offset(n)] writes the OFFSET clause for every [n] but 0, and
    PostgreSQL rejects a negative OFFSET; rows that compare equal
    keep their table order. *)
Definition select {R} (cond : R -> bool) (cmp : R -> R -> Z)
    (limit offset : option Z) (table : list R) : Outcome (list R) :=
  let off := match offset with Some n => n | None => 0 end in
  if off <? 0 then Rejected
  else Resolved (window limit off (JS.sort cmp (List.filter cond table))).

(** [SELECT count( * ) ... WHERE cond]: one row holding the count. *)
Definition count {R} (cond : R -> bool) (table : list R) : Outcome (list Z) :=
  Resolved [Z.of_nat (length (List.filter cond table))].

(** No [ORDER BY]: table order. *)
Definition unordered {R} (_ _ : R) : Z := 0.

(** Ascending and descending order on a numeric key, and the
    lexicographic combination of two orders. *)
Definition asc {R} (key : R -> Z) (a b : R) : Z := key a - key b.
Definition desc {R} (key : R -> Z) (a b : R) : Z := key b - key a.
Definition then_by {R} (c1 c2 : R -> R -> Z) (a b : R) : Z :=
  if c1 a b =? 0 then c2 a b else c1 a b.
Definition reverse {R} (c : R -> R -> Z) (a b : R) : Z := c b a.

(** The distinct values of a column, in order of first appearance. *)
Fixpoint distinct {K} (eqb : K -> K -> bool) (ks : list K) : list K :=
  match ks with
  | [] => []
  | k :: ks' => k :: List.filter (fun x => negb (eqb k x)) (distinct eqb ks')
  end.

(** [SELECT key, count( * ) ... GROUP BY key] over the key column of
    the rows selected: one row for each distinct key. *)
Definition groupCount {K} (eqb : K -> K -> bool) (keys : list K) : list (K * Z) :=
  map (fun k => (k, Z.of_nat (length (List.filter (eqb k) keys))))
      (distinct eqb keys).


End Sql.

(* ================================================================== *)
(** * lib/mcp-server-db.ts                                             *)
(* ================================================================== *)

Module McpServerDb.
Import Schema Async SafeQuery.
Local Open Scope async_scope.

Inductive SortOption := Relevance | Stars | Downloads | Name | Updated.

Record Options := {
  limit : option Z;
  offset : option Z;
  search : option string;
  sort : option SortOption;
  category : option string;
  sourceRegistry : option string;
  verification : option string
}.

(** The defaults of the destructured options: [limit = 50, offset = 0]. *)
Definition limitOf (o : Options) : Z := match limit o with Some n => n | None => 50 end.
Definition offsetOf (o : Options) : Z := match offset o with Some n => n | None => 0 end.

Section WithPlatform.
Variable P : Platform.

Record MCPServerWithParsedJSON := {
  server : MCPServerDB;
  parsedPackages : option (list (Json P));
  parsedRemotes : option (list (Json P));
  parsedEnvironmentVariables : option (list (Json P));
  parsedInstallationMethods : option (list (Json P))
}.

Record PaginatedMCPServers := {
  servers : list MCPServerWithParsedJSON;
  total : Z;
  pageLimit : Z;
  pageOffset : Z;
  hasMore : bool
}.

Definition parseJSONField (value : option string) : option (list (Json P)) :=
  match value with
  | Some (String c s) => JSON_parse P (String c s)
  | _ => None
  end.

Definition transformToMCPServerWithParsedJSON (s : MCPServerDB)
    : MCPServerWithParsedJSON :=
  {| server := s;
     parsedPackages := parseJSONField (packages s);
     parsedRemotes := parseJSONField (remotes s);
     parsedEnvironmentVariables := parseJSONField (environmentVariables s);
     parsedInstallationMethods := parseJSONField (installationMethods s) |}.

(** Lines 121-153: the conjunction of the pushed conditions. *)
Definition whereClause (o : Options) (r : MCPServerDB) : bool :=
  active r
  && (if JS.truthy (category o)
      then String.eqb (Schema.category r) (JS.orStr (category o) "") else true)
  && (if JS.truthy (sourceRegistry o)
         && negb (String.eqb (JS.orStr (sourceRegistry o) "") "all")
      then String.eqb (Schema.sourceRegistry r) (JS.orStr (sourceRegistry o) "")
      else true)
  && (if JS.truthy (verification o)
         && negb (String.eqb (JS.orStr (verification o) "") "all")
      then match verificationStatus r with
           | Some v => String.eqb v (JS.orStr (verification o) "")
           | None => false
           end
      else true)
  && (if JS.truthy (search o)
      then let s := JS.orStr (search o) "" in
           let searchPattern := ("%" ++ s ++ "%")%string in
           Sql.ilike (Some (name r)) searchPattern
           || Sql.ilike (Some (displayName r)) searchPattern
           || Sql.ilike (description r) searchPattern
           || Sql.any_eq s (tags r)
      else true).

(** Lines 169-176: the [CASE] of the relevance order. *)
Definition relevance_tier (s : string) (r : MCPServerDB) : Z :=
  if Sql.ilike (Some (name r)) s then 0
  else if Sql.ilike (Some (name r)) (s ++ "%")%string then 1
  else if Sql.ilike (Some (displayName r)) ("%" ++ s ++ "%")%string then 2
  else if Sql.ilike (description r) ("%" ++ s ++ "%")%string then 3
  else 4.

Definition pulls (r : MCPServerDB) : Z := JS.orZero (dockerPulls r).
Definition stars (r : MCPServerDB) : Z := JS.orZero (githubStars r).

(** Lines 156-188. *)
Definition orderBy (o : Options) : MCPServerDB -> MCPServerDB -> Z :=
  match sort o with
  | Some Name => fun a b => collate P (displayName a) (displayName b)
  | Some Updated => Sql.desc updatedAt
  | Some Stars => Sql.desc stars
  | Some Relevance =>
      if JS.truthy (search o)
      then Sql.then_by (Sql.asc (relevance_tier (JS.orStr (search o) "")))
                       (Sql.desc pulls)
      else Sql.desc pulls
  | Some Downloads | None => Sql.desc pulls
  end.

Definition getMCPServersPaginated (o : Options) : M PaginatedMCPServers :=
  let limit := limitOf o in
  let offset := offsetOf o in
  r <- safeDbQuery
         (all2
            (dbRead (fun d => Sql.select (whereClause o) (orderBy o)
                                (Some limit) (Some offset) (mcpServers d)))
            (dbRead (fun d => Sql.count (whereClause o) (mcpServers d))))
         ([], [0]) ;;
  let results := fst (data r) in
  let countResult := snd (data r) in
  let total := JS.orZero (head countResult) in
  ret {| servers := map transformToMCPServerWithParsedJSON results;
         total := total;
         pageLimit := limit;
         pageOffset := offset;
         hasMore := offset + Z.of_nat (length results) <? total |}.

Definition getMCPServerBySlug (slug : string)
    : M (option MCPServerWithParsedJSON) :=
  r <- safeDbQuery
         (dbRead (fun d => Sql.select
                             (fun s => String.eqb (Schema.slug s) slug)
                             Sql.unordered (Some 1) None (mcpServers d)))
         [] ;;
  ret (match data r with
       | [] => None
       | s :: _ => Some (transformToMCPServerWithParsedJSON s)
       end).

End WithPlatform.

(** ** Aggregates and snapshots (lines 241-419) *)

Record CategoryData := { catName : string; catIcon : string }.

Record CategoryWithCount := {
  cwcId : string;
  cwcDisplayName : string;
  cwcIcon : string;
  cwcCount : Z
}.

Record MCPServerStatsResult := {
  statsTotal : Z;
  bySource : gmap string Z;
  byCategory : gmap string Z;
  byVerification : gmap string Z
}.

(** The key column of the active rows. *)
Definition activeColumn {K} (col : MCPServerDB -> K) (d : Db) : list K :=
  map col (List.filter active (mcpServers d)).

Definition option_eqb (a b : option string) : bool :=
  match a, b with
  | Some x, Some y => String.eqb x y
  | None, None => true
  | _, _ => false
  end.

Section Categories.
(** [Object.entries(MCP_CATEGORIES)].  The constant is declared in
    [./mcp-types], which is not among the sources; the function is
    modelled for any value of it. *)
Variable MCP_CATEGORIES : list (string * CategoryData).

Definition getMCPCategoriesFromDB : M (list CategoryWithCount) :=
  r <- safeDbQuery
         (dbRead (fun d => Resolved (Sql.groupCount String.eqb
                                       (activeColumn Schema.category d))))
         [] ;;
  let countMap :=
    fold_left (fun (m : gmap string Z) row => <[fst row := snd row]> m)
              (data r) ∅ in
  ret (flat_map
         (fun e =>
            let count := JS.orZero (countMap !! fst e) in
            if count >? 0
            then [ {| cwcId := fst e;
                      cwcDisplayName := catName (snd e);
                      cwcIcon := catIcon (snd e);
                      cwcCount := count |} ]
            else [])
         MCP_CATEGORIES).

End Categories.

Definition getMCPServerStatsFromDB : M MCPServerStatsResult :=
  sourceStats <- safeDbQuery
                   (dbRead (fun d => Resolved (Sql.groupCount String.eqb
                                                 (activeColumn Schema.sourceRegistry d))))
                   [] ;;
  categoryStats <- safeDbQuery
                     (dbRead (fun d => Resolved (Sql.groupCount String.eqb
                                                   (activeColumn Schema.category d))))
                     [] ;;
  verificationStats <- safeDbQuery
                         (dbRead (fun d => Resolved (Sql.groupCount option_eqb
                                                       (activeColumn verificationStatus d))))
                         [] ;;
  let counted :=
    fold_left (fun (acc : gmap string Z * Z) stat =>
                 (JS.setProp (fst stat) (snd stat) acc.1, acc.2 + snd stat))
              (data sourceStats) (∅, 0) in
  let bySource := counted.1 in
  let total := counted.2 in
  let byCategory :=
    fold_left (fun obj stat => JS.setProp (fst stat) (snd stat) obj)
              (data categoryStats) ∅ in
  let byVerification :=
    fold_left (fun obj stat =>
                 if JS.truthy (fst stat)
                 then JS.setProp (JS.orStr (fst stat) "") (snd stat) obj
                 else obj)
              (data verificationStats) ∅ in
  ret {| statsTotal := total;
         bySource := bySource;
         byCategory := byCategory;
         byVerification := byVerification |}.

Definition featuredScore (r : MCPServerDB) : Z :=
  JS.orZero (dockerPulls r) + JS.orZero (githubStars r) * 100.

Definition isFeatured (r : MCPServerDB) : bool :=
  active r && option_eqb (verificationStatus r) (Some "verified"%string).

Section Featured.
Variable P : Platform.

(** The default of the parameter: [limit = 10]. *)
Definition getFeaturedMCPServersFromDB (limit : option Z)
    : M (list (MCPServerWithParsedJSON P)) :=
  let limit := match limit with Some n => n | None => 10 end in
  r <- safeDbQuery
         (dbRead (fun d => Sql.select isFeatured (Sql.desc featuredScore)
                             (Some limit) None (mcpServers d)))
         [] ;;
  ret (map (transformToMCPServerWithParsedJSON P) (data r)).

End Featured.

Record StatsInput := {
  inGithubStars : option Z;
  inDockerPulls : option Z;
  inNpmDownloads : option Z
}.

Definition recordMCPServerStats (serverId : nat) (stats : StatsInput) : M unit :=
  _ <- safeDbQuery
         (dbWrite (fun d =>
            {| mcpServers := mcpServers d;
               mcpServerStats :=
                 mcpServerStats d
                 ++ [ {| mcpServerId := serverId;
                         statGithubStars := JS.orZero (inGithubStars stats);
                         statDockerPulls := JS.orZero (inDockerPulls stats);
                         statNpmDownloads := JS.orZero (inNpmDownloads stats) |} ];
               marketplaces := marketplaces d;
               plugins := Schema.plugins d;
               nextId := nextId d |}))
         tt ;;
  ret tt.

End McpServerDb.

(* ================================================================== *)
(** * lib/marketplace-server.ts                                        *)
(* ================================================================== *)

Module MarketplaceServer.
Import Schema Async SafeQuery.
Local Open Scope async_scope.

Inductive SortOption := Relevance | Stars | Newest | Oldest | Name | NameDesc.

Record MarketplaceQueryOptions := {
  limit : option Z;
  offset : option Z;
  search : option string;
  sort : option SortOption
}.

Record Maintainer := { maintainerName : string; maintainerGithub : string }.

(** The timestamps are kept as numbers; [toISOString] only formats. *)
Record MarketplaceRegistry := {
  id : string;
  name : string;
  displayName : string;
  description : string;
  url : string;
  repository : string;
  installCommand : string;
  pluginCount : Z;
  skillCount : Z;
  categories : list string;
  badges : list string;
  maintainer : Maintainer;
  stars : Z;
  installs : Z;
  verified : bool;
  lastIndexedAt : option Z;
  updatedAt : option Z
}.

Record PaginatedMarketplaces := {
  marketplaceItems : list MarketplaceRegistry;
  total : Z;
  hasMore : bool
}.

Definition transformRow (row : MarketplaceDB) : MarketplaceRegistry :=
  {| id := mId row;
     name := mName row;
     displayName := mDisplayName row;
     description := JS.orStr (mDescription row) "";
     url := JS.orStr (mUrl row) (mRepository row);
     repository := mRepository row;
     installCommand :=
       JS.orStr (mInstallCommand row)
                ("/plugin marketplace add " ++ mNamespace row)%string;
     pluginCount := mPluginCount row;
     skillCount := mSkillCount row;
     categories := JS.orEmpty (mCategories row);
     badges := JS.orEmpty (mBadges row);
     maintainer := {| maintainerName := JS.orStr (mMaintainerName row) "";
                      maintainerGithub := JS.orStr (mMaintainerGithub row) "" |};
     stars := mStars row;
     installs := mInstalls row;
     verified := mVerified row;
     lastIndexedAt := mLastIndexedAt row;
     updatedAt := Some (mUpdatedAt row) |}.

(** The defaults of the destructured options: [limit = 20, offset = 0]. *)
Definition limitOf (o : MarketplaceQueryOptions) : Z :=
  match limit o with Some n => n | None => 20 end.
Definition offsetOf (o : MarketplaceQueryOptions) : Z :=
  match offset o with Some n => n | None => 0 end.

Section WithPlatform.
Variable P : Platform.

Definition byDisplayName (a b : MarketplaceDB) : Z :=
  collate P (mDisplayName a) (mDisplayName b).

Definition getOrderBy (sort : option SortOption)
    : MarketplaceDB -> MarketplaceDB -> Z :=
  match sort with
  | Some Relevance | None => Sql.then_by (Sql.desc mInstalls) (Sql.desc mStars)
  | Some Stars => Sql.desc mStars
  | Some Newest => Sql.desc mUpdatedAt
  | Some Oldest => Sql.asc mUpdatedAt
  | Some Name => byDisplayName
  | Some NameDesc => Sql.reverse byDisplayName
  end.

(** Lines 102-115. *)
Definition whereClause (o : MarketplaceQueryOptions) (r : MarketplaceDB) : bool :=
  mActive r
  && (if JS.truthy (search o) && JS.truthy (Some (JS.trim (JS.orStr (search o) "")))
      then let searchTerm := ("%" ++ JS.trim (JS.orStr (search o) "") ++ "%")%string in
           Sql.ilike (Some (mName r)) searchTerm
           || Sql.ilike (Some (mDisplayName r)) searchTerm
           || Sql.ilike (mDescription r) searchTerm
           || Sql.ilike (mMaintainerName r) searchTerm
      else true).

Definition getMarketplacesPaginated (o : MarketplaceQueryOptions)
    : M PaginatedMarketplaces :=
  let limit := limitOf o in
  let offset := offsetOf o in
  c <- safeDbQuery
         (dbRead (fun d => Sql.count (whereClause o) (marketplaces d)))
         [0] ;;
  let total := JS.orZero (head (data c)) in
  let orderByClause := getOrderBy (sort o) in
  r <- safeDbQuery
         (dbRead (fun d => Sql.select (whereClause o) orderByClause
                             (Some limit) (Some offset) (marketplaces d)))
         [] ;;
  let results := data r in
  ret {| marketplaceItems := map transformRow results;
         total := total;
         hasMore := offset + Z.of_nat (length results) <? total |}.


End WithPlatform.

Definition getMarketplaceById (id : string) : M (option MarketplaceRegistry) :=
  r <- safeDbQuery
         (dbRead (fun d => Sql.select
                             (fun m => String.eqb (mId m) id
                                       || String.eqb (mName m) id
                                       || String.eqb (mNamespace m) id)
                             Sql.unordered (Some 1) None (marketplaces d)))
         [] ;;
  ret (match data r with
       | [] => None
       | row :: _ => Some (transformRow row)
       end).

(** ** Totals (lines 150-184) *)

Section All.
Variable P : Platform.


End All.


(** One row of the aggregate query; a sum over no rows is NULL. *)
Record TotalsRow := {
  rowTotalPlugins : option Z;
  rowTotalSkills : option Z;
  rowTotalMarketplaces : option Z
}.


End MarketplaceServer.

(* ================================================================== *)
(** * lib/plugin-db-server.ts                                          *)
(* ================================================================== *)

Module PluginDbServer.
Import Schema Async.
Local Open Scope async_scope.

Inductive SortOption :=
| Relevance | Stars | Newest | Oldest | Name | NameDesc | Updated.

Record UnifiedPlugin := {
  type : string;
  name : string;
  description : string;
  category : option string;
  tags : list string;
  marketplaceId : option string;
  marketplaceName : option string;
  repository : option string;
  stars : option Z;
  installCommand : option string;
  namespace : option string;
  author : option string;
  version : option string
}.

Record PaginatedPlugins := {
  plugins : list UnifiedPlugin;
  total : Z;
  pageLimit : Z;
  pageOffset : Z;
  hasMore : bool
}.

Record Options := {
  limit : option Z;
  offset : option Z;
  search : option string;
  sort : option SortOption;
  typeFilter : option string;
  marketplaceFilter : option string;
  categoryFilter : option string
}.

(** The defaults of the destructured options: [limit = 50, offset = 0]. *)
Definition limitOf (o : Options) : Z := match limit o with Some n => n | None => 50 end.
Definition offsetOf (o : Options) : Z := match offset o with Some n => n | None => 0 end.

Definition BUILD_WITH_CLAUDE_MARKETPLACE : string := "Build with Claude".
Definition BUILD_WITH_CLAUDE_ID : string := "build-with-claude".

(** Modelled from the spec: the local loaders ([subagents-server],
    [commands-server], [hooks-server], [skills-server],
    [plugins-server]) are not among the sources.  A loader is a
    synchronous call that returns its entries or throws; an entry
    carries the fields [getLocalBuildWithClaudePlugins] reads. *)
Record LocalEntry := {
  entryName : string;
  entryDescription : string;
  entryCategory : option string
}.

Record LocalPlugin := {
  lpName : string;
  lpDescription : string;
  lpCategory : option string;
  lpKeywords : option (list string);
  lpRepository : option string;
  lpAuthorName : option string;
  lpVersion : option string
}.

Record LocalContent := {
  getAllSubagents : Outcome (list LocalEntry);
  getAllCommands : Outcome (list LocalEntry);
  getAllHooks : Outcome (list LocalEntry);
  getAllSkills : Outcome (list LocalEntry);
  getLocalPlugins : Outcome (list LocalPlugin)
}.

Definition ofEntry (ty : string) (e : LocalEntry) : UnifiedPlugin :=
  {| type := ty;
     name := entryName e;
     description := entryDescription e;
     category := entryCategory e;
     tags := [];
     marketplaceId := Some BUILD_WITH_CLAUDE_ID;
     marketplaceName := Some BUILD_WITH_CLAUDE_MARKETPLACE;
     repository := None; stars := None; installCommand := None;
     namespace := None; author := None; version := None |}.

Definition ofLocalPlugin (p : LocalPlugin) : UnifiedPlugin :=
  {| type := "plugin";
     name := lpName p;
     description := lpDescription p;
     category := lpCategory p;
     tags := JS.orEmpty (lpKeywords p);
     marketplaceId := Some BUILD_WITH_CLAUDE_ID;
     marketplaceName := Some BUILD_WITH_CLAUDE_MARKETPLACE;
     repository := lpRepository p;
     stars := None; installCommand := None; namespace := None;
     author := lpAuthorName p;
     version := lpVersion p |}.

(** One [try { ... } catch { console.warn }] block: a loader that
    throws contributes nothing. *)
Definition loaded {A} (loader : Outcome (list A)) (f : A -> UnifiedPlugin)
    : list UnifiedPlugin :=
  match loader with
  | Resolved xs => map f xs
  | Rejected => []
  end.

Definition getLocalBuildWithClaudePlugins (L : LocalContent) : list UnifiedPlugin :=
  loaded (getAllSubagents L) (ofEntry "subagent")
  ++ loaded (getAllCommands L) (ofEntry "command")
  ++ loaded (getAllHooks L) (ofEntry "hook")
  ++ loaded (getAllSkills L) (ofEntry "skill")
  ++ loaded (getLocalPlugins L) ofLocalPlugin.

(** [category.split(',').map(c => c.trim()).filter(Boolean)] *)
Definition categoriesOf (category : string) : list string :=
  JS.filterBoolean (map JS.trim (JS.split "," category)).

Definition isBuildWithClaude (marketplaceId : option string) : bool :=
  match marketplaceId with
  | Some m => String.eqb m BUILD_WITH_CLAUDE_ID
              || String.eqb m BUILD_WITH_CLAUDE_MARKETPLACE
  | None => false
  end.

(** [x && x !== 'all'] *)
Definition selective (x : option string) : bool :=
  JS.truthy x && negb (String.eqb (JS.orStr x "") "all").

Definition filterLocalPlugins (ps : list UnifiedPlugin) (o : Options)
    : list UnifiedPlugin :=
  let filtered :=
    if selective (typeFilter o)
    then List.filter (fun p => String.eqb (type p) (JS.orStr (typeFilter o) "")) ps
    else ps in
  if selective (marketplaceFilter o) && negb (isBuildWithClaude (marketplaceFilter o))
  then []
  else
    let filtered :=
      if JS.truthy (categoryFilter o)
      then let categories := categoriesOf (JS.orStr (categoryFilter o) "") in
           match categories with
           | [] => filtered
           | _ => List.filter
                    (fun p => existsb (String.eqb (JS.orStr (category p) ""))
                                      categories)
                    filtered
           end
      else filtered in
    if JS.truthy (search o)
    then let searchLower := JS.toLowerCase (JS.orStr (search o) "") in
         List.filter
           (fun p => JS.includes (JS.toLowerCase (name p)) searchLower
                     || JS.includes (JS.toLowerCase (description p)) searchLower
                     || existsb (fun t => JS.includes (JS.toLowerCase t) searchLower)
                                (tags p))
           filtered
    else filtered.

(** [c ? 0 : 1] *)
Definition flag (c : bool) : Z := if c then 0 else 1.

Section WithPlatform.
Variable P : Platform.

Definition byName (a b : UnifiedPlugin) : Z :=
  localeCompare P (name a) (name b).

(** Lines 212-230: the comparator of the relevance sort. *)
Definition byRelevance (searchLower : string) (a b : UnifiedPlugin) : Z :=
  let aExact := flag (String.eqb (JS.toLowerCase (name a)) searchLower) in
  let bExact := flag (String.eqb (JS.toLowerCase (name b)) searchLower) in
  if negb (aExact =? bExact) then aExact - bExact
  else
    let aStarts := flag (JS.startsWith (JS.toLowerCase (name a)) searchLower) in
    let bStarts := flag (JS.startsWith (JS.toLowerCase (name b)) searchLower) in
    if negb (aStarts =? bStarts) then aStarts - bStarts
    else
      let aContains := flag (JS.includes (JS.toLowerCase (name a)) searchLower) in
      let bContains := flag (JS.includes (JS.toLowerCase (name b)) searchLower) in
      if negb (aContains =? bContains) then aContains - bContains
      else localeCompare P (name a) (name b).

Definition sortPlugins (ps : list UnifiedPlugin) (sort : option SortOption)
    (search : option string) : list UnifiedPlugin :=
  let sorted := ps in
  match sort with
  | Some Name => JS.sort byName sorted
  | Some NameDesc => JS.sort (fun a b => byName b a) sorted
  | Some Stars => JS.sort (fun a b => JS.orZero (stars b) - JS.orZero (stars a)) sorted
  | Some Newest | Some Oldest | Some Updated => sorted
  | Some Relevance | None =>
      if JS.truthy search
      then JS.sort (byRelevance (JS.toLowerCase (JS.orStr search ""))) sorted
      else JS.sort byName sorted
  end.

Definition is_hex (c : ascii) : bool :=
  JS.in_range 48 57 c || JS.in_range 97 102 c || JS.in_range 65 70 c.

Fixpoint hex_run (n : nat) (s : string) : option string :=
  match n with
  | O => Some s
  | S n' => match s with
            | String c s' => if is_hex c then hex_run n' s' else None
            | EmptyString => None
            end
  end.

Definition dash (s : string) : option string :=
  match s with
  | String c s' => if Ascii.eqb c "-" then Some s' else None
  | EmptyString => None
  end.

(** Line 302: the UUID test, groups of 8-4-4-4-12 hexadecimal digits. *)
Fixpoint hex_groups (ns : list nat) (s : string) : bool :=
  match ns with
  | [] => false
  | n :: ns' =>
      match hex_run n s with
      | Some rest =>
          match ns' with
          | [] => String.eqb rest ""
          | _ => match dash rest with
                 | Some rest' => hex_groups ns' rest'
                 | None => false
                 end
          end
      | None => false
      end
  end.

Definition isUUID (s : string) : bool := hex_groups [8; 4; 4; 4; 12]%nat s.

Definition col_eq (col : option string) (x : string) : bool :=
  match col with Some c => String.eqb c x | None => false end.

(** [eq] on the [uuid] column: PostgreSQL reads the digits of a
    UUID in either case. *)
Definition uuid_eq (col : option string) (x : string) : bool :=
  match col with
  | Some c => String.eqb (JS.toLowerCase c) (JS.toLowerCase x)
  | None => false
  end.

(** Lines 291-336. *)
Definition whereClause (o : Options) (r : PluginDB) : bool :=
  let type := match typeFilter o with Some t => Some t | None => Some "all"%string end in
  pActive r
  && (if selective type then String.eqb (pType r) (JS.orStr type "") else true)
  && (if selective (marketplaceFilter o)
      then let m := JS.orStr (marketplaceFilter o) "" in
           if isUUID m
           then uuid_eq (pMarketplaceId r) m || col_eq (pMarketplaceName r) m
           else col_eq (pMarketplaceName r) m
      else true)
  && (if JS.truthy (categoryFilter o)
      then match categoriesOf (JS.orStr (categoryFilter o) "") with
           | [] => true
           | [c] => Sql.any_eq c (JS.orEmpty (pCategories r))
           | cs => Sql.overlaps (JS.orEmpty (pCategories r)) cs
           end
      else true)
  && (if JS.truthy (search o)
      then let s := JS.orStr (search o) "" in
           let searchPattern := ("%" ++ s ++ "%")%string in
           Sql.ilike (Some (pName r)) searchPattern
           || Sql.ilike (pDescription r) searchPattern
           || Sql.any_eq s (JS.orEmpty (pKeywords r))
      else true).

Definition relevance_tier (s : string) (r : PluginDB) : Z :=
  if Sql.ilike (Some (pName r)) s then 0
  else if Sql.ilike (Some (pName r)) (s ++ "%")%string then 1
  else if Sql.ilike (Some (pName r)) ("%" ++ s ++ "%")%string then 2
  else if Sql.ilike (pDescription r) ("%" ++ s ++ "%")%string then 3
  else 4.

Definition byPluginName (a b : PluginDB) : Z := collate P (pName a) (pName b).

(** Lines 339-376. *)
Definition orderBy (o : Options) : PluginDB -> PluginDB -> Z :=
  match sort o with
  | Some Name => byPluginName
  | Some NameDesc => Sql.reverse byPluginName
  | Some Newest => Sql.desc pUpdatedAt
  | Some Oldest => Sql.asc pUpdatedAt
  | Some Updated => Sql.desc pUpdatedAt
  | Some Stars => Sql.desc (fun r => JS.orZero (pStars r))
  | Some Relevance | None =>
      if JS.truthy (search o)
      then Sql.then_by (Sql.asc (relevance_tier (JS.orStr (search o) "")))
                       (Sql.desc (fun r => JS.orZero (pStars r)))
      else byPluginName
  end.

(** Lines 413-427. *)
Definition ofRow (p : PluginDB) : UnifiedPlugin :=
  {| type := JS.orStr (Some (pType p)) "plugin";
     name := pName p;
     description := JS.orStr (pDescription p) "";
     category := Some (JS.orStr (head (JS.orEmpty (pCategories p))) "uncategorized");
     tags := JS.orEmpty (pKeywords p);
     marketplaceId := JS.orNull (pMarketplaceId p);
     marketplaceName := JS.orNull (pMarketplaceName p);
     repository := JS.orNull (pRepository p);
     stars := pStars p;
     installCommand := JS.orNull (pInstallCommand p);
     namespace := Some (pNamespace p);
     author := JS.orNull (pAuthor p);
     version := JS.orNull (pVersion p) |}.

(** Lines 436 and 445: the composite key. *)
Definition keyOf (p : UnifiedPlugin) : string :=
  (type p ++ ":" ++ JS.toLowerCase (name p))%string.

(** One turn of either loop of lines 435-450. *)
Definition addUnseen (acc : gset string * list UnifiedPlugin) (p : UnifiedPlugin)
    : gset string * list UnifiedPlugin :=
  let key := keyOf p in
  if decide (key ∈ acc.1) then acc
  else ({[key]} ∪ acc.1, acc.2 ++ [p]).

Definition mergePlugins (localPlugins dbPlugins : list UnifiedPlugin)
    : list UnifiedPlugin :=
  (fold_left addUnseen dbPlugins (fold_left addUnseen localPlugins (∅, []))).2.

Definition page (items : list UnifiedPlugin) (limit offset : Z) : PaginatedPlugins :=
  let total := Z.of_nat (length items) in
  let paginated := JS.slice offset (offset + limit) items in
  {| plugins := paginated;
     total := total;
     pageLimit := limit;
     pageOffset := offset;
     hasMore := offset + Z.of_nat (length paginated) <? total |}.

Definition getPluginsPaginated (L : LocalContent) (o : Options) : M PaginatedPlugins :=
  let limit := limitOf o in
  let offset := offsetOf o in
  let isBWCOnly := isBuildWithClaude (marketplaceFilter o) in
  let isOtherMarketplace := selective (marketplaceFilter o) && negb isBWCOnly in
  let localPlugins :=
    if negb isOtherMarketplace
    then sortPlugins (filterLocalPlugins (getLocalBuildWithClaudePlugins L) o)
                     (sort o) (search o)
    else [] in
  if isBWCOnly then ret (page localPlugins limit offset)
  else
    r <- all2
           (dbRead (fun d => Sql.select (whereClause o) (orderBy o)
                               (Some 1000) None (Schema.plugins d)))
           (dbRead (fun d => Sql.count (whereClause o) (Schema.plugins d))) ;;
    let dbPlugins := map ofRow (fst r) in
    let merged := mergePlugins localPlugins dbPlugins in
    let sortedMerged := sortPlugins merged (sort o) (search o) in
    ret (page sortedMerged limit offset).

Definition getPluginBySlug (slug : string) : M (option UnifiedPlugin) :=
  r <- dbRead (fun d => Sql.select
                          (fun p => String.eqb (pSlug p) slug
                                    || String.eqb (pName p) slug)
                          Sql.unordered (Some 1) None (Schema.plugins d)) ;;
  ret (match r with
       | [] => None
       | p :: _ => Some (ofRow p)
       end).

End WithPlatform.

(** ** Filter options and counters (lines 468-640, 734-752, 864-882) *)

Record MarketplaceOption := {
  optId : string;
  optName : string;
  optDisplayName : string;
  optPluginCount : Z
}.

(** Lines 509-519: a registered marketplace, unless its display name
    is taken. *)
Definition addMarketplace (acc : gset string * list MarketplaceOption)
    (m : MarketplaceDB) : gset string * list MarketplaceOption :=
  if decide (mDisplayName m ∈ acc.1) then acc
  else ({[mDisplayName m]} ∪ acc.1,
        acc.2 ++ [ {| optId := mId m; optName := mName m;
                      optDisplayName := mDisplayName m;
                      optPluginCount := mPluginCount m |} ]).

(** Lines 522-532: a marketplace name that only plugins carry. *)
Definition addPluginSource (acc : gset string * list MarketplaceOption)
    (pm : option string * Z) : gset string * list MarketplaceOption :=
  match pm.1 with
  | Some (String c s) =>
      let marketplaceName := String c s in
      if decide (marketplaceName ∈ acc.1) then acc
      else ({[marketplaceName]} ∪ acc.1,
            acc.2 ++ [ {| optId := marketplaceName; optName := marketplaceName;
                          optDisplayName := marketplaceName;
                          optPluginCount := pm.2 |} ])
  | _ => acc
  end.

Definition byPluginCountDesc (a b : MarketplaceOption) : Z :=
  optPluginCount b - optPluginCount a.

Definition getPluginMarketplaces (L : LocalContent) : M (list MarketplaceOption) :=
  let localPlugins := getLocalBuildWithClaudePlugins L in
  let localCount := Z.of_nat (length localPlugins) in
  dbMarketplaces <- dbRead (fun d => Sql.select mActive (Sql.desc mPluginCount)
                                       None None (marketplaces d)) ;;
  pluginMarketplaces <- dbRead (fun d =>
                          Resolved (Sql.groupCount McpServerDb.option_eqb
                                      (map pMarketplaceName
                                           (List.filter pActive (Schema.plugins d))))) ;;
  let results := [ {| optId := BUILD_WITH_CLAUDE_ID; optName := BUILD_WITH_CLAUDE_ID;
                      optDisplayName := BUILD_WITH_CLAUDE_MARKETPLACE;
                      optPluginCount := localCount |} ] in
  let existingNames : gset string := {[BUILD_WITH_CLAUDE_MARKETPLACE]} in
  let acc := fold_left addMarketplace dbMarketplaces (existingNames, results) in
  let acc := fold_left addPluginSource pluginMarketplaces acc in
  ret (JS.sort byPluginCountDesc acc.2).

Record TypeCounts := {
  subagents : Z;
  commands : Z;
  hooks : Z;
  skills : Z;
  pluginsOnly : Z
}.

Record UIStats := { uiTotal : Z; uiCounts : TypeCounts }.

Definition noCounts : TypeCounts :=
  {| subagents := 0; commands := 0; hooks := 0; skills := 0; pluginsOnly := 0 |}.

(** Lines 562-581: [localCounts.x++] by type. *)
Definition countLocal (c : TypeCounts) (p : UnifiedPlugin) : TypeCounts :=
  if String.eqb (type p) "subagent" then
    {| subagents := subagents c + 1; commands := commands c; hooks := hooks c;
       skills := skills c; pluginsOnly := pluginsOnly c |}
  else if String.eqb (type p) "command" then
    {| subagents := subagents c; commands := commands c + 1; hooks := hooks c;
       skills := skills c; pluginsOnly := pluginsOnly c |}
  else if String.eqb (type p) "hook" then
    {| subagents := subagents c; commands := commands c; hooks := hooks c + 1;
       skills := skills c; pluginsOnly := pluginsOnly c |}
  else if String.eqb (type p) "skill" then
    {| subagents := subagents c; commands := commands c; hooks := hooks c;
       skills := skills c + 1; pluginsOnly := pluginsOnly c |}
  else
    {| subagents := subagents c; commands := commands c; hooks := hooks c;
       skills := skills c; pluginsOnly := pluginsOnly c + 1 |}.

(** Lines 601-623: [dbCounts.x = count] by type, the rest added up. *)
Definition countDb (c : TypeCounts) (stat : string * Z) : TypeCounts :=
  let count := stat.2 in
  if String.eqb stat.1 "subagent" then
    {| subagents := count; commands := commands c; hooks := hooks c;
       skills := skills c; pluginsOnly := pluginsOnly c |}
  else if String.eqb stat.1 "command" then
    {| subagents := subagents c; commands := count; hooks := hooks c;
       skills := skills c; pluginsOnly := pluginsOnly c |}
  else if String.eqb stat.1 "hook" then
    {| subagents := subagents c; commands := commands c; hooks := count;
       skills := skills c; pluginsOnly := pluginsOnly c |}
  else if String.eqb stat.1 "skill" then
    {| subagents := subagents c; commands := commands c; hooks := hooks c;
       skills := count; pluginsOnly := pluginsOnly c |}
  else
    {| subagents := subagents c; commands := commands c; hooks := hooks c;
       skills := skills c; pluginsOnly := pluginsOnly c + count |}.

Definition getPluginStatsForUI (L : LocalContent) : M UIStats :=
  let localPlugins := getLocalBuildWithClaudePlugins L in
  let localCounts := fold_left countLocal localPlugins noCounts in
  typeStats <- dbRead (fun d =>
                 Resolved (Sql.groupCount String.eqb
                             (map pType (List.filter pActive (Schema.plugins d))))) ;;
  let dbCounts := fold_left countDb typeStats noCounts in
  let counts :=
    {| subagents := Z.max (subagents localCounts) (subagents dbCounts);
       commands := Z.max (commands localCounts) (commands dbCounts);
       hooks := Z.max (hooks localCounts) (hooks dbCounts);
       skills := Z.max (skills localCounts) (skills dbCounts);
       pluginsOnly := pluginsOnly localCounts + pluginsOnly dbCounts |} in
  ret {| uiTotal := subagents counts + commands counts + hooks counts
                    + skills counts + pluginsOnly counts;
         uiCounts := counts |}.

Definition hasType (ty : string) (p : UnifiedPlugin) : bool := String.eqb (type p) ty.

Definition getPluginOnlyCount (L : LocalContent) : M Z :=
  let localPlugins := getLocalBuildWithClaudePlugins L in
  let localCount := Z.of_nat (length (List.filter (hasType "plugin") localPlugins)) in
  dbCount <- dbRead (fun d => Sql.count (fun p => pActive p && String.eqb (pType p) "plugin")
                                (Schema.plugins d)) ;;
  ret (localCount + JS.orZero (head dbCount)).

Definition getSkillOnlyCount (L : LocalContent) : M Z :=
  let localPlugins := getLocalBuildWithClaudePlugins L in
  let localCount := Z.of_nat (length (List.filter (hasType "skill") localPlugins)) in
  dbCount <- dbRead (fun d => Sql.count (fun p => pActive p && String.eqb (pType p) "skill")
                                (Schema.plugins d)) ;;
  ret (localCount + JS.orZero (head dbCount)).

End PluginDbServer.

(* ================================================================== *)
(** * components/unified-plugin-card.tsx                               *)
(* ================================================================== *)

Module PluginCard.
Import PluginDbServer.

(** Lines 69-84: where the card of a plugin links to. *)
Definition getDetailUrl (plugin : UnifiedPlugin) : string :=
  if String.eqb (type plugin) "subagent" then "/subagent/" +:+ name plugin
  else if String.eqb (type plugin) "command" then "/command/" +:+ name plugin
  else if String.eqb (type plugin) "hook" then "/hook/" +:+ name plugin
  else if String.eqb (type plugin) "skill" then "/skill/" +:+ name plugin
  else if String.eqb (type plugin) "plugin" then
    if McpServerDb.option_eqb (marketplaceName plugin) (Some "Build with Claude"%string)
    then "/plugin/" +:+ name plugin
    else JS.orStr (repository plugin) "#"
  else "#".

End PluginCard.

(* ================================================================== *)
(** * The MCP indexer and stats syncer                                 *)
(* ================================================================== *)

Module Indexer.
Import Schema Async SafeQuery.
Local Open Scope async_scope.

(** ** Helper functions (lines 1557-1727) *)

Definition formatServerName (name : string) : string :=
  match name with
  | EmptyString => "Unknown Server"
  | _ =>
      let baseName := if JS.includes name "/" then JS.after_last_slash name else name in
      let cleaned :=
        JS.map_string (fun c => if Ascii.eqb c "-" || Ascii.eqb c "_" then " "%char else c)
          (JS.strip_suffix "-mcp" (JS.orStr (Some baseName) "unknown")) in
      String.concat " " (map JS.capitalize (JS.split " " cleaned))
  end.

Definition getShortName (name : string) : string :=
  match name with
  | EmptyString => "unknown"
  | _ =>
      let baseName := if JS.includes name "/" then JS.after_last_slash name else name in
      JS.replace_non_slug (JS.toLowerCase (JS.orStr (Some baseName) "unknown"))
  end.

(** The ordered rules of [categorizeServer]: the first rule one of
    whose keywords occurs as a word decides. *)
Definition categoryRules : list (list string * string) :=
  [ (["ai"; "llm"; "gpt"; "claude"; "model"; "machine learning"; "ml"; "neural";
      "embedding"; "vector"], "ai-task-management");
    (["database"; "db"; "sql"; "sqlite"; "mysql"; "postgres"; "postgresql"; "mongo";
      "mongodb"; "redis"; "supabase"], "database");
    (["aws"; "amazon"; "azure"; "gcp"; "google cloud"; "cloud"; "kubernetes"; "k8s";
      "docker"; "serverless"], "cloud-infrastructure");
    (["github"; "gitlab"; "git"; "ci"; "cd"; "devops"; "deploy"; "pipeline"],
      "developer-tools");
    (["search"; "brave"; "google"; "bing"; "query"; "find"; "discover"], "web-search");
    (["browser"; "chrome"; "puppeteer"; "playwright"; "selenium"; "web"; "scrape";
      "crawl"], "browser-automation");
    (["file"; "filesystem"; "fs"; "directory"; "folder"; "storage"], "file-system");
    (["notion"; "slack"; "discord"; "email"; "calendar"; "todo"; "task"; "project"],
      "productivity");
    (["finance"; "trading"; "stock"; "crypto"; "blockchain"; "bitcoin"; "payment"],
      "blockchain-crypto");
    (["image"; "video"; "audio"; "media"; "youtube"; "spotify"; "music"; "photo"],
      "media-generation") ]%string.

Fixpoint firstRule (rules : list (list string * string)) (text : string) : string :=
  match rules with
  | [] => "utilities"
  | (kws, cat) :: rest =>
      if JS.matches_word kws text then cat else firstRule rest text
  end.

Definition categorizeServer (name description : string) : string :=
  firstRule categoryRules (JS.toLowerCase (name +:+ " " +:+ description)).

Definition vendorMap : list (string * string) :=
  [ ("github", "GitHub"); ("aws", "AWS"); ("azure", "Microsoft");
    ("google", "Google"); ("slack", "Slack"); ("notion", "Notion");
    ("docker", "Docker"); ("kubernetes", "Kubernetes");
    ("terraform", "HashiCorp"); ("mongodb", "MongoDB");
    ("postgres", "PostgreSQL"); ("redis", "Redis"); ("mysql", "MySQL");
    ("sqlite", "SQLite"); ("supabase", "Supabase") ]%string.

Definition extractVendor (name : string) : string :=
  let nameLower := JS.toLowerCase name in
  match List.find (fun kv => JS.includes nameLower (fst kv)) vendorMap with
  | Some kv => snd kv
  | None => "MCP"
  end.

Definition tagKeywords : list string :=
  ["aws"; "github"; "docker"; "kubernetes"; "database"; "api"; "ai"; "search";
   "security"; "monitoring"]%string.

Definition extractTags (name description : string) : list string :=
  let text := JS.toLowerCase (name +:+ " " +:+ description) in
  JS.dedupe (List.filter (fun keyword => JS.includes text keyword) tagKeywords).

(** ** Upstream shapes *)

Record EnvVarDecl := {
  envName : string;
  envDescription : option string;
  envRequired : option bool
}.

Record Package := {
  registryType : string;
  identifier : string;
  packageEnv : option (list EnvVarDecl)
}.

Record Remote := { remoteType : string; remoteUrl : string }.

Record EnvVar := { evName : string; evDescription : string; evRequired : bool }.

Record InstallationMethod := {
  methodType : string;
  recommended : bool;
  command : string;
  claudeCode : option string;
  requirements : list string
}.

(** What the [unknown[]] fields of a raw server hold. *)
Inductive Unknown :=
| OfPackage (p : Package)
| OfRemote (r : Remote)
| OfEnvVar (e : EnvVar)
| OfMethod (m : InstallationMethod).

Definition determineServerType (remotes : option (list Remote)) : string :=
  if existsb (fun r => String.eqb (remoteType r) "streamable-http"
                       || String.eqb (remoteType r) "http") (JS.orEmpty remotes)
  then "http"
  else if existsb (fun r => String.eqb (remoteType r) "sse") (JS.orEmpty remotes)
  then "sse"
  else "stdio".

Definition extractEnvVars (packages : option (list Package)) : list EnvVar :=
  fold_left
    (fun envVars env =>
       if existsb (fun e => String.eqb (evName e) (envName env)) envVars
       then envVars
       else envVars ++ [ {| evName := envName env;
                            evDescription := JS.orStr (envDescription env) "";
                            evRequired := match envRequired env with
                                          | Some false => false
                                          | _ => true
                                          end |} ])
    (flat_map (fun pkg => JS.orEmpty (packageEnv pkg)) (JS.orEmpty packages))
    [].

Definition isHttpRemote (r : Remote) : bool :=
  String.eqb (remoteType r) "streamable-http" || String.eqb (remoteType r) "http".

Definition buildInstallationMethods (serverName : string)
    (packages : option (list Package)) (remotes : option (list Remote))
    : list InstallationMethod :=
  let npmPkg := List.find (fun p => String.eqb (registryType p) "npm") (JS.orEmpty packages) in
  let ociPkg := List.find (fun p => String.eqb (registryType p) "oci") (JS.orEmpty packages) in
  let httpRemote := List.find isHttpRemote (JS.orEmpty remotes) in
  match npmPkg with
  | Some pkg =>
      let envFlags :=
        String.concat " "
          (map (fun e => "-e " +:+ envName e +:+ "=<value>") (JS.orEmpty (packageEnv pkg))) in
      [ {| methodType := "npm";
           recommended := true;
           command := "npx -y " +:+ identifier pkg;
           claudeCode :=
             Some (match envFlags with
                   | EmptyString =>
                       "claude mcp add " +:+ serverName +:+ " -- npx -y " +:+ identifier pkg
                   | _ =>
                       "claude mcp add " +:+ serverName +:+ " " +:+ envFlags
                       +:+ " -- npx -y " +:+ identifier pkg
                   end);
           requirements := ["Node.js"] |} ]
  | None => []
  end
  ++ match ociPkg with
     | Some pkg =>
         [ {| methodType := "docker";
              recommended := negb (bool_decide (is_Some npmPkg));
              command := "docker run -i " +:+ identifier pkg;
              claudeCode := None;
              requirements := ["Docker"] |} ]
     | None => []
     end
  ++ match httpRemote with
     | Some r =>
         [ {| methodType := "remote";
              recommended := negb (bool_decide (is_Some npmPkg))
                             && negb (bool_decide (is_Some ociPkg));
              command := remoteUrl r;
              claudeCode := Some ("claude mcp add --transport http " +:+ serverName
                                  +:+ " " +:+ remoteUrl r);
              requirements := [] |} ]
     | None => []
     end.

Record RawMCPServer := {
  name : string;
  display_name : string;
  full_name : option string;
  category : string;
  description : string;
  version : option string;
  server_type : option string;
  vendor : option string;
  logo_url : option string;
  verification_status : option string;
  verification_maintainer : option string;
  sources_github : option string;
  sources_docker : option string;
  sources_npm : option string;
  sources_official : option string;
  sources_documentation : option string;
  stats_github_stars : option Z;
  stats_docker_pulls : option Z;
  stats_npm_downloads : option Z;
  stats_last_updated : option string;
  source_registry_type : option string;
  source_registry_url : option string;
  packages : option (list Unknown);
  remotes : option (list Unknown);
  environment_variables : option (list Unknown);
  installation_methods : option (list Unknown);
  tags : option (list string)
}.

Record Meta := { publishedAt : option string; updatedAt : option string }.

Record OfficialServer := {
  osName : string;
  osTitle : option string;
  osDescription : option string;
  osVersion : option string;
  osRepositoryUrl : option string;
  osWebsite : option string;
  osPackages : option (list Package);
  osRemotes : option (list Remote)
}.

(** [metaOfficial] is [_meta['io.modelcontextprotocol.registry/official']],
    [metaTop] the [_meta] object itself. *)
Record OfficialEntry := {
  entryServer : option OfficialServer;
  metaOfficial : option Meta;
  metaTop : option Meta
}.

Record OfficialMCPResponse := {
  responseServers : list OfficialEntry;
  nextCursor : option string
}.

Record DockerRepo := {
  repoName : string;
  repoDescription : option string;
  pull_count : option Z;
  last_updated : option string
}.

Record DockerHubResponse := {
  results : list DockerRepo;
  next : option string
}.

(** The network.  A page request answers [None] when [fetch] throws,
    the status is not OK or the body is not the expected JSON; the two
    statistics look-ups are the settled values of [fetchDockerStats]
    and [fetchGitHubStats], which swallow every failure as [null]. *)
Record Web := {
  officialRegistry : option string -> option OfficialMCPResponse;
  dockerHub : string -> option DockerHubResponse;
  fetchDockerStats : string -> option Z;
  fetchGitHubStats : string -> option Z
}.

(** What a fetcher did: the requests it sent, in order, and the
    servers it returned, or [None] if it was still looping when the
    fuel ran out. *)
Record FetchRun (K : Type) := {
  requests : list K;
  settled : option (list RawMCPServer)
}.
Arguments requests {K} _.
Arguments settled {K} _.

(** [Date.now()], [new Date()] and SQL's [NOW()]. *)
Definition dateNow : M Z := fun w => (Resolved (now w), w).

Section WithPlatform.
Variable P : Platform.

(** [JSON.stringify] on the arrays the indexer stores. *)
Variable JSON_stringify : list Unknown -> string.

(** ** Official MCP registry (lines 1353-1428) *)

Definition maxPages : Z := 20.

Definition emptyMeta : Meta := {| publishedAt := None; updatedAt := None |}.

(** Lines 1377-1416: one entry of a page; [None] is the [continue]. *)
Definition officialToRaw (entry : OfficialEntry) : option RawMCPServer :=
  let meta := match metaOfficial entry with
              | Some m => m
              | None => match metaTop entry with Some m => m | None => emptyMeta end
              end in
  match entryServer entry with
  | None => None
  | Some server =>
      match osName server with
      | EmptyString => None
      | _ =>
          let shortName := getShortName (osName server) in
          let owner := if JS.includes (osName server) "/"
                       then JS.before_first_slash (osName server)
                       else "Community"%string in
          Some {| name := shortName;
                  display_name := JS.orStr (osTitle server)
                                           (formatServerName (osName server));
                  full_name := Some (osName server);
                  category := categorizeServer (osName server)
                                               (JS.orStr (osDescription server) "");
                  description := JS.orStr (osDescription server)
                                          ("MCP server: " +:+ osName server);
                  version := osVersion server;
                  server_type := Some (determineServerType (osRemotes server));
                  vendor := Some owner;
                  logo_url := None;
                  verification_status := Some "verified"%string;
                  verification_maintainer := Some owner;
                  sources_github := osRepositoryUrl server;
                  sources_docker := None;
                  sources_npm := None;
                  sources_official := JS.orElse (osWebsite server)
                                                (osRepositoryUrl server);
                  sources_documentation := None;
                  stats_github_stars := None;
                  stats_docker_pulls := None;
                  stats_npm_downloads := None;
                  stats_last_updated := JS.orElse (updatedAt meta) (publishedAt meta);
                  source_registry_type := Some "official-mcp"%string;
                  source_registry_url :=
                    Some ("https://registry.modelcontextprotocol.io/servers/"
                          +:+ encodeURIComponent P (osName server));
                  packages := option_map (map OfPackage) (osPackages server);
                  remotes := option_map (map OfRemote) (osRemotes server);
                  environment_variables :=
                    Some (map OfEnvVar (extractEnvVars (osPackages server)));
                  installation_methods :=
                    Some (map OfMethod
                            (buildInstallationMethods shortName (osPackages server)
                                                      (osRemotes server)));
                  tags := Some [] |}
      end
  end.

(** The [do { ... } while (cursor && pageCount < maxPages)] loop;
    each turn sends one request, with the cursor if there is one.
    A failed request throws, and the [catch] returns []. *)
Fixpoint officialLoop (fuel : nat) (W : Web) (servers : list RawMCPServer)
    (cursor : option string) (pageCount : Z) (sent : list (option string))
    : FetchRun (option string) :=
  match fuel with
  | O => {| requests := sent; settled := None |}
  | S fuel' =>
      let sent := sent ++ [JS.orNull cursor] in
      match officialRegistry W (JS.orNull cursor) with
      | None => {| requests := sent; settled := Some [] |}
      | Some data =>
          let pageCount := pageCount + 1 in
          let servers := servers ++ omap officialToRaw (responseServers data) in
          let cursor := JS.orNull (nextCursor data) in
          if JS.truthy cursor && (pageCount <? maxPages)
          then officialLoop fuel' W servers cursor pageCount sent
          else {| requests := sent; settled := Some servers |}
      end
  end.

Definition fetchOfficialMCPServers (fuel : nat) (W : Web) : FetchRun (option string) :=
  officialLoop fuel W [] None 0 [].

(** ** Docker Hub (lines 1445-1507) *)

Definition dockerToRaw (repo : DockerRepo) : RawMCPServer :=
  let name := repoName repo in
  let description := JS.orStr (repoDescription repo) ("MCP server for " +:+ name) in
  {| name := JS.replace_non_slug (JS.toLowerCase name);
     display_name := formatServerName name;
     full_name := None;
     category := categorizeServer name description;
     description := description;
     version := None;
     server_type := Some "stdio"%string;
     vendor := Some (extractVendor name);
     logo_url := None;
     verification_status := Some "verified"%string;
     verification_maintainer := Some "Docker"%string;
     sources_github := None;
     sources_docker := Some ("https://hub.docker.com/r/mcp/" +:+ name);
     sources_npm := None;
     sources_official := None;
     sources_documentation := None;
     stats_github_stars := None;
     stats_docker_pulls := Some (JS.orZero (pull_count repo));
     stats_npm_downloads := None;
     stats_last_updated := last_updated repo;
     source_registry_type := Some "docker"%string;
     source_registry_url :=
       Some ("https://hub.docker.com/r/mcp/" +:+ JS.toLowerCase name);
     packages := None;
     remotes := None;
     environment_variables := None;
     installation_methods :=
       Some [ OfMethod
                {| methodType := "docker";
                   recommended := true;
                   command := "docker mcp server enable " +:+ JS.toLowerCase name;
                   claudeCode := None;
                   requirements := ["Docker Desktop"; "Docker MCP Toolkit"]%string |} ];
     tags := Some (extractTags name description) |}.

Definition dockerStartUrl : string :=
  "https://hub.docker.com/v2/namespaces/mcp/repositories?page_size=100".

(** The [while (url) { ... }] loop. *)
Fixpoint dockerLoop (fuel : nat) (W : Web) (servers : list RawMCPServer)
    (url : option string) (sent : list string) : FetchRun string :=
  match fuel with
  | O => {| requests := sent; settled := None |}
  | S fuel' =>
      match url with
      | Some (String c u) =>
          let sent := sent ++ [String c u] in
          match dockerHub W (String c u) with
          | None => {| requests := sent; settled := Some [] |}
          | Some data =>
              let servers := servers ++ map dockerToRaw (results data) in
              dockerLoop fuel' W servers (JS.orNull (next data)) sent
          end
      | _ => {| requests := sent; settled := Some servers |}
      end
  end.

Definition fetchDockerMCPServers (fuel : nat) (W : Web) : FetchRun string :=
  dockerLoop fuel W [] (Some dockerStartUrl) [].

(** ** Upsert (lines 1244-1315) *)

Definition generateSlug (name sourceRegistry : string) : string :=
  let baseName := JS.collapse_hyphens (JS.replace_non_slug (JS.toLowerCase name)) in
  sourceRegistry +:+ "-" +:+ baseName.

(** The row of [.values({...})], inserted at time [t] under the
    fresh identifier [newId]; the columns the statement leaves out
    take their defaults. *)
Definition insertValues (server : RawMCPServer) (sourceRegistry slug : string)
    (t : Z) (newId : nat) : MCPServerDB :=
  {| Schema.id := newId;
     Schema.name := name server;
     Schema.displayName := display_name server;
     Schema.slug := slug;
     Schema.description := JS.orNull (Some (description server));
     Schema.version := JS.orNull (version server);
     Schema.category := JS.orStr (Some (category server)) "utilities";
     Schema.tags := JS.orEmpty (tags server);
     Schema.serverType := JS.orStr (server_type server) "stdio";
     Schema.vendor := JS.orNull (vendor server);
     Schema.logoUrl := JS.orNull (logo_url server);
     Schema.sourceRegistry := sourceRegistry;
     Schema.sourceUrl := JS.orNull (source_registry_url server);
     Schema.githubUrl := JS.orNull (sources_github server);
     Schema.dockerUrl := JS.orNull (sources_docker server);
     Schema.npmUrl := JS.orNull (sources_npm server);
     Schema.documentationUrl :=
       JS.orNull (JS.orElse (sources_documentation server) (sources_official server));
     Schema.githubStars := Some (JS.orZero (stats_github_stars server));
     Schema.dockerPulls := Some (JS.orZero (stats_docker_pulls server));
     Schema.npmDownloads := Some (JS.orZero (stats_npm_downloads server));
     Schema.packages := option_map JSON_stringify (packages server);
     Schema.remotes := option_map JSON_stringify (remotes server);
     Schema.environmentVariables :=
       option_map JSON_stringify (environment_variables server);
     Schema.installationMethods :=
       option_map JSON_stringify (installation_methods server);
     Schema.verificationStatus :=
       Some (JS.orStr (verification_status server) "community");
     Schema.active := true;
     Schema.lastIndexedAt := Some t;
     Schema.lastStatsSync := None;
     Schema.createdAt := t;
     Schema.updatedAt := t |}.

(** The [set] of [.onConflictDoUpdate]: the existing row [old] takes
    the listed columns from the proposed row [excluded]. *)
Definition onConflictDoUpdate (old excluded : MCPServerDB) (t : Z) : MCPServerDB :=
  {| Schema.id := Schema.id old;
     Schema.name := Schema.name old;
     Schema.displayName := Schema.displayName excluded;
     Schema.slug := Schema.slug old;
     Schema.description := Schema.description excluded;
     Schema.version := Schema.version excluded;
     Schema.category := Schema.category excluded;
     Schema.tags := Schema.tags excluded;
     Schema.serverType := Schema.serverType excluded;
     Schema.vendor := Schema.vendor excluded;
     Schema.logoUrl := Schema.logoUrl excluded;
     Schema.sourceRegistry := Schema.sourceRegistry old;
     Schema.sourceUrl := Schema.sourceUrl excluded;
     Schema.githubUrl := Schema.githubUrl excluded;
     Schema.dockerUrl := Schema.dockerUrl excluded;
     Schema.npmUrl := Schema.npmUrl excluded;
     Schema.documentationUrl := Schema.documentationUrl excluded;
     Schema.githubStars := Schema.githubStars excluded;
     Schema.dockerPulls := Schema.dockerPulls excluded;
     Schema.npmDownloads := Schema.npmDownloads excluded;
     Schema.packages := Schema.packages excluded;
     Schema.remotes := Schema.remotes excluded;
     Schema.environmentVariables := Schema.environmentVariables excluded;
     Schema.installationMethods := Schema.installationMethods excluded;
     Schema.verificationStatus := Schema.verificationStatus excluded;
     Schema.active := Schema.active old;
     Schema.lastIndexedAt := Schema.lastIndexedAt excluded;
     Schema.lastStatsSync := Schema.lastStatsSync old;
     Schema.createdAt := Schema.createdAt old;
     Schema.updatedAt := t |}.

Definition hasSlug (slug : string) (r : MCPServerDB) : bool :=
  String.eqb (Schema.slug r) slug.

(** [INSERT ... ON CONFLICT (slug) DO UPDATE SET ...] *)
Definition insertOnConflict (server : RawMCPServer) (sourceRegistry slug : string)
    (t : Z) (d : Db) : Db :=
  let excluded := insertValues server sourceRegistry slug t (nextId d) in
  if existsb (hasSlug slug) (mcpServers d)
  then {| mcpServers :=
            map (fun r => if hasSlug slug r then onConflictDoUpdate r excluded t else r)
                (mcpServers d);
          mcpServerStats := mcpServerStats d;
          marketplaces := marketplaces d;
          plugins := plugins d;
          nextId := nextId d |}
  else {| mcpServers := mcpServers d ++ [excluded];
          mcpServerStats := mcpServerStats d;
          marketplaces := marketplaces d;
          plugins := plugins d;
          nextId := S (nextId d) |}.

Definition upsertMCPServer (server : RawMCPServer) (sourceRegistry : string) : M bool :=
  let slug := generateSlug (name server) sourceRegistry in
  t <- dateNow ;;
  _ <- dbWrite (insertOnConflict server sourceRegistry slug t) ;;
  ret true.

End WithPlatform.

(** ** Indexing run (lines 1056-1125) *)

Record MCPServerIndexResult := {
  indexed : Z;
  failed : Z;
  skipped : Z;
  durationMs : Z;
  sourcesOfficialMcp : Z;
  sourcesDocker : Z
}.

(** Counters of one [for (const server of ...)] loop. *)
Record Tally := { tIndexed : Z; tFailed : Z; tSkipped : Z }.

Section Run.
Variable P : Platform.
Variable JSON_stringify : list Unknown -> string.

Fixpoint indexAll (servers : list RawMCPServer) (sourceRegistry : string)
    (acc : Tally) : M Tally :=
  match servers with
  | [] => ret acc
  | server :: rest =>
      r <- try_catch
             (wasIndexed <- upsertMCPServer JSON_stringify server sourceRegistry ;;
              ret (Some wasIndexed))
             (ret None) ;;
      indexAll rest sourceRegistry
        match r with
        | Some true => {| tIndexed := tIndexed acc + 1; tFailed := tFailed acc;
                          tSkipped := tSkipped acc |}
        | Some false => {| tIndexed := tIndexed acc; tFailed := tFailed acc;
                           tSkipped := tSkipped acc + 1 |}
        | None => {| tIndexed := tIndexed acc; tFailed := tFailed acc + 1;
                     tSkipped := tSkipped acc |}
        end
  end.

Definition zeroTally : Tally := {| tIndexed := 0; tFailed := 0; tSkipped := 0 |}.

(** [None] when a fetcher is still looping after [fuel] requests. *)
Definition indexMCPServers (fuel : nat) (W : Web)
    : World -> option (Outcome MCPServerIndexResult * World) :=
  fun w =>
    match settled (fetchOfficialMCPServers P fuel W),
          settled (fetchDockerMCPServers fuel W) with
    | Some officialServers, Some dockerServers =>
        Some ((startTime <- dateNow ;;
               o <- indexAll officialServers "official-mcp" zeroTally ;;
               d <- indexAll dockerServers "docker" zeroTally ;;
               endTime <- dateNow ;;
               ret {| indexed := tIndexed o + tIndexed d;
                      failed := tFailed o + tFailed d;
                      skipped := tSkipped o + tSkipped d;
                      durationMs := endTime - startTime;
                      sourcesOfficialMcp := tIndexed o;
                      sourcesDocker := tIndexed d |}) w)
    | _, _ => None
    end.

End Run.

(** ** Stats sync (lines 1130-1239) *)

Record StatsSyncResult := { updated : Z; syncFailed : Z; syncDurationMs : Z }.

(** The column projection of the bulk load. *)
Record ServerRef := {
  refId : nat;
  refName : string;
  refSourceRegistry : string;
  refDockerUrl : option string;
  refGithubUrl : option string;
  refGithubStars : option Z;
  refDockerPulls : option Z;
  refNpmDownloads : option Z
}.

Definition project (r : MCPServerDB) : ServerRef :=
  {| refId := Schema.id r;
     refName := Schema.name r;
     refSourceRegistry := Schema.sourceRegistry r;
     refDockerUrl := Schema.dockerUrl r;
     refGithubUrl := Schema.githubUrl r;
     refGithubStars := Schema.githubStars r;
     refDockerPulls := Schema.dockerPulls r;
     refNpmDownloads := Schema.npmDownloads r |}.

Definition loadServers : M (list ServerRef) :=
  dbRead (fun d => Resolved (map project (List.filter Schema.active (mcpServers d)))).

(** [.set({ dockerPulls, lastStatsSync, updatedAt })] *)
Definition setDockerPulls (pulls t : Z) (r : MCPServerDB) : MCPServerDB :=
  {| Schema.id := Schema.id r; Schema.name := Schema.name r;
     Schema.displayName := Schema.displayName r; Schema.slug := Schema.slug r;
     Schema.description := Schema.description r; Schema.version := Schema.version r;
     Schema.category := Schema.category r; Schema.tags := Schema.tags r;
     Schema.serverType := Schema.serverType r; Schema.vendor := Schema.vendor r;
     Schema.logoUrl := Schema.logoUrl r;
     Schema.sourceRegistry := Schema.sourceRegistry r;
     Schema.sourceUrl := Schema.sourceUrl r; Schema.githubUrl := Schema.githubUrl r;
     Schema.dockerUrl := Schema.dockerUrl r; Schema.npmUrl := Schema.npmUrl r;
     Schema.documentationUrl := Schema.documentationUrl r;
     Schema.githubStars := Schema.githubStars r;
     Schema.dockerPulls := Some pulls;
     Schema.npmDownloads := Schema.npmDownloads r;
     Schema.packages := Schema.packages r; Schema.remotes := Schema.remotes r;
     Schema.environmentVariables := Schema.environmentVariables r;
     Schema.installationMethods := Schema.installationMethods r;
     Schema.verificationStatus := Schema.verificationStatus r;
     Schema.active := Schema.active r;
     Schema.lastIndexedAt := Schema.lastIndexedAt r;
     Schema.lastStatsSync := Some t;
     Schema.createdAt := Schema.createdAt r;
     Schema.updatedAt := t |}.

(** [.set({ githubStars, lastStatsSync, updatedAt })] *)
Definition setGithubStars (stars t : Z) (r : MCPServerDB) : MCPServerDB :=
  {| Schema.id := Schema.id r; Schema.name := Schema.name r;
     Schema.displayName := Schema.displayName r; Schema.slug := Schema.slug r;
     Schema.description := Schema.description r; Schema.version := Schema.version r;
     Schema.category := Schema.category r; Schema.tags := Schema.tags r;
     Schema.serverType := Schema.serverType r; Schema.vendor := Schema.vendor r;
     Schema.logoUrl := Schema.logoUrl r;
     Schema.sourceRegistry := Schema.sourceRegistry r;
     Schema.sourceUrl := Schema.sourceUrl r; Schema.githubUrl := Schema.githubUrl r;
     Schema.dockerUrl := Schema.dockerUrl r; Schema.npmUrl := Schema.npmUrl r;
     Schema.documentationUrl := Schema.documentationUrl r;
     Schema.githubStars := Some stars;
     Schema.dockerPulls := Schema.dockerPulls r;
     Schema.npmDownloads := Schema.npmDownloads r;
     Schema.packages := Schema.packages r; Schema.remotes := Schema.remotes r;
     Schema.environmentVariables := Schema.environmentVariables r;
     Schema.installationMethods := Schema.installationMethods r;
     Schema.verificationStatus := Schema.verificationStatus r;
     Schema.active := Schema.active r;
     Schema.lastIndexedAt := Schema.lastIndexedAt r;
     Schema.lastStatsSync := Some t;
     Schema.createdAt := Schema.createdAt r;
     Schema.updatedAt := t |}.

(** [db.update(mcpServers).set(...).where(eq(mcpServers.id, id))] *)
Definition updateServer (id : nat) (f : MCPServerDB -> MCPServerDB) : M unit :=
  dbWrite (fun d =>
    {| mcpServers := map (fun r => if Nat.eqb (Schema.id r) id then f r else r)
                         (mcpServers d);
       mcpServerStats := mcpServerStats d;
       marketplaces := marketplaces d;
       plugins := plugins d;
       nextId := nextId d |}).

(** [db.insert(mcpServerStats).values(...)] *)
Definition insertStat (row : MCPServerStat) : M unit :=
  dbWrite (fun d =>
    {| mcpServers := mcpServers d;
       mcpServerStats := mcpServerStats d ++ [row];
       marketplaces := marketplaces d;
       plugins := plugins d;
       nextId := nextId d |}).

(** Lines 1171-1194: the Docker half; it yields [statsUpdated]. *)
Definition syncDocker (W : Web) (server : ServerRef) : M bool :=
  if JS.truthy (refDockerUrl server) && String.eqb (refSourceRegistry server) "docker"
  then match fetchDockerStats W (refName server) with
       | Some pulls =>
           t <- dateNow ;;
           _ <- updateServer (refId server) (setDockerPulls pulls t) ;;
           _ <- insertStat {| mcpServerId := refId server;
                              statDockerPulls := pulls;
                              statGithubStars := JS.orZero (refGithubStars server);
                              statNpmDownloads := JS.orZero (refNpmDownloads server) |} ;;
           ret true
       | None => ret false
       end
  else ret false.

(** Lines 1196-1220: the GitHub half. *)
Definition syncGithub (W : Web) (server : ServerRef) (statsUpdated : bool) : M bool :=
  if JS.truthy (refGithubUrl server)
  then match fetchGitHubStats W (JS.orStr (refGithubUrl server) "") with
       | Some stars =>
           t <- dateNow ;;
           _ <- updateServer (refId server) (setGithubStars stars t) ;;
           _ <- (if negb statsUpdated
                 then insertStat {| mcpServerId := refId server;
                                    statGithubStars := stars;
                                    statDockerPulls := JS.orZero (refDockerPulls server);
                                    statNpmDownloads := JS.orZero (refNpmDownloads server) |}
                 else ret tt) ;;
           ret true
       | None => ret statsUpdated
       end
  else ret statsUpdated.

(** The body of the [try] of one loop turn. *)
Definition syncServer (W : Web) (server : ServerRef) : M bool :=
  statsUpdated <- syncDocker W server ;;
  syncGithub W server statsUpdated.

Fixpoint syncAll (W : Web) (servers : list ServerRef) (updated failed : Z)
    : M (Z * Z) :=
  match servers with
  | [] => ret (updated, failed)
  | server :: rest =>
      r <- try_catch (statsUpdated <- syncServer W server ;; ret (Some statsUpdated))
                     (ret None) ;;
      match r with
      | Some true => syncAll W rest (updated + 1) failed
      | Some false => syncAll W rest updated failed
      | None => syncAll W rest updated (failed + 1)
      end
  end.

Definition syncMCPServerStats (W : Web) : M StatsSyncResult :=
  startTime <- dateNow ;;
  loaded <- safeDbQuery loadServers [] ;;
  if negb (fromDb loaded)
  then endTime <- dateNow ;;
       ret {| updated := 0; syncFailed := 0; syncDurationMs := endTime - startTime |}
  else
    counts <- syncAll W (data loaded) 0 0 ;;
    endTime <- dateNow ;;
    ret {| updated := fst counts; syncFailed := snd counts;
           syncDurationMs := endTime - startTime |}.

(** ** The GitHub API address (lines 1527-1532) *)

(** [/github\.com\/([^/]+)\/([^/]+)/] tried at the start of [s]: the
    two groups, each the longest run without a slash. *)
Definition match_github_here (s : string) : option (string * string) :=
  match JS.strip_prefix "github.com/" s with
  | Some rest =>
      match JS.span_no_slash rest with
      | (String c owner, String _ rest') =>
          match JS.span_no_slash rest' with
          | (String d repo, _) => Some (String c owner, String d repo)
          | _ => None
          end
      | _ => None
      end
  | None => None
  end.

(** [githubUrl.match(...)]: the leftmost place where the expression
    matches. *)
Fixpoint match_github (s : string) : option (string * string) :=
  match match_github_here s with
  | Some groups => Some groups
  | None => match s with
            | EmptyString => None
            | String _ s' => match_github s'
            end
  end.

(** The [apiUrl] of [fetchGitHubStats]; [None] where it returns
    [null] before any request. *)
Definition githubApiUrl (githubUrl : string) : option string :=
  match match_github githubUrl with
  | Some (owner, repo) =>
      Some ("https://api.github.com/repos/" +:+ owner +:+ "/"
            +:+ JS.strip_suffix ".git" repo)
  | None => None
  end.

End Indexer.

(* ================================================================== *)
(** * app/api/*/list/route.ts                                          *)
(* ================================================================== *)

Module Routes.
Import Async.
Local Open Scope async_scope.

(** The query string after [searchParams.get]; [limit] and [offset]
    are what [parseInt] made of the parameter, when it is present and
    a decimal integer. *)
Record SearchParams := {
  limit : option Z;
  offset : option Z;
  search : option string;
  sort : option string;
  category : option string;
  source : option string;
  verification : option string;
  type : option string;
  marketplaceId : option string
}.

(** [NextResponse.json(body, { status })] *)
Record Response (B : Type) := { status : Z; body : B }.
Arguments status {B} _.
Arguments body {B} _.

Definition json {B} (b : B) : Response B := {| status := 200; body := b |}.

(** [x && valid.includes(x) ? x : undefined] *)
Definition oneOf (valid : list string) (x : option string) : option string :=
  match x with
  | Some v => if JS.truthy x && existsb (String.eqb v) valid then Some v else None
  | None => None
  end.

Section WithPlatform.
Variable P : Platform.

(** *** GET /api/mcp-servers/list *)

Definition mcpSort (sortParam : option string) : McpServerDb.SortOption :=
  match sortParam with
  | Some "relevance"%string => McpServerDb.Relevance
  | Some "stars"%string => McpServerDb.Stars
  | Some "name"%string => McpServerDb.Name
  | Some "updated"%string => McpServerDb.Updated
  | _ => McpServerDb.Downloads
  end.

Definition GET_mcp_servers (q : SearchParams)
    : M (Response (McpServerDb.PaginatedMCPServers P)) :=
  let limit := Z.min (match limit q with Some n => n | None => 50 end) 100 in
  let offset := match offset q with Some n => n | None => 0 end in
  try_catch
    (result <- McpServerDb.getMCPServersPaginated P
                 {| McpServerDb.limit := Some limit;
                    McpServerDb.offset := Some offset;
                    McpServerDb.search := JS.orNull (search q);
                    McpServerDb.sort := Some (mcpSort (sort q));
                    McpServerDb.category := JS.orNull (category q);
                    McpServerDb.sourceRegistry :=
                      oneOf ["all"; "official-mcp"; "docker"; "github"; "community"]%string
                            (source q);
                    McpServerDb.verification :=
                      oneOf ["all"; "verified"; "community"; "experimental"]%string
                            (verification q) |} ;;
     ret (json result))
    (ret (json {| McpServerDb.servers := [];
                  McpServerDb.total := 0;
                  McpServerDb.pageLimit := limit;
                  McpServerDb.pageOffset := offset;
                  McpServerDb.hasMore := false |})).

(** *** GET /api/marketplaces/list *)

Definition marketplaceSort (sortParam : option string) : MarketplaceServer.SortOption :=
  match sortParam with
  | Some "stars"%string => MarketplaceServer.Stars
  | Some "newest"%string => MarketplaceServer.Newest
  | Some "oldest"%string => MarketplaceServer.Oldest
  | Some "name"%string => MarketplaceServer.Name
  | Some "name-desc"%string => MarketplaceServer.NameDesc
  | _ => MarketplaceServer.Relevance
  end.

Definition GET_marketplaces (q : SearchParams)
    : M (Response MarketplaceServer.PaginatedMarketplaces) :=
  let limit := Z.min (match limit q with Some n => n | None => 20 end) 100 in
  let offset := match offset q with Some n => n | None => 0 end in
  try_catch
    (result <- MarketplaceServer.getMarketplacesPaginated P
                 {| MarketplaceServer.limit := Some limit;
                    MarketplaceServer.offset := Some offset;
                    MarketplaceServer.search := JS.orNull (search q);
                    MarketplaceServer.sort := Some (marketplaceSort (sort q)) |} ;;
     ret (json result))
    (ret (json {| MarketplaceServer.marketplaceItems := [];
                  MarketplaceServer.total := 0;
                  MarketplaceServer.hasMore := false |})).

(** *** GET /api/plugins/list *)

Definition pluginSort (sortParam : option string) : PluginDbServer.SortOption :=
  match sortParam with
  | Some "stars"%string => PluginDbServer.Stars
  | Some "name"%string => PluginDbServer.Name
  | Some "updated"%string => PluginDbServer.Updated
  | _ => PluginDbServer.Relevance
  end.

Definition GET_plugins (L : PluginDbServer.LocalContent) (q : SearchParams)
    : M (Response PluginDbServer.PaginatedPlugins) :=
  let limit := Z.min (match limit q with Some n => n | None => 50 end) 100 in
  let offset := match offset q with Some n => n | None => 0 end in
  let type :=
    match oneOf ["all"; "subagent"; "command"; "hook"; "skill"; "plugin"]%string (type q)
    with Some t => t | None => "all"%string end in
  try_catch
    (result <- PluginDbServer.getPluginsPaginated P L
                 {| PluginDbServer.limit := Some limit;
                    PluginDbServer.offset := Some offset;
                    PluginDbServer.search := JS.orNull (search q);
                    PluginDbServer.sort := Some (pluginSort (sort q));
                    PluginDbServer.typeFilter := Some type;
                    PluginDbServer.marketplaceFilter := JS.orNull (marketplaceId q);
                    PluginDbServer.categoryFilter := JS.orNull (category q) |} ;;
     ret (json result))
    (ret (json {| PluginDbServer.plugins := [];
                  PluginDbServer.total := 0;
                  PluginDbServer.pageLimit := limit;
                  PluginDbServer.pageOffset := offset;
                  PluginDbServer.hasMore := false |})).

End WithPlatform.

End Routes.

(* ================================================================== *)
(** * Properties and sample inputs                                     *)
(* ================================================================== *)

Module Props.
Import Schema Async SafeQuery.

(** Two worlds that differ at most in what the clock reads. *)
Definition same_but_clock (w w' : World) : Prop :=
  dbUp w' = dbUp w /\ db w' = db w /\ breaker w' = breaker w.


(** Two reads under [Promise.all] behave as one read of the pair. *)
Definition both {A B} (a : Outcome A) (b : Outcome B) : Outcome (A * B) :=
  match a, b with
  | Resolved x, Resolved y => Resolved (x, y)
  | _, _ => Rejected
  end.

(** The query of a listing did not go through: the breaker is open,
    the database is down, or the offset is negative. *)
Definition query_fails (w : World) (offset : Z) : Prop :=
  short_circuits w = true \/ dbUp w = false \/ offset < 0.

(** The rows the page query of a listing selects when it goes through. *)
Definition mcpRows (P : Platform) (o : McpServerDb.Options) (w : World)
    : list MCPServerDB :=
  Sql.window (Some (McpServerDb.limitOf o)) (McpServerDb.offsetOf o)
    (JS.sort (McpServerDb.orderBy P o)
       (List.filter (McpServerDb.whereClause o) (mcpServers (db w)))).

Definition marketplaceRows (P : Platform) (o : MarketplaceServer.MarketplaceQueryOptions)
    (w : World) : list MarketplaceDB :=
  Sql.window (Some (MarketplaceServer.limitOf o)) (MarketplaceServer.offsetOf o)
    (JS.sort (MarketplaceServer.getOrderBy P (MarketplaceServer.sort o))
       (List.filter (MarketplaceServer.whereClause o) (marketplaces (db w)))).

(** The local items of a unified listing, filtered and sorted. *)
Definition localItems (P : Platform) (L : PluginDbServer.LocalContent)
    (o : PluginDbServer.Options) : list PluginDbServer.UnifiedPlugin :=
  if negb (PluginDbServer.selective (PluginDbServer.marketplaceFilter o)
           && negb (PluginDbServer.isBuildWithClaude (PluginDbServer.marketplaceFilter o)))
  then PluginDbServer.sortPlugins P
         (PluginDbServer.filterLocalPlugins
            (PluginDbServer.getLocalBuildWithClaudePlugins L) o)
         (PluginDbServer.sort o) (PluginDbServer.search o)
  else [].

(** The database items of a unified listing: at most 1000 active rows. *)
Definition dbItems (P : Platform) (o : PluginDbServer.Options) (w : World)
    : list PluginDbServer.UnifiedPlugin :=
  map PluginDbServer.ofRow
    (firstn 1000
       (JS.sort (PluginDbServer.orderBy P o)
          (List.filter (PluginDbServer.whereClause o) (plugins (db w))))).

(** The merged and re-sorted list a unified listing paginates. *)
Definition sortedMerged (P : Platform) (L : PluginDbServer.LocalContent)
    (o : PluginDbServer.Options) (w : World) : list PluginDbServer.UnifiedPlugin :=
  PluginDbServer.sortPlugins P
    (PluginDbServer.mergePlugins (localItems P L o) (dbItems P o w))
    (PluginDbServer.sort o) (PluginDbServer.search o).


(** The bookkeeping of the merge loops: [seen] holds exactly the keys
    of the items merged so far, and no key occurs twice among them. *)
Definition merge_inv (acc : gset string * list PluginDbServer.UnifiedPlugin) : Prop :=
  (forall k, k ∈ acc.1 <-> In k (map PluginDbServer.keyOf acc.2)) /\
  List.NoDup (map PluginDbServer.keyOf acc.2).

(** The five types of local content. *)
Definition localTypes : list string :=
  ["subagent"; "command"; "hook"; "skill"; "plugin"]%string.

(** ** Relevance order *)

(** The order of the MCP relevance sort: by tier, then by pulls,
    larger first. *)
Definition mcp_before (P : Platform) (s : string) (a b : MCPServerDB) : Prop :=
  McpServerDb.relevance_tier s a < McpServerDb.relevance_tier s b \/
  (McpServerDb.relevance_tier s a = McpServerDb.relevance_tier s b /\
   McpServerDb.pulls b <= McpServerDb.pulls a).

(** A search term without the wild cards [%] and [_] and without
    the escape character of LIKE. *)
Fixpoint plain (s : string) : bool :=
  match s with
  | EmptyString => true
  | String c s' =>
      negb (Ascii.eqb c "%" || Ascii.eqb c "_" || Ascii.eqb c "\") && plain s'
  end.

(** The tiers of the MCP relevance order spelled out for a plain
    term: exact name, name prefix, display-name substring, description
    substring, everything else, all up to case. *)
Definition plainTier (s : string) (r : MCPServerDB) : Z :=
  let q := JS.toLowerCase s in
  if String.eqb (JS.toLowerCase (Schema.name r)) q then 0
  else if JS.startsWith (JS.toLowerCase (Schema.name r)) q then 1
  else if JS.includes (JS.toLowerCase (Schema.displayName r)) q then 2
  else if match Schema.description r with
          | Some d => JS.includes (JS.toLowerCase d) q
          | None => false
          end then 3
  else 4.

(** The tiers of [sortPlugins]: exact name, name prefix, name
    substring, everything else. *)
Definition pluginTier (searchLower : string) (p : PluginDbServer.UnifiedPlugin) : Z :=
  let n := JS.toLowerCase (PluginDbServer.name p) in
  if String.eqb n searchLower then 0
  else if JS.startsWith n searchLower then 1
  else if JS.includes n searchLower then 2
  else 3.

(** The order of [sortPlugins] under a search: by tier, then by name. *)
Definition plugin_before (P : Platform) (searchLower : string)
    (a b : PluginDbServer.UnifiedPlugin) : Prop :=
  pluginTier searchLower a < pluginTier searchLower b \/
  (pluginTier searchLower a = pluginTier searchLower b /\
   localeCompare P (PluginDbServer.name a) (PluginDbServer.name b) <= 0).

(** [localeCompare] orders strings: any two are comparable, and the
    order is transitive. *)
Definition localeCompare_total (P : Platform) : Prop :=
  forall a b, localeCompare P a b <= 0 \/ localeCompare P b a <= 0.

Definition localeCompare_trans (P : Platform) : Prop :=
  forall a b c, localeCompare P a b <= 0 -> localeCompare P b c <= 0 ->
                localeCompare P a c <= 0.

(** Popularity, missing stars counting as none. *)
Definition popularity (p : PluginDbServer.UnifiedPlugin) : Z :=
  JS.orZero (PluginDbServer.stars p).

(** Three-way comparison of strings by code units. *)
Definition codeUnitCompare (a b : string) : Z :=
  match String.compare a b with Lt => -1 | Eq => 0 | Gt => 1 end.

(** A platform to run the examples on. *)
Definition samplePlatform : Platform :=
  {| Json := string;
     JSON_parse := fun _ => None;
     encodeURIComponent := fun s => s;
     collate := codeUnitCompare;
     localeCompare := codeUnitCompare |}.

Definition emptyDb : Db :=
  {| mcpServers := []; mcpServerStats := []; marketplaces := [];
     plugins := []; nextId := 0 |}.

(** A database that is down at time 1000, the breaker closed. *)
Definition w_down : World :=
  {| now := 1000; dbUp := false; db := emptyDb;
     breaker := {| circuitOpen := false; circuitOpenedAt := 0 |} |}.

Definition count_call : Call :=
  {| resultT := Z; queryFn := dbRead (fun _ => Resolved 7); fallback := 0 |}.

Definition const_call : Call :=
  {| resultT := Z; queryFn := ret 5; fallback := 0 |}.

(** A server row with the given identity, everything else blank. *)
Definition serverRow (id : nat) (name slug registry : string) (active : bool)
    : MCPServerDB :=
  {| Schema.id := id; Schema.name := name; Schema.displayName := name;
     Schema.slug := slug; Schema.description := None; Schema.version := None;
     Schema.category := "utilities"; Schema.tags := [];
     Schema.serverType := "stdio"; Schema.vendor := None; Schema.logoUrl := None;
     Schema.sourceRegistry := registry; Schema.sourceUrl := None;
     Schema.githubUrl := None; Schema.dockerUrl := None; Schema.npmUrl := None;
     Schema.documentationUrl := None; Schema.githubStars := None;
     Schema.dockerPulls := None; Schema.npmDownloads := None;
     Schema.packages := None; Schema.remotes := None;
     Schema.environmentVariables := None; Schema.installationMethods := None;
     Schema.verificationStatus := None; Schema.active := active;
     Schema.lastIndexedAt := None; Schema.lastStatsSync := None;
     Schema.createdAt := 0; Schema.updatedAt := 0 |}.

(** A plugin row of the given type and name, active. *)
Definition pluginRow (ty name : string) (stars : Z) : PluginDB :=
  {| pId := name; pName := name; pNamespace := "acme"; pSlug := name;
     pDescription := None; pVersion := None; pAuthor := None; pType := ty;
     pCategories := None; pKeywords := None; pRepository := None;
     pStars := Some stars; pInstallCommand := None; pMarketplaceId := None;
     pMarketplaceName := Some "acme-market"%string; pUpdatedAt := 0;
     pActive := true |}.

(** A reachable database holding one retired server and one plugin
    that has the type and, up to case, the name of a local subagent. *)
Definition w_up : World :=
  {| now := 1000; dbUp := true;
     db := {| mcpServers := [serverRow 1 "old" "docker-old" "docker" false];
              mcpServerStats := [];
              marketplaces := [];
              plugins := [pluginRow "subagent" "Code-Reviewer" 9];
              nextId := 2 |};
     breaker := {| circuitOpen := false; circuitOpenedAt := 0 |} |}.

(** A server row for the relevance example. *)
Definition namedServer (id : nat) (name : string) (description : option string)
    (pulls : Z) : MCPServerDB :=
  {| Schema.id := id; Schema.name := name; Schema.displayName := name;
     Schema.slug := name; Schema.description := description;
     Schema.version := None; Schema.category := "utilities"; Schema.tags := [];
     Schema.serverType := "stdio"; Schema.vendor := None; Schema.logoUrl := None;
     Schema.sourceRegistry := "docker"; Schema.sourceUrl := None;
     Schema.githubUrl := None; Schema.dockerUrl := None; Schema.npmUrl := None;
     Schema.documentationUrl := None; Schema.githubStars := None;
     Schema.dockerPulls := Some pulls; Schema.npmDownloads := None;
     Schema.packages := None; Schema.remotes := None;
     Schema.environmentVariables := None; Schema.installationMethods := None;
     Schema.verificationStatus := None; Schema.active := true;
     Schema.lastIndexedAt := None; Schema.lastStatsSync := None;
     Schema.createdAt := 0; Schema.updatedAt := 0 |}.

Definition srvGithub : MCPServerDB := namedServer 1 "github" None 5.
Definition srvActions : MCPServerDB := namedServer 2 "github-actions" None 50.
Definition srvAwesome : MCPServerDB :=
  namedServer 3 "awesome-tool" (Some "awesome github tool"%string) 500.

(** The three servers, stored in the reverse of the expected order,
    and a command named "github" with 100 stars among the plugins. *)
Definition w_github : World :=
  {| now := 1000; dbUp := true;
     db := {| mcpServers := [srvAwesome; srvActions; srvGithub];
              mcpServerStats := [];
              marketplaces := [];
              plugins := [pluginRow "command" "github" 100];
              nextId := 4 |};
     breaker := {| circuitOpen := false; circuitOpenedAt := 0 |} |}.

(** [search=github&sort=relevance] on the two listings. *)
Definition mcpGithub : McpServerDb.Options :=
  {| McpServerDb.limit := None; McpServerDb.offset := None;
     McpServerDb.search := Some "github"%string;
     McpServerDb.sort := Some McpServerDb.Relevance;
     McpServerDb.category := None; McpServerDb.sourceRegistry := None;
     McpServerDb.verification := None |}.

Definition pluginsGithub : PluginDbServer.Options :=
  {| PluginDbServer.limit := None;
     PluginDbServer.offset := None;
     PluginDbServer.search := Some "github"%string;
     PluginDbServer.sort := Some PluginDbServer.Relevance;
     PluginDbServer.typeFilter := None;
     PluginDbServer.marketplaceFilter := None;
     PluginDbServer.categoryFilter := None |}.

(** Local content with a single skill named "github". *)
Definition githubSkill : PluginDbServer.LocalContent :=
  {| PluginDbServer.getAllSubagents := Resolved [];
     PluginDbServer.getAllCommands := Resolved [];
     PluginDbServer.getAllHooks := Resolved [];
     PluginDbServer.getAllSkills :=
       Resolved [ {| PluginDbServer.entryName := "github";
                     PluginDbServer.entryDescription := "GitHub workflows";
                     PluginDbServer.entryCategory := None |} ];
     PluginDbServer.getLocalPlugins := Resolved [] |}.

(** The three items of the relevance example as unified plugins. *)
Definition namedPlugin (name description : string) : PluginDbServer.UnifiedPlugin :=
  {| PluginDbServer.type := "plugin"; PluginDbServer.name := name;
     PluginDbServer.description := description;
     PluginDbServer.category := None; PluginDbServer.tags := [];
     PluginDbServer.marketplaceId := None; PluginDbServer.marketplaceName := None;
     PluginDbServer.repository := None; PluginDbServer.stars := None;
     PluginDbServer.installCommand := None; PluginDbServer.namespace := None;
     PluginDbServer.author := None; PluginDbServer.version := None |}.

Definition plGithub := namedPlugin "github" "".
Definition plActions := namedPlugin "github-actions" "".
Definition plAwesome := namedPlugin "awesome github tool" "mentions github".

(** Local content with a single subagent. *)
Definition oneSubagent : PluginDbServer.LocalContent :=
  {| PluginDbServer.getAllSubagents :=
       Resolved [ {| PluginDbServer.entryName := "code-reviewer";
                     PluginDbServer.entryDescription := "Reviews code";
                     PluginDbServer.entryCategory := Some "quality"%string |} ];
     PluginDbServer.getAllCommands := Resolved [];
     PluginDbServer.getAllHooks := Resolved [];
     PluginDbServer.getAllSkills := Resolved [];
     PluginDbServer.getLocalPlugins := Resolved [] |}.

(** [limit=10&offset=5] on the local marketplace, and on all of them. *)
Definition localPage : PluginDbServer.Options :=
  {| PluginDbServer.limit := Some 10;
     PluginDbServer.offset := Some 5;
     PluginDbServer.search := None;
     PluginDbServer.sort := None;
     PluginDbServer.typeFilter := None;
     PluginDbServer.marketplaceFilter := Some "build-with-claude"%string;
     PluginDbServer.categoryFilter := None |}.


(** The first page of the MCP listing, every option left out. *)
Definition mcpFirstPage : McpServerDb.Options :=
  {| McpServerDb.limit := None; McpServerDb.offset := None;
     McpServerDb.search := None; McpServerDb.sort := None;
     McpServerDb.category := None; McpServerDb.sourceRegistry := None;
     McpServerDb.verification := None |}.




(** The first page asked for one row too early: [offset = -1]. *)
Definition mcpBeforeStart : McpServerDb.Options :=
  {| McpServerDb.limit := None; McpServerDb.offset := Some (-1);
     McpServerDb.search := None; McpServerDb.sort := None;
     McpServerDb.category := None; McpServerDb.sourceRegistry := None;
     McpServerDb.verification := None |}.

(** The empty pages of the three listings. *)
Definition emptyMcpPage (P : Platform) (limit offset : Z)
    : McpServerDb.PaginatedMCPServers P :=
  {| McpServerDb.servers := [];
     McpServerDb.total := 0;
     McpServerDb.pageLimit := limit;
     McpServerDb.pageOffset := offset;
     McpServerDb.hasMore := false |}.



(** A query string with nothing but [limit] and [offset]. *)
Definition plainQuery (limit offset : option Z) : Routes.SearchParams :=
  {| Routes.limit := limit; Routes.offset := offset;
     Routes.search := None; Routes.sort := None; Routes.category := None;
     Routes.source := None; Routes.verification := None; Routes.type := None;
     Routes.marketplaceId := None |}.

(** ** Indexer *)

(** A Docker Hub that answers every request with an empty page and
    a link to a next one. *)
Definition endlessHub : Indexer.Web :=
  {| Indexer.officialRegistry := fun _ => None;
     Indexer.dockerHub := fun _ =>
       Some {| Indexer.results := [];
               Indexer.next := Some "https://hub.docker.com/v2/next"%string |};
     Indexer.fetchDockerStats := fun _ => None;
     Indexer.fetchGitHubStats := fun _ => None |}.

(** An official registry that hands out a cursor with every page. *)
Definition endlessRegistry : Indexer.Web :=
  {| Indexer.officialRegistry := fun _ =>
       Some {| Indexer.responseServers := [];
               Indexer.nextCursor := Some "more"%string |};
     Indexer.dockerHub := fun _ => None;
     Indexer.fetchDockerStats := fun _ => None;
     Indexer.fetchGitHubStats := fun _ => None |}.

(** The normalization inside [generateSlug]. *)
Definition normalizeName (name : string) : string :=
  JS.collapse_hyphens (JS.replace_non_slug (JS.toLowerCase name)).

(** [r] with its two indexing timestamps replaced. *)
Definition withTimestamps (indexedAt : option Z) (updated : Z) (r : MCPServerDB)
    : MCPServerDB :=
  {| Schema.id := Schema.id r; Schema.name := Schema.name r;
     Schema.displayName := Schema.displayName r; Schema.slug := Schema.slug r;
     Schema.description := Schema.description r; Schema.version := Schema.version r;
     Schema.category := Schema.category r; Schema.tags := Schema.tags r;
     Schema.serverType := Schema.serverType r; Schema.vendor := Schema.vendor r;
     Schema.logoUrl := Schema.logoUrl r;
     Schema.sourceRegistry := Schema.sourceRegistry r;
     Schema.sourceUrl := Schema.sourceUrl r; Schema.githubUrl := Schema.githubUrl r;
     Schema.dockerUrl := Schema.dockerUrl r; Schema.npmUrl := Schema.npmUrl r;
     Schema.documentationUrl := Schema.documentationUrl r;
     Schema.githubStars := Schema.githubStars r;
     Schema.dockerPulls := Schema.dockerPulls r;
     Schema.npmDownloads := Schema.npmDownloads r;
     Schema.packages := Schema.packages r; Schema.remotes := Schema.remotes r;
     Schema.environmentVariables := Schema.environmentVariables r;
     Schema.installationMethods := Schema.installationMethods r;
     Schema.verificationStatus := Schema.verificationStatus r;
     Schema.active := Schema.active r;
     Schema.lastIndexedAt := indexedAt;
     Schema.lastStatsSync := Schema.lastStatsSync r;
     Schema.createdAt := Schema.createdAt r;
     Schema.updatedAt := updated |}.

(** [r'] is [r] up to [lastIndexedAt] and [updatedAt]. *)
Definition same_but_timestamps (r r' : MCPServerDB) : Prop :=
  r' = withTimestamps (Schema.lastIndexedAt r') (Schema.updatedAt r') r.



(** A raw server together with the registry label it is indexed
    under. *)
Definition Item : Type := Indexer.RawMCPServer * string.

Definition labelled (registry : string) (ss : list Indexer.RawMCPServer) : list Item :=
  map (fun s => (s, registry)) ss.

Definition slugOf (it : Item) : string :=
  Indexer.generateSlug (Indexer.name it.1) it.2.

Section Upserts.
Variable JSON_stringify : list Indexer.Unknown -> string.

Definition valuesOf (it : Item) (t : Z) (id : nat) : MCPServerDB :=
  Indexer.insertValues JSON_stringify it.1 it.2 (slugOf it) t id.

(** The statement of one upsert, on the database. *)
Definition upsertDb (t : Z) (d : Db) (it : Item) : Db :=
  Indexer.insertOnConflict JSON_stringify it.1 it.2 (slugOf it) t d.

(** What an upsert of [it] does to a row that is already there. *)
Definition touch (t : Z) (r : MCPServerDB) (it : Item) : MCPServerDB :=
  if Indexer.hasSlug (slugOf it) r
  then Indexer.onConflictDoUpdate r (valuesOf it t 0) t
  else r.

Definition present (slug : string) (rows : list MCPServerDB) : bool :=
  existsb (Indexer.hasSlug slug) rows.


End Upserts.

(** Two raw servers whose names differ and normalize alike. *)
Definition rawServer (name display : string) : Indexer.RawMCPServer :=
  {| Indexer.name := name; Indexer.display_name := display;
     Indexer.full_name := None; Indexer.category := "utilities";
     Indexer.description := display; Indexer.version := None;
     Indexer.server_type := None; Indexer.vendor := None; Indexer.logo_url := None;
     Indexer.verification_status := None; Indexer.verification_maintainer := None;
     Indexer.sources_github := None; Indexer.sources_docker := None;
     Indexer.sources_npm := None; Indexer.sources_official := None;
     Indexer.sources_documentation := None; Indexer.stats_github_stars := None;
     Indexer.stats_docker_pulls := None; Indexer.stats_npm_downloads := None;
     Indexer.stats_last_updated := None; Indexer.source_registry_type := None;
     Indexer.source_registry_url := None; Indexer.packages := None;
     Indexer.remotes := None; Indexer.environment_variables := None;
     Indexer.installation_methods := None; Indexer.tags := None |}.

Definition sampleStringify (xs : list Indexer.Unknown) : string := "[]".

(** An official registry and a Docker Hub of one page each. *)
Definition sampleWeb : Indexer.Web :=
  {| Indexer.officialRegistry := fun _ =>
       Some {| Indexer.responseServers :=
                 [ {| Indexer.entryServer :=
                        Some {| Indexer.osName := "io.github.acme/foo.bar";
                                Indexer.osTitle := None;
                                Indexer.osDescription := None;
                                Indexer.osVersion := Some "1.0.0"%string;
                                Indexer.osRepositoryUrl :=
                                  Some "https://github.com/acme/foo"%string;
                                Indexer.osWebsite := None;
                                Indexer.osPackages := None;
                                Indexer.osRemotes := None |};
                      Indexer.metaOfficial := None;
                      Indexer.metaTop := None |} ];
               Indexer.nextCursor := None |};
     Indexer.dockerHub := fun _ =>
       Some {| Indexer.results :=
                 [ {| Indexer.repoName := "postgres";
                      Indexer.repoDescription := None;
                      Indexer.pull_count := Some 1234;
                      Indexer.last_updated := None |} ];
               Indexer.next := None |};
     Indexer.fetchDockerStats := fun _ => Some 2000;
     Indexer.fetchGitHubStats := fun _ => Some 77 |}.

(** ** Stats sync *)

(** A world that differs from [w] in its database only. *)
Definition only_db_changed (w w' : World) : Prop :=
  now w' = now w /\ dbUp w' = dbUp w /\ breaker w' = breaker w.

(** The snapshots stored for the server [id]. *)
Definition snapshotsOf (id : nat) (stats : list MCPServerStat) : list MCPServerStat :=
  List.filter (fun st => Nat.eqb (mcpServerId st) id) stats.

(** The rows with identifier [id]. *)
Definition rowsWithId (id : nat) (rows : list MCPServerDB) : list MCPServerDB :=
  List.filter (fun r => Nat.eqb (Schema.id r) id) rows.

(** The outcome of the two look-ups for one server: the Docker one is
    only made for a Docker-registry server with a Docker URL, the
    GitHub one for a server with a repository URL. *)
Definition dockerLookup (W : Indexer.Web) (s : Indexer.ServerRef) : option Z :=
  if JS.truthy (Indexer.refDockerUrl s)
     && String.eqb (Indexer.refSourceRegistry s) "docker"
  then Indexer.fetchDockerStats W (Indexer.refName s)
  else None.

Definition githubLookup (W : Indexer.Web) (s : Indexer.ServerRef) : option Z :=
  if JS.truthy (Indexer.refGithubUrl s)
  then Indexer.fetchGitHubStats W (JS.orStr (Indexer.refGithubUrl s) "")
  else None.

(** What one loop turn of the sync writes, at time [t]. *)
Definition syncRow (W : Indexer.Web) (s : Indexer.ServerRef) (t : Z) (r : MCPServerDB)
    : MCPServerDB :=
  let r1 := match dockerLookup W s with
            | Some pulls => Indexer.setDockerPulls pulls t r
            | None => r
            end in
  match githubLookup W s with
  | Some stars => Indexer.setGithubStars stars t r1
  | None => r1
  end.

Definition syncSnapshots (W : Indexer.Web) (s : Indexer.ServerRef) : list MCPServerStat :=
  match dockerLookup W s, githubLookup W s with
  | Some pulls, _ =>
      [ {| mcpServerId := Indexer.refId s;
           statDockerPulls := pulls;
           statGithubStars := JS.orZero (Indexer.refGithubStars s);
           statNpmDownloads := JS.orZero (Indexer.refNpmDownloads s) |} ]
  | None, Some stars =>
      [ {| mcpServerId := Indexer.refId s;
           statGithubStars := stars;
           statDockerPulls := JS.orZero (Indexer.refDockerPulls s);
           statNpmDownloads := JS.orZero (Indexer.refNpmDownloads s) |} ]
  | None, None => []
  end.

Definition syncDb (W : Indexer.Web) (t : Z) (d : Db) (s : Indexer.ServerRef) : Db :=
  {| mcpServers :=
       map (fun r => if Nat.eqb (Schema.id r) (Indexer.refId s)
                     then syncRow W s t r else r)
           (mcpServers d);
     mcpServerStats := mcpServerStats d ++ syncSnapshots W s;
     marketplaces := marketplaces d;
     plugins := plugins d;
     nextId := nextId d |}.

(** A Docker server with a repository on GitHub, 10 stars and 100
    pulls on record, no snapshot yet. *)
Definition dockerServer : MCPServerDB :=
  {| Schema.id := 7; Schema.name := "postgres"; Schema.displayName := "Postgres";
     Schema.slug := "docker-postgres"; Schema.description := None;
     Schema.version := None; Schema.category := "database"; Schema.tags := [];
     Schema.serverType := "stdio"; Schema.vendor := None; Schema.logoUrl := None;
     Schema.sourceRegistry := "docker"; Schema.sourceUrl := None;
     Schema.githubUrl := Some "https://github.com/acme/postgres"%string;
     Schema.dockerUrl := Some "https://hub.docker.com/r/mcp/postgres"%string;
     Schema.npmUrl := None; Schema.documentationUrl := None;
     Schema.githubStars := Some 10; Schema.dockerPulls := Some 100;
     Schema.npmDownloads := None; Schema.packages := None; Schema.remotes := None;
     Schema.environmentVariables := None; Schema.installationMethods := None;
     Schema.verificationStatus := None; Schema.active := true;
     Schema.lastIndexedAt := None; Schema.lastStatsSync := None;
     Schema.createdAt := 0; Schema.updatedAt := 0 |}.

Definition w_stats : World :=
  {| now := 5000; dbUp := true;
     db := {| mcpServers := [dockerServer]; mcpServerStats := [];
              marketplaces := []; plugins := []; nextId := 8 |};
     breaker := {| circuitOpen := false; circuitOpenedAt := 0 |} |}.

(** GitHub answers 77 stars; Docker Hub fails. *)
Definition starsOnly : Indexer.Web :=
  {| Indexer.officialRegistry := fun _ => None;
     Indexer.dockerHub := fun _ => None;
     Indexer.fetchDockerStats := fun _ => None;
     Indexer.fetchGitHubStats := fun _ => Some 77 |}.

(** A reachable, empty database at time 1000. *)
Definition w_empty : World :=
  {| now := 1000; dbUp := true; db := emptyDb;
     breaker := {| circuitOpen := false; circuitOpenedAt := 0 |} |}.

End Props.

(* ================================================================== *)
(** * Further properties and sample inputs                             *)
(* ================================================================== *)

Module Checks.
Import Schema Async SafeQuery Props.

(** Every character of [s] satisfies [p]. *)
Fixpoint all_chars (p : ascii -> bool) (s : string) : bool :=
  match s with
  | EmptyString => true
  | String c s' => p c && all_chars p s'
  end.

(** The characters [formatServerName] leaves in no name. *)
Definition is_separator (c : ascii) : bool :=
  Ascii.eqb c "-" || Ascii.eqb c "_" || Ascii.eqb c "/".

(** No word of [s], words being separated by single spaces, starts
    with a lower-case letter; [start] tells whether [s] begins at a
    word start. *)
Fixpoint words_capitalized (start : bool) (s : string) : bool :=
  match s with
  | EmptyString => true
  | String c s' =>
      (if start then negb (JS.in_range 97 122 c) else true)
      && words_capitalized (Ascii.eqb c " ") s'
  end.

(** [s] with the first letter of every word in upper case. *)
Fixpoint title_case (start : bool) (s : string) : string :=
  match s with
  | EmptyString => EmptyString
  | String c s' =>
      if Ascii.eqb c " " then String c (title_case true s')
      else String (if start then JS.upper_ascii c else c) (title_case false s')
  end.

(** The category identifiers [categorizeServer] can return. *)
Definition knownCategories : list string :=
  ["ai-task-management"; "database"; "cloud-infrastructure"; "developer-tools";
   "web-search"; "browser-automation"; "file-system"; "productivity";
   "blockchain-crypto"; "media-generation"; "utilities"]%string.

(** One turn of the inner loop of [extractEnvVars]. *)
Definition envStep (envVars : list Indexer.EnvVar) (env : Indexer.EnvVarDecl)
    : list Indexer.EnvVar :=
  if existsb (fun e => String.eqb (Indexer.evName e) (Indexer.envName env)) envVars
  then envVars
  else envVars ++ [ {| Indexer.evName := Indexer.envName env;
                       Indexer.evDescription :=
                         JS.orStr (Indexer.envDescription env) "";
                       Indexer.evRequired := match Indexer.envRequired env with
                                             | Some false => false
                                             | _ => true
                                             end |} ].

(** A package that declares one environment variable. *)
Definition sampleEnv : Indexer.EnvVarDecl :=
  {| Indexer.envName := "API_KEY"; Indexer.envDescription := None;
     Indexer.envRequired := None |}.

Definition samplePackage : Indexer.Package :=
  {| Indexer.registryType := "npm"; Indexer.identifier := "@acme/weather";
     Indexer.packageEnv := Some [sampleEnv] |}.

(** An official registry whose first page names a second one, which
    fails; a Docker Hub that fails at once. *)
Definition flakyWeb : Indexer.Web :=
  {| Indexer.officialRegistry := fun cursor =>
       match cursor with
       | None =>
           Some {| Indexer.responseServers :=
                     [ {| Indexer.entryServer :=
                            Some {| Indexer.osName := "io.github.acme/foo";
                                    Indexer.osTitle := None;
                                    Indexer.osDescription := None;
                                    Indexer.osVersion := None;
                                    Indexer.osRepositoryUrl := None;
                                    Indexer.osWebsite := None;
                                    Indexer.osPackages := None;
                                    Indexer.osRemotes := None |};
                          Indexer.metaOfficial := None;
                          Indexer.metaTop := None |} ];
                   Indexer.nextCursor := Some "page-2"%string |}
       | Some _ => None
       end;
     Indexer.dockerHub := fun _ => None;
     Indexer.fetchDockerStats := fun _ => None;
     Indexer.fetchGitHubStats := fun _ => None |}.

(** A record as the official fetcher builds it, renamed and made
    inactive by hand since it was indexed. *)
Definition retiredRow : MCPServerDB :=
  serverRow 3 "foo-bar" "official-mcp-foo-bar" "official-mcp" false.

Definition w_retired : World :=
  {| now := 9000; dbUp := true;
     db := {| mcpServers := [retiredRow]; mcpServerStats := [];
              marketplaces := []; plugins := []; nextId := 4 |};
     breaker := {| circuitOpen := false; circuitOpenedAt := 0 |} |}.

(** ** Aggregates *)

(** The number of active server rows that satisfy [p]. *)
Definition activeCount (p : MCPServerDB -> bool) (d : Db) : Z :=
  Z.of_nat (length (List.filter (fun r => active r && p r) (mcpServers d))).

(** A count as the property of a counting object: absent for zero. *)
Definition counted (n : Z) : option Z := if n =? 0 then None else Some n.

Definition sumZ (l : list Z) : Z := fold_right Z.add 0 l.

(** The rows a [verificationStatus] group stores under its name. *)
Definition namedGroup (stat : option string * Z) : option (string * Z) :=
  if JS.truthy stat.1 then Some (JS.orStr stat.1 "", stat.2) else None.

(** The entry [getMCPCategoriesFromDB] makes for a category that
    [n] active servers carry. *)
Definition categoryEntry (e : string * McpServerDb.CategoryData) (n : Z)
    : McpServerDb.CategoryWithCount :=
  {| McpServerDb.cwcId := e.1;
     McpServerDb.cwcDisplayName := McpServerDb.catName e.2;
     McpServerDb.cwcIcon := McpServerDb.catIcon e.2;
     McpServerDb.cwcCount := n |}.

(** Two categories of the site. *)
Definition sampleCategories : list (string * McpServerDb.CategoryData) :=
  [ ("database"%string,
     {| McpServerDb.catName := "Databases"; McpServerDb.catIcon := "db" |});
    ("web-search"%string,
     {| McpServerDb.catName := "Web Search"; McpServerDb.catIcon := "search" |}) ].

(** The snapshot row [recordMCPServerStats] appends. *)
Definition snapshotOf (serverId : nat) (stats : McpServerDb.StatsInput) : MCPServerStat :=
  {| mcpServerId := serverId;
     statGithubStars := JS.orZero (McpServerDb.inGithubStars stats);
     statDockerPulls := JS.orZero (McpServerDb.inDockerPulls stats);
     statNpmDownloads := JS.orZero (McpServerDb.inNpmDownloads stats) |}.

Definition starsOnlyInput : McpServerDb.StatsInput :=
  {| McpServerDb.inGithubStars := Some 12; McpServerDb.inDockerPulls := None;
     McpServerDb.inNpmDownloads := None |}.

(** ** Listings *)

(** The options [o] with another window. *)
Definition withWindow (o : PluginDbServer.Options) (limit offset : Z)
    : PluginDbServer.Options :=
  {| PluginDbServer.limit := Some limit;
     PluginDbServer.offset := Some offset;
     PluginDbServer.search := PluginDbServer.search o;
     PluginDbServer.sort := PluginDbServer.sort o;
     PluginDbServer.typeFilter := PluginDbServer.typeFilter o;
     PluginDbServer.marketplaceFilter := PluginDbServer.marketplaceFilter o;
     PluginDbServer.categoryFilter := PluginDbServer.categoryFilter o |}.

(** The items of the page a listing call settled to, none if it
    rejected. *)
Definition pluginsOf (r : Outcome PluginDbServer.PaginatedPlugins * World)
    : list PluginDbServer.UnifiedPlugin :=
  match r.1 with
  | Resolved page => PluginDbServer.plugins page
  | Rejected => []
  end.

(** The call of [app/skills/page.tsx], with any window:
    [{ limit, offset, sort: 'relevance', type: 'skill' }]. *)
Definition skillsWindow (limit offset : Z) : PluginDbServer.Options :=
  {| PluginDbServer.limit := Some limit;
     PluginDbServer.offset := Some offset;
     PluginDbServer.search := None;
     PluginDbServer.sort := Some PluginDbServer.Relevance;
     PluginDbServer.typeFilter := Some "skill"%string;
     PluginDbServer.marketplaceFilter := None;
     PluginDbServer.categoryFilter := None |}.

Definition sumFields (c : PluginDbServer.TypeCounts) : Z :=
  PluginDbServer.subagents c + PluginDbServer.commands c + PluginDbServer.hooks c
  + PluginDbServer.skills c + PluginDbServer.pluginsOnly c.

(** The option [getPluginMarketplaces] starts from. *)
Definition localOption (L : PluginDbServer.LocalContent)
    : PluginDbServer.MarketplaceOption :=
  {| PluginDbServer.optId := PluginDbServer.BUILD_WITH_CLAUDE_ID;
     PluginDbServer.optName := PluginDbServer.BUILD_WITH_CLAUDE_ID;
     PluginDbServer.optDisplayName := PluginDbServer.BUILD_WITH_CLAUDE_MARKETPLACE;
     PluginDbServer.optPluginCount :=
       Z.of_nat (length (PluginDbServer.getLocalBuildWithClaudePlugins L)) |}.

(** A world whose database holds one active skill row named like the
    local skill of [githubSkill]. *)
Definition w_skill : World :=
  {| now := 1000; dbUp := true;
     db := {| mcpServers := []; mcpServerStats := []; marketplaces := [];
              plugins := [pluginRow "skill" "GitHub" 3];
              nextId := 1 |};
     breaker := {| circuitOpen := false; circuitOpenedAt := 0 |} |}.

(** ** The breaker *)

(** An event of a trace during which nothing fails: time does not run
    backwards, and an operation resolves whenever the database is
    reachable, leaving the breaker and the reachability as they are. *)
Definition calm (e : Event) : Prop :=
  match e with
  | Tick d => 0 <= d
  | Query c =>
      forall w, dbUp w = true ->
        exists v w', queryFn c w = (Resolved v, w') /\
                     breaker w' = breaker w /\ dbUp w' = true /\ now w <= now w'
  end.

(** All five counters are non-negative. *)
Definition nonneg (c : PluginDbServer.TypeCounts) : Prop :=
  0 <= PluginDbServer.subagents c /\ 0 <= PluginDbServer.commands c /\
  0 <= PluginDbServer.hooks c /\ 0 <= PluginDbServer.skills c /\
  0 <= PluginDbServer.pluginsOnly c.

(** The counter of a type that is still to come in [l] is still 0. *)
Definition untouched (l : list (string * Z)) (c : PluginDbServer.TypeCounts) : Prop :=
  (In "subagent"%string (map fst l) -> PluginDbServer.subagents c = 0) /\
  (In "command"%string (map fst l) -> PluginDbServer.commands c = 0) /\
  (In "hook"%string (map fst l) -> PluginDbServer.hooks c = 0) /\
  (In "skill"%string (map fst l) -> PluginDbServer.skills c = 0).

(** The set of names holds exactly the display names of the options,
    each once. *)
Definition names_inv (acc : gset string * list PluginDbServer.MarketplaceOption)
    : Prop :=
  (forall k, k ∈ acc.1 <-> In k (map PluginDbServer.optDisplayName acc.2)) /\
  List.NoDup (map PluginDbServer.optDisplayName acc.2).

(** A request without any parameter. *)
Definition bareRequest : Routes.SearchParams :=
  {| Routes.limit := None; Routes.offset := None; Routes.search := None;
     Routes.sort := None; Routes.category := None; Routes.source := None;
     Routes.verification := None; Routes.type := None;
     Routes.marketplaceId := None |}.

(** Two active, verified servers and one community server. *)
Definition verifiedServer (id : nat) (name : string) (pulls : Z) : MCPServerDB :=
  {| Schema.id := id; Schema.name := name; Schema.displayName := name;
     Schema.slug := name; Schema.description := None;
     Schema.version := None; Schema.category := "utilities"; Schema.tags := [];
     Schema.serverType := "stdio"; Schema.vendor := None; Schema.logoUrl := None;
     Schema.sourceRegistry := "docker"; Schema.sourceUrl := None;
     Schema.githubUrl := None; Schema.dockerUrl := None; Schema.npmUrl := None;
     Schema.documentationUrl := None; Schema.githubStars := None;
     Schema.dockerPulls := Some pulls; Schema.npmDownloads := None;
     Schema.packages := None; Schema.remotes := None;
     Schema.environmentVariables := None; Schema.installationMethods := None;
     Schema.verificationStatus := Some "verified"%string; Schema.active := true;
     Schema.lastIndexedAt := None; Schema.lastStatsSync := None;
     Schema.createdAt := 0; Schema.updatedAt := 0 |}.

Definition w_featured : World :=
  {| now := 1000; dbUp := true;
     db := {| mcpServers := [verifiedServer 1 "small" 5; srvGithub;
                             verifiedServer 2 "large" 500];
              mcpServerStats := []; marketplaces := []; plugins := [];
              nextId := 4 |};
     breaker := {| circuitOpen := false; circuitOpenedAt := 0 |} |}.

(** The featured servers of a database. *)
Definition featured (d : Db) : list MCPServerDB :=
  List.filter McpServerDb.isFeatured (mcpServers d).

End Checks.

(* ================================================================== *)
(** * Lists, sorting and the SQL model                                 *)
(* ================================================================== *)

Module ListFacts.
Import Async.

Lemma insert_sorted_perm {A} (cmp : A -> A -> Z) x l :
  Permutation (JS.insert_sorted cmp x l) (x :: l).
Proof.
  induction l as [|y l IH]; simpl; [reflexivity |].
  destruct (cmp x y <=? 0); [reflexivity |].
  rewrite IH. apply perm_swap.
Qed.

Lemma sort_perm {A} (cmp : A -> A -> Z) l : Permutation (JS.sort cmp l) l.
Proof.
  induction l as [|x l IH]; simpl; [reflexivity |].
  rewrite insert_sorted_perm. constructor. exact IH.
Qed.

Lemma sort_length {A} (cmp : A -> A -> Z) l :
  length (JS.sort cmp l) = length l.
Proof. apply Permutation_length, sort_perm. Qed.

Lemma sort_In {A} (cmp : A -> A -> Z) l x : In x (JS.sort cmp l) <-> In x l.
Proof.
  split; apply Permutation_in; [| symmetry]; apply sort_perm.
Qed.

Lemma In_firstn {A} n (l : list A) x : In x (firstn n l) -> In x l.
Proof.
  intros H. rewrite <- (firstn_skipn n l). apply in_or_app. left. exact H.
Qed.

Lemma In_skipn {A} n (l : list A) x : In x (skipn n l) -> In x l.
Proof.
  intros H. rewrite <- (firstn_skipn n l). apply in_or_app. right. exact H.
Qed.



Lemma In_window {R} limit offset (rows : list R) r :
  In r (Sql.window limit offset rows) -> In r rows.
Proof.
  unfold Sql.window. intros H.
  destruct limit as [n |]; [destruct (n <? 0) |].
  - apply In_skipn in H. exact H.
  - apply In_firstn, In_skipn in H. exact H.
  - apply In_skipn in H. exact H.
Qed.

Lemma window_nonneg {R} limit offset (rows : list R) :
  0 <= limit ->
  Sql.window (Some limit) offset rows
  = firstn (Z.to_nat limit) (skipn (Z.to_nat offset) rows).
Proof.
  intros Hl. unfold Sql.window.
  destruct (Z.ltb_spec limit 0); [lia | reflexivity].
Qed.

Lemma window_negative {R} limit offset (rows : list R) :
  limit < 0 -> Sql.window (Some limit) offset rows = skipn (Z.to_nat offset) rows.
Proof.
  intros Hl. unfold Sql.window.
  destruct (Z.ltb_spec limit 0); [reflexivity | lia].
Qed.

Lemma select_ok {R} (cond : R -> bool) cmp limit offset table :
  0 <= limit -> 0 <= offset ->
  Sql.select cond cmp (Some limit) (Some offset) table
  = Resolved (firstn (Z.to_nat limit)
                (skipn (Z.to_nat offset) (JS.sort cmp (List.filter cond table)))).
Proof.
  intros Hl Ho. unfold Sql.select.
  destruct (Z.ltb_spec offset 0); [lia |].
  rewrite window_nonneg by exact Hl. reflexivity.
Qed.

Lemma select_In {R} (cond : R -> bool) cmp limit offset table rows r :
  Sql.select cond cmp limit offset table = Resolved rows ->
  In r rows -> In r table /\ cond r = true.
Proof.
  unfold Sql.select. intros H Hin.
  destruct (_ <? 0); [discriminate |].
  injection H as <-.
  apply In_window, sort_In, filter_In in Hin. exact Hin.
Qed.

Lemma select_first {R} (cond : R -> bool) table :
  Sql.select cond Sql.unordered (Some 1) None table
  = Resolved (match List.find cond table with Some r => [r] | None => [] end).
Proof.
  unfold Sql.select. simpl. f_equal.
  assert (Hid : forall l : list R, JS.sort Sql.unordered l = l).
  { induction l as [|x l IH]; simpl; [reflexivity |].
    rewrite IH. destruct l; reflexivity. }
  rewrite Hid.
  induction table as [|x t IH]; simpl; [reflexivity |].
  destruct (cond x); simpl; [reflexivity | exact IH].
Qed.

End ListFacts.

(* ================================================================== *)
(** * Reads through the wrapper                                        *)
(* ================================================================== *)

Module AsyncFacts.
Import Schema Async SafeQuery Props.

Lemma dbUp_closeCircuit w : dbUp (closeCircuit w) = dbUp w.
Proof. unfold closeCircuit. destruct (circuitOpen (breaker w)); reflexivity. Qed.

Lemma db_closeCircuit w : db (closeCircuit w) = db w.
Proof. unfold closeCircuit. destruct (circuitOpen (breaker w)); reflexivity. Qed.

Lemma short_circuits_closeCircuit w : short_circuits (closeCircuit w) = false.
Proof.
  unfold closeCircuit, short_circuits.
  destruct (circuitOpen (breaker w)) eqn:E; simpl; [reflexivity |].
  rewrite E. reflexivity.
Qed.

(** Right after a failure the breaker short-circuits. *)
Lemma short_circuits_openCircuit w : short_circuits (openCircuit w) = true.
Proof.
  unfold short_circuits, openCircuit. simpl.
  rewrite Z.sub_diag. reflexivity.
Qed.

(** What [safeDbQuery] makes of one read statement. *)
Lemma safeDbQuery_dbRead {T} (f : Db -> Outcome T) (fb : T) w :
  safeDbQuery (dbRead f) fb w =
    if short_circuits w
    then (Resolved {| data := fb; fromDb := false |}, w)
    else if dbUp w
         then match f (db w) with
              | Resolved v =>
                  (Resolved {| data := v; fromDb := true |}, closeCircuit w)
              | Rejected =>
                  (Resolved {| data := fb; fromDb := false |},
                   openCircuit (closeCircuit w))
              end
         else (Resolved {| data := fb; fromDb := false |},
               openCircuit (closeCircuit w)).
Proof.
  unfold safeDbQuery. destruct (short_circuits w); [reflexivity |].
  unfold attempt, dbRead. rewrite dbUp_closeCircuit, db_closeCircuit.
  destruct (dbUp w); [| reflexivity].
  destruct (f (db w)); reflexivity.
Qed.

Lemma all2_dbRead {A B} (f : Db -> Outcome A) (g : Db -> Outcome B) w :
  all2 (dbRead f) (dbRead g) w = dbRead (fun d => both (f d) (g d)) w.
Proof.
  unfold all2, bind, dbRead, both, ret.
  destruct (dbUp w) eqn:E; [| reflexivity].
  destruct (f (db w)); [| reflexivity].
  rewrite E. destruct (g (db w)); reflexivity.
Qed.

Lemma safeDbQuery_ext {T} (q q' : M T) fb w :
  q (closeCircuit w) = q' (closeCircuit w) ->
  safeDbQuery q fb w = safeDbQuery q' fb w.
Proof.
  intros H. unfold safeDbQuery, attempt. rewrite H. reflexivity.
Qed.

End AsyncFacts.

(* ================================================================== *)
(** * Facts about the resilient query wrapper                          *)
(* ================================================================== *)

Module SafeQueryFacts.
Import Schema Async SafeQuery Props.

Lemma same_but_clock_refl w : same_but_clock w w.
Proof. repeat split. Qed.

Lemma same_but_clock_trans w1 w2 w3 :
  same_but_clock w1 w2 -> same_but_clock w2 w3 -> same_but_clock w1 w3.
Proof.
  intros (A1 & A2 & A3) (B1 & B2 & B3).
  repeat split; congruence.
Qed.

Lemma run_app es1 es2 w : run (es1 ++ es2) w = run es2 (run es1 w).
Proof. unfold run. apply fold_left_app. Qed.

Lemma run_cons e es w : run (e :: es) w = run es (step e w).
Proof. reflexivity. Qed.

Lemma now_closeCircuit w : now (closeCircuit w) = now w.
Proof. unfold closeCircuit. destruct (circuitOpen (breaker w)); reflexivity. Qed.

Lemma short_circuits_open w t0 :
  breaker w = {| circuitOpen := true; circuitOpenedAt := t0 |} ->
  short_circuits w = negb (now w - t0 >? CIRCUIT_TTL_MS).
Proof. intros Hb. unfold short_circuits. rewrite Hb. reflexivity. Qed.

Lemma short_circuits_in_window w t0 :
  breaker w = {| circuitOpen := true; circuitOpenedAt := t0 |} ->
  now w - t0 <= CIRCUIT_TTL_MS ->
  short_circuits w = true.
Proof.
  intros Hb Hw. rewrite (short_circuits_open _ _ Hb).
  destruct (Z.gtb_spec (now w - t0) CIRCUIT_TTL_MS); [lia | reflexivity].
Qed.

Lemma short_circuits_expired w t0 :
  breaker w = {| circuitOpen := true; circuitOpenedAt := t0 |} ->
  now w - t0 > CIRCUIT_TTL_MS ->
  short_circuits w = false.
Proof.
  intros Hb Hw. rewrite (short_circuits_open _ _ Hb).
  destruct (Z.gtb_spec (now w - t0) CIRCUIT_TTL_MS); [reflexivity | lia].
Qed.

(** A short-circuited call leaves the world as it found it. *)
Lemma safeDbQuery_short T (q : M T) fb w :
  short_circuits w = true ->
  safeDbQuery q fb w = (Resolved {| data := fb; fromDb := false |}, w).
Proof. intros H. unfold safeDbQuery. rewrite H. reflexivity. Qed.

Lemma safeDbQuery_attempt T (q : M T) fb w :
  short_circuits w = false ->
  safeDbQuery q fb w = attempt q fb (closeCircuit w).
Proof. intros H. unfold safeDbQuery. rewrite H. reflexivity. Qed.

Lemma safeDbQuery_now_mono T (q : M T) fb w :
  monotone_op q -> now w <= now (snd (safeDbQuery q fb w)).
Proof.
  intros Hq. unfold safeDbQuery.
  destruct (short_circuits w); simpl; [lia |].
  unfold attempt. specialize (Hq (closeCircuit w)).
  rewrite now_closeCircuit in Hq.
  destruct (q (closeCircuit w)) as [[d|] w']; simpl in *; lia.
Qed.

Lemma step_now_mono e w : wf_event e -> now w <= now (step e w).
Proof.
  destruct e as [d|c]; simpl; intros H; [lia |].
  apply safeDbQuery_now_mono, H.
Qed.

Lemma run_now_mono es : forall w, Forall wf_event es -> now w <= now (run es w).
Proof.
  induction es as [|e es IH]; intros w Hwf; [simpl; lia |].
  inversion Hwf as [|? ? He Hes]; subst.
  rewrite run_cons.
  specialize (IH (step e w) Hes).
  pose proof (step_now_mono e w He). lia.
Qed.

(** While the window lasts, whatever is called, nothing but the clock
    changes. *)
Lemma run_frozen t0 es : forall w,
  breaker w = {| circuitOpen := true; circuitOpenedAt := t0 |} ->
  Forall wf_event es ->
  now (run es w) - t0 <= CIRCUIT_TTL_MS ->
  same_but_clock w (run es w).
Proof.
  induction es as [|e es IH]; intros w Hb Hwf Hwin.
  - apply same_but_clock_refl.
  - inversion Hwf as [|? ? He Hes]; subst.
    rewrite run_cons in *.
    pose proof (run_now_mono es (step e w) Hes) as Hmono.
    pose proof (step_now_mono e w He) as Hstep.
    assert (Hin : now w - t0 <= CIRCUIT_TTL_MS) by lia.
    assert (Hsame : same_but_clock w (step e w)).
    { destruct e as [d|c]; simpl.
      - repeat split.
      - rewrite safeDbQuery_short; [apply same_but_clock_refl |].
        apply (short_circuits_in_window _ t0 Hb Hin). }
    apply (same_but_clock_trans _ _ _ Hsame).
    apply IH; auto.
    destruct Hsame as (_ & _ & ->). exact Hb.
Qed.

Lemma calls_within_window_prefix t0 w es1 es2 :
  calls_within_window t0 w (es1 ++ es2) -> calls_within_window t0 w es1.
Proof.
  intros H pre c post E. apply (H pre c (post ++ es2)).
  rewrite E, <- app_assoc. reflexivity.
Qed.

(** If every call so far fell inside the window, the breaker is still
    the one the failure left. *)
Lemma run_breaker_kept t0 w es :
  breaker w = {| circuitOpen := true; circuitOpenedAt := t0 |} ->
  calls_within_window t0 w es ->
  breaker (run es w) = breaker w.
Proof.
  intros Hb. induction es as [|e es IH] using rev_ind; intros Hwin; [reflexivity |].
  rewrite run_app. simpl.
  specialize (IH (calls_within_window_prefix _ _ _ _ Hwin)).
  destruct e as [d|c]; simpl; [exact IH |].
  rewrite safeDbQuery_short; [exact IH |].
  apply (short_circuits_in_window _ t0); [congruence |].
  apply (Hwin es c []). reflexivity.
Qed.

(** C1. A call that gets to run its operation returns the operation's
    result with [fromDb = true] when it resolves; when it rejects the
    call returns the fallback with [fromDb = false] and opens the one
    breaker at the current clock reading [t0].  From then on, along any
    sequence of clock ticks and calls in which time does not run
    backwards, every call made while [now - t0 <= 30000] returns its own
    fallback with [fromDb = false] and leaves the world untouched (its
    operation is not run, nor was any operation since the failure); and
    the first call made once [now - t0 > 30000] closes the breaker and
    runs its operation. *)
Theorem safeDbQuery_circuit_breaker :
  forall (T : Type) (q : M T) (fb : T) (w : World),
    short_circuits w = false ->
    (forall v w', q (closeCircuit w) = (Resolved v, w') ->
       safeDbQuery q fb w = (Resolved {| data := v; fromDb := true |}, w')) /\
    (forall w', q (closeCircuit w) = (Rejected, w') ->
       let s0 := openCircuit w' in
       let t0 := now w' in
       safeDbQuery q fb w = (Resolved {| data := fb; fromDb := false |}, s0) /\
       breaker s0 = {| circuitOpen := true; circuitOpenedAt := t0 |} /\
       forall (es : list Event) (c : Call),
         let w1 := run es s0 in
         (Forall wf_event es ->
          now w1 - t0 <= CIRCUIT_TTL_MS ->
            safeDbQuery (queryFn c) (fallback c) w1
              = (Resolved {| data := fallback c; fromDb := false |}, w1) /\
            same_but_clock s0 w1) /\
         (calls_within_window t0 s0 es ->
          now w1 - t0 > CIRCUIT_TTL_MS ->
            circuitOpen (breaker (closeCircuit w1)) = false /\
            safeDbQuery (queryFn c) (fallback c) w1
              = match queryFn c (closeCircuit w1) with
                | (Resolved d, w2) =>
                    (Resolved {| data := d; fromDb := true |}, w2)
                | (Rejected, w2) =>
                    (Resolved {| data := fallback c; fromDb := false |},
                     openCircuit w2)
                end)).
Proof.
  intros T q fb w Hgo. split.
  - intros v w' Hq. rewrite (safeDbQuery_attempt _ _ _ _ Hgo).
    unfold attempt. rewrite Hq. reflexivity.
  - intros w' Hq s0 t0.
    assert (Hb : breaker s0 = {| circuitOpen := true; circuitOpenedAt := t0 |})
      by reflexivity.
    split; [| split; [exact Hb |]].
    + rewrite (safeDbQuery_attempt _ _ _ _ Hgo).
      unfold attempt. rewrite Hq. reflexivity.
    + intros es c w1. split.
      * intros Hwf Hwin.
        pose proof (run_frozen t0 es s0 Hb Hwf Hwin) as Hsame.
        split; [| exact Hsame].
        apply safeDbQuery_short, (short_circuits_in_window _ t0); [| exact Hwin].
        destruct Hsame as (_ & _ & Hsame). exact (eq_trans Hsame Hb).
      * intros Hcalls Hout.
        assert (Hb1 : breaker w1 = {| circuitOpen := true; circuitOpenedAt := t0 |}).
        { exact (eq_trans (run_breaker_kept t0 s0 es Hb Hcalls) Hb). }
        split.
        -- unfold closeCircuit. rewrite Hb1. reflexivity.
        -- rewrite safeDbQuery_attempt
             by (apply (short_circuits_expired _ t0); assumption).
           reflexivity.
Qed.

Lemma wf_count_call : wf_event (Query count_call).
Proof. intros w. simpl. unfold dbRead. destruct (dbUp w); simpl; lia. Qed.

(** The database is down at time 1000; calls follow 10 s, 30 s and
    30.001 s after the failure. *)
Lemma safeDbQuery_circuit_breaker_witness :
  short_circuits w_down = false /\
  safeDbQuery (queryFn count_call) 0 w_down
    = (Resolved {| data := 0; fromDb := false |}, openCircuit w_down) /\
  safeDbQuery (queryFn const_call) (fallback const_call)
      (run [Tick 10000; Query count_call; Tick 20000] (openCircuit w_down))
    = (Resolved {| data := 0; fromDb := false |},
       advance 30000 (openCircuit w_down)) /\
  safeDbQuery (queryFn const_call) (fallback const_call)
      (run [Tick 10000; Query count_call; Tick 20001] (openCircuit w_down))
    = (Resolved {| data := 5; fromDb := true |},
       closeCircuit (advance 30001 (openCircuit w_down))).
Proof.
  destruct (safeDbQuery_circuit_breaker Z (queryFn count_call) 0 w_down eq_refl)
    as [_ Hfail].
  destruct (Hfail w_down eq_refl) as (Hcall & _ & Hafter).
  split; [reflexivity |]. split; [exact Hcall |]. split.
  - destruct (Hafter [Tick 10000; Query count_call; Tick 20000] const_call)
      as [Hin _].
    refine (proj1 (Hin _ _)).
    + repeat constructor; try (simpl; lia). apply wf_count_call.
    + vm_compute. discriminate.
  - destruct (Hafter [Tick 10000; Query count_call; Tick 20001] const_call)
      as [_ Hout].
    refine (proj2 (Hout _ _)).
    + intros pre c post E.
      destruct pre as [|e1 [|e2 [|e3 [|e4 pre]]]]; inversion E; subst.
      vm_compute. discriminate.
    + vm_compute. reflexivity.
Defined.

End SafeQueryFacts.

(* ================================================================== *)
(** * The three listings                                               *)
(* ================================================================== *)

Module ListingFacts.
Import Schema Async SafeQuery Props ListFacts AsyncFacts.



Section WithPlatform.
Variable P : Platform.

(** ** MCP servers *)

Lemma getMCPServersPaginated_spec (o : McpServerDb.Options) (w : World) :
  let limit := McpServerDb.limitOf o in
  let offset := McpServerDb.offsetOf o in
  exists rows n w',
    McpServerDb.getMCPServersPaginated P o w
    = (Resolved
         {| McpServerDb.servers :=
              map (McpServerDb.transformToMCPServerWithParsedJSON P) rows;
            McpServerDb.total := n;
            McpServerDb.pageLimit := limit;
            McpServerDb.pageOffset := offset;
            McpServerDb.hasMore := offset + Z.of_nat (length rows) <? n |}, w') /\
    ((query_fails w offset /\ rows = [] /\ n = 0) \/
     (~ query_fails w offset /\ rows = mcpRows P o w /\
      n = Z.of_nat (length (List.filter (McpServerDb.whereClause o)
                                        (mcpServers (db w)))))).
Proof.
  intros limit offset.
  unfold McpServerDb.getMCPServersPaginated, bind.
  erewrite safeDbQuery_ext by apply all2_dbRead.
  rewrite safeDbQuery_dbRead.
  fold limit offset. unfold query_fails.
  destruct (short_circuits w) eqn:Hs.
  { eexists [], 0, _. split; [reflexivity |]. left. auto. }
  destruct (dbUp w) eqn:Hup.
  2:{ eexists [], 0, _. split; [reflexivity |]. left. auto. }
  unfold Sql.select, Sql.count, both.
  destruct (Z.ltb_spec offset 0) as [Ho | Ho]; simpl.
  { eexists [], 0, _. split; [reflexivity |]. left. auto. }
  eexists _, _, _. split; [reflexivity |]. right.
  split; [| split; reflexivity].
  intros [H | [H | H]]; try discriminate; lia.
Qed.

(** ** Marketplaces *)

Lemma getMarketplacesPaginated_spec
    (o : MarketplaceServer.MarketplaceQueryOptions) (w : World) :
  let limit := MarketplaceServer.limitOf o in
  let offset := MarketplaceServer.offsetOf o in
  exists rows n w',
    MarketplaceServer.getMarketplacesPaginated P o w
    = (Resolved
         {| MarketplaceServer.marketplaceItems :=
              map MarketplaceServer.transformRow rows;
            MarketplaceServer.total := n;
            MarketplaceServer.hasMore := offset + Z.of_nat (length rows) <? n |}, w') /\
    ((short_circuits w = true \/ dbUp w = false) /\ rows = [] /\ n = 0 \/
     short_circuits w = false /\ dbUp w = true /\
     n = Z.of_nat (length (List.filter (MarketplaceServer.whereClause o)
                                       (marketplaces (db w)))) /\
     (offset < 0 /\ rows = [] \/
      0 <= offset /\ rows = marketplaceRows P o w)).
Proof.
  intros limit offset.
  unfold MarketplaceServer.getMarketplacesPaginated, bind.
  rewrite safeDbQuery_dbRead.
  destruct (short_circuits w) eqn:Hs.
  { rewrite safeDbQuery_dbRead, Hs.
    eexists [], 0, _. split; [reflexivity |]. left. auto. }
  destruct (dbUp w) eqn:Hup.
  2:{ rewrite safeDbQuery_dbRead, short_circuits_openCircuit.
      eexists [], 0, _. split; [reflexivity |]. left. auto. }
  unfold Sql.count.
  rewrite safeDbQuery_dbRead, short_circuits_closeCircuit, dbUp_closeCircuit, Hup,
    db_closeCircuit.
  fold limit offset. unfold Sql.select.
  destruct (Z.ltb_spec offset 0) as [Ho | Ho]; simpl.
  { eexists [], _, _. split; [reflexivity |]. right. repeat split; auto. }
  eexists _, _, _. split; [reflexivity |]. right.
  split; [reflexivity |]. split; [reflexivity |]. split; [reflexivity |].
  right. split; [assumption | reflexivity].
Qed.

(** ** Unified plugins *)

Lemma getPluginsPaginated_spec (L : PluginDbServer.LocalContent)
    (o : PluginDbServer.Options) (w : World) :
  let limit := PluginDbServer.limitOf o in
  let offset := PluginDbServer.offsetOf o in
  PluginDbServer.getPluginsPaginated P L o w =
    if PluginDbServer.isBuildWithClaude (PluginDbServer.marketplaceFilter o)
    then (Resolved (PluginDbServer.page (localItems P L o) limit offset), w)
    else if dbUp w
         then (Resolved (PluginDbServer.page (sortedMerged P L o w) limit offset), w)
         else (Rejected, w).
Proof.
  intros limit offset.
  unfold PluginDbServer.getPluginsPaginated. fold limit offset.
  fold (localItems P L o).
  destruct (PluginDbServer.isBuildWithClaude _) eqn:Hb; [reflexivity |].
  unfold bind. rewrite all2_dbRead. unfold dbRead.
  destruct (dbUp w); [| reflexivity].
  unfold Sql.select, Sql.count, both, ret. simpl.
  unfold sortedMerged, dbItems. rewrite skipn_O. reflexivity.
Qed.



(** ** Failure of the database *)



End WithPlatform.




(** Why the offset must not be negative: the fallback page is then
    empty with [total = 0], and [hasMore] is [-1 + 0 < 0]. *)
Example negative_offset_has_more :
  exists page w',
    McpServerDb.getMCPServersPaginated samplePlatform mcpBeforeStart w_down
    = (Resolved page, w') /\
    McpServerDb.servers samplePlatform page = [] /\
    McpServerDb.total samplePlatform page = 0 /\
    McpServerDb.hasMore samplePlatform page = true.
Proof. eexists _, _. split; [vm_compute; reflexivity |]. repeat split. Qed.


End ListingFacts.

(* ================================================================== *)
(** * Merging local and database plugins                               *)
(* ================================================================== *)

Module PluginFacts.
Import Schema Async SafeQuery Props ListFacts AsyncFacts.
Import PluginDbServer.



Lemma merge_inv_empty : merge_inv (∅, []).
Proof.
  split; [| constructor]. intros k. simpl. split; [set_solver | tauto].
Qed.

Lemma addUnseen_inv acc p : merge_inv acc -> merge_inv (addUnseen acc p).
Proof.
  intros [Hseen Hnd]. unfold addUnseen.
  destruct (decide (keyOf p ∈ acc.1)) as [Hin | Hnin]; [split; assumption |].
  split; simpl.
  - intros k. rewrite map_app, in_app_iff, elem_of_union, elem_of_singleton.
    simpl. rewrite <- Hseen. intuition congruence.
  - rewrite map_app. simpl.
    apply List.NoDup_app; [exact Hnd | repeat constructor; intros [] |].
    intros k Hk [<- | []]. apply Hnin, Hseen, Hk.
Qed.

Lemma fold_addUnseen_inv ps : forall acc,
  merge_inv acc -> merge_inv (fold_left addUnseen ps acc).
Proof.
  induction ps as [|p ps IH]; intros acc H; [exact H |].
  simpl. apply IH, addUnseen_inv, H.
Qed.

(** The loops only append, and only items they were given. *)
Lemma fold_addUnseen_extends ps : forall acc,
  exists ext, (fold_left addUnseen ps acc).2 = acc.2 ++ ext /\
              forall x, In x ext -> In x ps.
Proof.
  induction ps as [|p ps IH]; intros acc; simpl.
  - exists []. rewrite app_nil_r. split; [reflexivity | tauto].
  - destruct (IH (addUnseen acc p)) as (ext & E & Hext).
    unfold addUnseen in E |- *.
    destruct (decide (keyOf p ∈ acc.1)).
    + exists ext. split; [exact E |]. intros x Hx. right. auto.
    + simpl in E. exists (p :: ext). split.
      * rewrite E, <- app_assoc. reflexivity.
      * intros x [<- | Hx]; [left; reflexivity | right; auto].
Qed.

Lemma fold_addUnseen_seen ps : forall acc k,
  k ∈ acc.1 -> k ∈ (fold_left addUnseen ps acc).1.
Proof.
  induction ps as [|p ps IH]; intros acc k Hk; [exact Hk |].
  simpl. apply IH. unfold addUnseen.
  destruct (decide (keyOf p ∈ acc.1)); [exact Hk |]. simpl. set_solver.
Qed.

Lemma fold_addUnseen_covers ps : forall acc p,
  In p ps -> keyOf p ∈ (fold_left addUnseen ps acc).1.
Proof.
  induction ps as [|q ps IH]; intros acc p Hp; [destruct Hp |].
  simpl. destruct Hp as [-> | Hp]; [| apply IH, Hp].
  apply fold_addUnseen_seen. unfold addUnseen.
  destruct (decide (keyOf p ∈ acc.1)); [assumption |]. simpl. set_solver.
Qed.

(** What the two loops build, in terms of lists. *)
Lemma mergePlugins_spec (locals dbs : list UnifiedPlugin) :
  exists keptLocal keptDb,
    mergePlugins locals dbs = keptLocal ++ keptDb /\
    (forall x, In x keptLocal -> In x locals) /\
    (forall x, In x keptDb -> In x dbs) /\
    List.NoDup (map keyOf (keptLocal ++ keptDb)) /\
    (forall l, In l locals -> exists l', In l' keptLocal /\ keyOf l' = keyOf l).
Proof.
  unfold mergePlugins.
  set (A := fold_left addUnseen locals (∅, [])).
  pose proof (fold_addUnseen_inv locals _ merge_inv_empty) as HA. fold A in HA.
  destruct (fold_addUnseen_extends locals (∅, [])) as (extL & EL & HL).
  fold A in EL. simpl in EL.
  destruct (fold_addUnseen_extends dbs A) as (extD & ED & HD).
  pose proof (fold_addUnseen_inv dbs _ HA) as [_ HF].
  exists extL, extD. rewrite ED, EL in *.
  repeat split; try assumption.
  intros l Hl.
  pose proof (fold_addUnseen_covers locals (∅, []) l Hl) as Hk. fold A in Hk.
  apply (proj1 HA) in Hk. rewrite EL in Hk.
  apply in_map_iff in Hk. destruct Hk as (l' & E & Hl'). eauto.
Qed.


Lemma local_type L x :
  In x (getLocalBuildWithClaudePlugins L) -> In (type x) localTypes.
Proof.
  unfold getLocalBuildWithClaudePlugins, loaded. rewrite !in_app_iff.
  intros H.
  repeat match type of H with
         | _ \/ _ => destruct H as [H | H]
         end;
    match type of H with
    | In _ (match ?o with Resolved _ => _ | Rejected => _ end) =>
        destruct o; [| destruct H]
    end;
    apply in_map_iff in H; destruct H as (e & <- & _); simpl; tauto.
Qed.


Lemma filterLocalPlugins_In ps o x : In x (filterLocalPlugins ps o) -> In x ps.
Proof.
  unfold filterLocalPlugins. intros H.
  assert (Hf : forall (f : UnifiedPlugin -> bool) l, In x (List.filter f l) -> In x l)
    by (intros f l Hx; apply filter_In in Hx; tauto).
  repeat match type of H with
         | In _ (if ?c then _ else _) => destruct c
         | In _ (match ?c with [] => _ | _ :: _ => _ end) => destruct c
         | In _ [] => destruct H
         | In _ (List.filter _ _) => apply Hf in H
         end; assumption.
Qed.

Section WithPlatform.
Variable P : Platform.

Lemma sortPlugins_perm ps sort search :
  Permutation (sortPlugins P ps sort search) ps.
Proof.
  unfold sortPlugins.
  destruct sort as [[]|]; try destruct (JS.truthy search);
    try apply sort_perm; reflexivity.
Qed.

Lemma localItems_In L o x :
  In x (localItems P L o) -> In x (getLocalBuildWithClaudePlugins L).
Proof.
  unfold localItems. destruct (negb _); [| intros []].
  intros H. apply (Permutation_in _ (sortPlugins_perm _ _ _)) in H.
  apply filterLocalPlugins_In in H. exact H.
Qed.

Lemma dbItems_In o w x :
  In x (dbItems P o w) ->
  exists r, x = ofRow r /\ In r (Schema.plugins (db w)) /\ pActive r = true.
Proof.
  unfold dbItems. intros H. apply in_map_iff in H.
  destruct H as (r & <- & Hr). exists r. split; [reflexivity |].
  apply In_firstn, sort_In, filter_In in Hr. destruct Hr as [Hr Hc].
  split; [exact Hr |]. unfold whereClause in Hc.
  rewrite !andb_true_iff in Hc. tauto.
Qed.


End WithPlatform.


End PluginFacts.

(* ================================================================== *)
(** * The active flag                                                  *)
(* ================================================================== *)

Module ActiveFacts.
Import Schema Async SafeQuery Props ListFacts AsyncFacts ListingFacts PluginFacts.

Lemma slice_In {A} (l : list A) a b x : In x (JS.slice a b l) -> In x l.
Proof. unfold JS.slice. intros H. apply In_firstn, In_skipn in H. exact H. Qed.

Section WithPlatform.
Variable P : Platform.

Lemma mcp_where_active o r : McpServerDb.whereClause o r = true -> active r = true.
Proof. unfold McpServerDb.whereClause. rewrite !andb_true_iff. tauto. Qed.

Lemma marketplace_where_active o r :
  MarketplaceServer.whereClause o r = true -> mActive r = true.
Proof. unfold MarketplaceServer.whereClause. rewrite !andb_true_iff. tauto. Qed.

(** C9 (amended). Every listing filters on the active flag: each
    item of an MCP or marketplace page is an active row of the table,
    and each item of a unified plugin page is a local item or an active
    row.  The single-record reads do not look at the flag: with the
    database reachable they return the first row whose slug (or id,
    name or namespace) matches, active or not. *)
Theorem reads_and_active_flag :
  (forall (o : McpServerDb.Options) (w : World) page w',
     McpServerDb.getMCPServersPaginated P o w = (Resolved page, w') ->
     exists rows,
       McpServerDb.servers P page
       = map (McpServerDb.transformToMCPServerWithParsedJSON P) rows /\
       Forall (fun r => In r (mcpServers (db w)) /\ active r = true) rows) /\
  (forall (o : MarketplaceServer.MarketplaceQueryOptions) (w : World) page w',
     MarketplaceServer.getMarketplacesPaginated P o w = (Resolved page, w') ->
     exists rows,
       MarketplaceServer.marketplaceItems page
       = map MarketplaceServer.transformRow rows /\
       Forall (fun r => In r (marketplaces (db w)) /\ mActive r = true) rows) /\
  (forall (L : PluginDbServer.LocalContent) (o : PluginDbServer.Options)
          (w : World) page w',
     PluginDbServer.getPluginsPaginated P L o w = (Resolved page, w') ->
     Forall (fun p =>
               In p (PluginDbServer.getLocalBuildWithClaudePlugins L) \/
               exists r, p = PluginDbServer.ofRow r /\
                         In r (plugins (db w)) /\ pActive r = true)
            (PluginDbServer.plugins page)) /\
  (forall (slug : string) (w : World),
     short_circuits w = false -> dbUp w = true ->
     McpServerDb.getMCPServerBySlug P slug w
     = (Resolved (option_map (McpServerDb.transformToMCPServerWithParsedJSON P)
                    (List.find (fun s => String.eqb (Schema.slug s) slug)
                               (mcpServers (db w)))),
        closeCircuit w)) /\
  (forall (id : string) (w : World),
     short_circuits w = false -> dbUp w = true ->
     MarketplaceServer.getMarketplaceById id w
     = (Resolved (option_map MarketplaceServer.transformRow
                    (List.find (fun m => String.eqb (mId m) id
                                         || String.eqb (mName m) id
                                         || String.eqb (mNamespace m) id)
                               (marketplaces (db w)))),
        closeCircuit w)) /\
  (forall (slug : string) (w : World),
     dbUp w = true ->
     PluginDbServer.getPluginBySlug slug w
     = (Resolved (option_map PluginDbServer.ofRow
                    (List.find (fun p => String.eqb (pSlug p) slug
                                         || String.eqb (pName p) slug)
                               (plugins (db w)))),
        w)).
Proof.
  repeat match goal with |- _ /\ _ => split end.
  - intros o w page w' E.
    destruct (getMCPServersPaginated_spec P o w) as (rows & n & w1 & E1 & H).
    rewrite E1 in E. injection E as <- _. exists rows. split; [reflexivity |].
    destruct H as [(_ & -> & _) | (_ & -> & _)]; [constructor |].
    apply List.Forall_forall. intros r Hr. unfold mcpRows in Hr.
    apply In_window, sort_In, filter_In in Hr.
    destruct Hr as [Hr Hc]. split; [exact Hr | apply (mcp_where_active o), Hc].
  - intros o w page w' E.
    destruct (getMarketplacesPaginated_spec P o w) as (rows & n & w1 & E1 & H).
    rewrite E1 in E. injection E as <- _. exists rows. split; [reflexivity |].
    destruct H as [(_ & -> & _) | (_ & _ & _ & [(_ & ->) | (_ & ->)])];
      try constructor.
    apply List.Forall_forall. intros r Hr. unfold marketplaceRows in Hr.
    apply In_window, sort_In, filter_In in Hr.
    destruct Hr as [Hr Hc]. split; [exact Hr | apply (marketplace_where_active o), Hc].
  - intros L o w page w' E.
    rewrite getPluginsPaginated_spec in E.
    apply List.Forall_forall. intros p Hp.
    destruct (PluginDbServer.isBuildWithClaude _).
    + injection E as <- _. simpl in Hp. apply slice_In in Hp.
      left. apply (localItems_In P L o), Hp.
    + destruct (dbUp w); [| discriminate].
      injection E as <- _. simpl in Hp. apply slice_In in Hp.
      unfold sortedMerged in Hp.
      apply (Permutation_in _ (sortPlugins_perm P _ _ _)) in Hp.
      destruct (mergePlugins_spec (localItems P L o) (dbItems P o w))
        as (kl & kd & Em & Hkl & Hkd & _).
      rewrite Em in Hp. apply in_app_or in Hp. destruct Hp as [Hp | Hp].
      * left. apply (localItems_In P L o), Hkl, Hp.
      * right. apply (dbItems_In P o w), Hkd, Hp.
  - intros slug w Hs Hup.
    unfold McpServerDb.getMCPServerBySlug, bind.
    rewrite safeDbQuery_dbRead, Hs, Hup, select_first.
    destruct (List.find _ _); reflexivity.
  - intros id w Hs Hup.
    unfold MarketplaceServer.getMarketplaceById, bind.
    rewrite safeDbQuery_dbRead, Hs, Hup, select_first.
    destruct (List.find _ _); reflexivity.
  - intros slug w Hup.
    unfold PluginDbServer.getPluginBySlug, bind, dbRead.
    rewrite Hup, select_first.
    destruct (List.find _ _); reflexivity.
Qed.

End WithPlatform.

(** The MCP listing of a reachable database returns only active rows. *)
Lemma reads_and_active_flag_witness :
  exists rows,
    McpServerDb.servers samplePlatform
      (emptyMcpPage samplePlatform 50 0)
    = map (McpServerDb.transformToMCPServerWithParsedJSON samplePlatform) rows /\
    Forall (fun r => In r (mcpServers (db w_up)) /\ active r = true) rows.
Proof.
  refine (proj1 (reads_and_active_flag samplePlatform) mcpFirstPage w_up
            (emptyMcpPage samplePlatform 50 0) (closeCircuit w_up) _).
  reflexivity.
Defined.

(** C9 as first stated fails for the single-record reads: the server
    with slug "docker-old" is inactive and is returned all the same. *)
Lemma inactive_server_is_returned :
  exists s w',
    McpServerDb.getMCPServerBySlug samplePlatform "docker-old" w_up
    = (Resolved (Some s), w') /\
    active (McpServerDb.server samplePlatform s) = false.
Proof. eexists _, _. split; reflexivity. Qed.

End ActiveFacts.

(* ================================================================== *)
(** * LIKE patterns built from a plain term                            *)
(* ================================================================== *)

Module LikeFacts.
Import Props.

Lemma plain_cons c s :
  plain (String c s) = true ->
  Ascii.eqb c "%" = false /\ Ascii.eqb c "_" = false /\ Ascii.eqb c "\" = false /\
  plain s = true.
Proof.
  simpl. rewrite andb_true_iff, negb_true_iff, !orb_false_iff. tauto.
Qed.

Lemma like_cons_plain c p s :
  Ascii.eqb c "%" = false -> Ascii.eqb c "_" = false -> Ascii.eqb c "\" = false ->
  Sql.like (String c p) s =
    match s with
    | EmptyString => false
    | String d s' => Ascii.eqb c d && Sql.like p s'
    end.
Proof. intros H1 H2 H3. simpl. rewrite H1, H2, H3. reflexivity. Qed.

Lemma like_plain_exact p : plain p = true -> forall s, Sql.like p s = String.eqb p s.
Proof.
  induction p as [|c p IH]; intros Hp s.
  - destruct s; reflexivity.
  - apply plain_cons in Hp. destruct Hp as (H1 & H2 & H3 & Hp).
    rewrite like_cons_plain by assumption.
    destruct s as [|d s]; [reflexivity |]. simpl. rewrite IH by exact Hp.
    destruct (Ascii.eqb c d); reflexivity.
Qed.

Lemma like_percent s : Sql.like "%" s = true.
Proof.
  induction s as [|d s IH]; [reflexivity |].
  change (Sql.like "%" (String d s)) with (Sql.like "" (String d s) || Sql.like "%" s).
  rewrite IH. apply orb_true_r.
Qed.

Lemma prefix_cons c p d s :
  String.prefix (String c p) (String d s) = Ascii.eqb c d && String.prefix p s.
Proof.
  simpl. destruct (ascii_dec c d) as [-> | Hne].
  - rewrite Ascii.eqb_refl. reflexivity.
  - apply Ascii.eqb_neq in Hne. rewrite Hne. reflexivity.
Qed.

Lemma like_plain_prefix p :
  plain p = true -> forall s, Sql.like (p ++ "%") s = String.prefix p s.
Proof.
  induction p as [|c p IH]; intros Hp s.
  - change ("" ++ "%")%string with "%"%string. rewrite like_percent.
    destruct s; reflexivity.
  - apply plain_cons in Hp. destruct Hp as (H1 & H2 & H3 & Hp).
    change (String c p ++ "%")%string with (String c (p ++ "%")).
    rewrite like_cons_plain by assumption.
    destruct s as [|d s]; [reflexivity |].
    rewrite prefix_cons, IH by exact Hp. reflexivity.
Qed.

Lemma like_plain_contains p :
  plain p = true -> forall s, Sql.like ("%" ++ p ++ "%") s = JS.includes s p.
Proof.
  intros Hp. change ("%" ++ p ++ "%")%string with (String "%" (p ++ "%")).
  induction s as [|d s IH].
  - change (Sql.like (String "%" (p ++ "%")) "")
      with (Sql.like (p ++ "%") "" || false).
    rewrite like_plain_prefix by exact Hp. reflexivity.
  - change (Sql.like (String "%" (p ++ "%")) (String d s))
      with (Sql.like (p ++ "%") (String d s) || Sql.like (String "%" (p ++ "%")) s).
    rewrite like_plain_prefix, IH by exact Hp. reflexivity.
Qed.

Lemma lower_keeps_plain c :
  Ascii.eqb c "%" || Ascii.eqb c "_" || Ascii.eqb c "\" = false ->
  Ascii.eqb (JS.lower_ascii c) "%" || Ascii.eqb (JS.lower_ascii c) "_"
  || Ascii.eqb (JS.lower_ascii c) "\" = false.
Proof.
  destruct c as [[] [] [] [] [] [] [] []]; vm_compute; congruence.
Qed.

Lemma plain_toLowerCase s : plain s = true -> plain (JS.toLowerCase s) = true.
Proof.
  induction s as [|c s IH]; [reflexivity |].
  simpl. rewrite !andb_true_iff, !negb_true_iff. intros [Hc Hs].
  split; [apply lower_keeps_plain, Hc | apply IH, Hs].
Qed.

Lemma toLowerCase_app a b :
  JS.toLowerCase (a ++ b) = (JS.toLowerCase a ++ JS.toLowerCase b)%string.
Proof.
  unfold JS.toLowerCase. induction a as [|c a IH]; simpl; [reflexivity |].
  rewrite IH. reflexivity.
Qed.

(** For a plain term the tiers of the SQL [CASE] are exact match,
    prefix match and substring matches, up to case. *)
Lemma relevance_tier_plain s r :
  plain s = true -> McpServerDb.relevance_tier s r = plainTier s r.
Proof.
  intros Hs. apply plain_toLowerCase in Hs.
  unfold McpServerDb.relevance_tier, plainTier, Sql.ilike, JS.startsWith.
  rewrite !toLowerCase_app.
  change (JS.toLowerCase "%") with "%"%string.
  rewrite like_plain_exact, like_plain_prefix, like_plain_contains by exact Hs.
  rewrite (String.eqb_sym (JS.toLowerCase s)).
  destruct (Schema.description r);
    [rewrite like_plain_contains by exact Hs |]; reflexivity.
Qed.

End LikeFacts.

(* ================================================================== *)
(** * Relevance order                                                  *)
(* ================================================================== *)

Module RelevanceFacts.
Import Schema Async SafeQuery Props ListFacts AsyncFacts ListingFacts PluginFacts.

Section Sorting.
Context {A : Type} (cmp : A -> A -> Z) (R : A -> A -> Prop).
Hypothesis cmp_le : forall a b, cmp a b <= 0 -> R a b.
Hypothesis cmp_gt : forall a b, 0 < cmp a b -> R b a.
Hypothesis R_trans : forall a b c, R a b -> R b c -> R a c.

Lemma insert_sorted_strongly x l :
  StronglySorted R l -> StronglySorted R (JS.insert_sorted cmp x l).
Proof.
  induction l as [|y l IH]; simpl; intros Hs.
  - repeat constructor.
  - apply StronglySorted_inv in Hs. destruct Hs as [Hs Hy].
    destruct (Z.leb_spec (cmp x y) 0) as [Hle | Hgt].
    + constructor; [constructor; assumption |].
      constructor; [apply cmp_le, Hle |].
      eapply List.Forall_impl; [| exact Hy].
      intros z Hz. eapply R_trans; [apply cmp_le, Hle | exact Hz].
    + constructor; [apply IH, Hs |].
      apply (Permutation_Forall (Permutation_sym (insert_sorted_perm cmp x l))).
      constructor; [apply cmp_gt, Hgt | exact Hy].
Qed.

Lemma sort_strongly_sorted l : StronglySorted R (JS.sort cmp l).
Proof.
  induction l as [|x l IH]; simpl; [constructor |].
  apply insert_sorted_strongly, IH.
Qed.

End Sorting.

Lemma StronglySorted_skipn {A} (R : A -> A -> Prop) n : forall l,
  StronglySorted R l -> StronglySorted R (skipn n l).
Proof.
  induction n as [|n IH]; intros l Hs; [exact Hs |].
  destruct l as [|x l]; [constructor |].
  simpl. apply IH. apply StronglySorted_inv in Hs. tauto.
Qed.

Lemma StronglySorted_firstn {A} (R : A -> A -> Prop) n : forall l,
  StronglySorted R l -> StronglySorted R (firstn n l).
Proof.
  induction n as [|n IH]; intros l Hs; [constructor |].
  destruct l as [|x l]; [constructor |].
  apply StronglySorted_inv in Hs. destruct Hs as [Hs Hx].
  simpl. constructor; [apply IH, Hs |].
  apply List.Forall_forall. intros y Hy. apply In_firstn in Hy.
  rewrite List.Forall_forall in Hx. auto.
Qed.

Lemma StronglySorted_slice {A} (R : A -> A -> Prop) a b l :
  StronglySorted R l -> StronglySorted R (JS.slice a b l).
Proof.
  intros Hs. unfold JS.slice.
  apply StronglySorted_firstn, StronglySorted_skipn, Hs.
Qed.

Lemma StronglySorted_window {A} (R : A -> A -> Prop) limit offset l :
  StronglySorted R l -> StronglySorted R (Sql.window limit offset l).
Proof.
  intros Hs. unfold Sql.window.
  destruct limit as [n |]; [destruct (n <? 0) |].
  - apply StronglySorted_skipn, Hs.
  - apply StronglySorted_firstn, StronglySorted_skipn, Hs.
  - apply StronglySorted_skipn, Hs.
Qed.

Lemma prefix_refl s : String.prefix s s = true.
Proof.
  induction s as [|c s IH]; simpl; [reflexivity |].
  destruct (ascii_dec c c); [exact IH | congruence].
Qed.

Lemma exact_startsWith n q : String.eqb n q = true -> JS.startsWith n q = true.
Proof.
  intros H. apply String.eqb_eq in H. subst. apply prefix_refl.
Qed.

Lemma startsWith_includes n q : JS.startsWith n q = true -> JS.includes n q = true.
Proof.
  unfold JS.startsWith. intros H. destruct n; cbn [JS.includes]; rewrite H; reflexivity.
Qed.

Section WithPlatform.
Variable P : Platform.

(** The comparator of [sortPlugins] against tiers and names. *)
Lemma byRelevance_tiers q a b :
  PluginDbServer.byRelevance P q a b =
    if pluginTier q a =? pluginTier q b
    then localeCompare P (PluginDbServer.name a) (PluginDbServer.name b)
    else if pluginTier q a <? pluginTier q b then -1 else 1.
Proof.
  unfold PluginDbServer.byRelevance, pluginTier, PluginDbServer.flag.
  pose proof (exact_startsWith (JS.toLowerCase (PluginDbServer.name a)) q) as Ha1.
  pose proof (startsWith_includes (JS.toLowerCase (PluginDbServer.name a)) q) as Ha2.
  pose proof (exact_startsWith (JS.toLowerCase (PluginDbServer.name b)) q) as Hb1.
  pose proof (startsWith_includes (JS.toLowerCase (PluginDbServer.name b)) q) as Hb2.
  destruct (String.eqb (JS.toLowerCase (PluginDbServer.name a)) q);
    destruct (JS.startsWith (JS.toLowerCase (PluginDbServer.name a)) q);
    destruct (JS.includes (JS.toLowerCase (PluginDbServer.name a)) q);
    try (specialize (Ha1 eq_refl); discriminate);
    try (specialize (Ha2 eq_refl); discriminate);
    destruct (String.eqb (JS.toLowerCase (PluginDbServer.name b)) q);
    destruct (JS.startsWith (JS.toLowerCase (PluginDbServer.name b)) q);
    destruct (JS.includes (JS.toLowerCase (PluginDbServer.name b)) q);
    try (specialize (Hb1 eq_refl); discriminate);
    try (specialize (Hb2 eq_refl); discriminate);
    reflexivity.
Qed.

Lemma sortPlugins_relevance_sorted ps sort s :
  localeCompare_total P -> localeCompare_trans P ->
  sort = Some PluginDbServer.Relevance \/ sort = None ->
  s <> ""%string ->
  StronglySorted (plugin_before P (JS.toLowerCase s))
                 (PluginDbServer.sortPlugins P ps sort (Some s)).
Proof.
  intros Htot Htr Hsort Hs.
  assert (E : PluginDbServer.sortPlugins P ps sort (Some s)
              = JS.sort (PluginDbServer.byRelevance P (JS.toLowerCase s)) ps).
  { unfold PluginDbServer.sortPlugins.
    destruct s; [congruence |].
    destruct Hsort as [-> | ->]; reflexivity. }
  rewrite E. apply sort_strongly_sorted.
  - intros a b. rewrite byRelevance_tiers. unfold plugin_before.
    destruct (Z.eqb_spec (pluginTier (JS.toLowerCase s) a)
                         (pluginTier (JS.toLowerCase s) b)); [tauto |].
    destruct (Z.ltb_spec (pluginTier (JS.toLowerCase s) a)
                         (pluginTier (JS.toLowerCase s) b)); lia.
  - intros a b. rewrite byRelevance_tiers. unfold plugin_before.
    destruct (Z.eqb_spec (pluginTier (JS.toLowerCase s) a)
                         (pluginTier (JS.toLowerCase s) b)) as [E1 | N1].
    + intros Hgt. right. split; [congruence |].
      destruct (Htot (PluginDbServer.name a) (PluginDbServer.name b)); [lia | assumption].
    + destruct (Z.ltb_spec (pluginTier (JS.toLowerCase s) a)
                           (pluginTier (JS.toLowerCase s) b)); lia.
  - intros a b c. unfold plugin_before.
    intros [H1 | [H1 H1']] [H2 | [H2 H2']]; try (left; lia).
    right. split; [lia |]. eapply Htr; eassumption.
Qed.

Lemma mcp_relevance_sorted s (l : list MCPServerDB) :
  StronglySorted (mcp_before P s)
    (JS.sort (Sql.then_by (Sql.asc (McpServerDb.relevance_tier s))
                          (Sql.desc McpServerDb.pulls)) l).
Proof.
  apply sort_strongly_sorted; unfold mcp_before, Sql.then_by, Sql.asc, Sql.desc.
  - intros a b.
    destruct (Z.eqb_spec (McpServerDb.relevance_tier s a
                          - McpServerDb.relevance_tier s b) 0); lia.
  - intros a b.
    destruct (Z.eqb_spec (McpServerDb.relevance_tier s a
                          - McpServerDb.relevance_tier s b) 0); lia.
  - intros a b c. lia.
Qed.

(** C5 (amended). With [sort = relevance] and a non-empty search term:
    the MCP listing orders its rows by the five tiers of the [CASE]
    (name ILIKE the term, name ILIKE term%, display name ILIKE %term%,
    description ILIKE %term%, the rest; for a term without LIKE wild
    cards these are the exact, prefix and substring matches up to case)
    and, inside a tier, by pulls in descending order; the unified
    plugin listing orders its items by
    the four tiers of [sortPlugins] (exact name, name prefix, name
    substring, the rest) and, inside a tier, alphabetically by name
    provided [localeCompare] is a total, transitive order.  For the
    items "github", "github-actions" and one that mentions github only
    in its description, both listings put the exact match first, the
    prefix match second and the third item last. *)
Theorem relevance_order :
  (forall (o : McpServerDb.Options) (w : World) (s : string) page w',
     McpServerDb.sort o = Some McpServerDb.Relevance ->
     McpServerDb.search o = Some s -> s <> ""%string ->
     McpServerDb.getMCPServersPaginated P o w = (Resolved page, w') ->
     exists rows,
       McpServerDb.servers P page
       = map (McpServerDb.transformToMCPServerWithParsedJSON P) rows /\
       StronglySorted (mcp_before P s) rows) /\
  (forall (L : PluginDbServer.LocalContent) (o : PluginDbServer.Options)
          (w : World) (s : string) page w',
     localeCompare_total P -> localeCompare_trans P ->
     PluginDbServer.sort o = Some PluginDbServer.Relevance
     \/ PluginDbServer.sort o = None ->
     PluginDbServer.search o = Some s -> s <> ""%string ->
     PluginDbServer.getPluginsPaginated P L o w = (Resolved page, w') ->
     StronglySorted (plugin_before P (JS.toLowerCase s))
                    (PluginDbServer.plugins page)) /\
  (forall (s : string) (r : MCPServerDB),
     plain s = true -> McpServerDb.relevance_tier s r = plainTier s r) /\
  (exists page w',
     McpServerDb.getMCPServersPaginated P mcpGithub w_github = (Resolved page, w') /\
     map (McpServerDb.server P) (McpServerDb.servers P page)
     = [srvGithub; srvActions; srvAwesome]) /\
  PluginDbServer.sortPlugins P [plAwesome; plActions; plGithub]
    (Some PluginDbServer.Relevance) (Some "github"%string)
  = [plGithub; plActions; plAwesome].
Proof.
  split; [| split; [| split; [| split]]].
  - intros o w s page w' Hsort Hsearch Hs E.
    destruct (getMCPServersPaginated_spec P o w) as (rows & n & w1 & E1 & H).
    rewrite E1 in E. injection E as <- _. exists rows. split; [reflexivity |].
    destruct H as [(_ & -> & _) | (_ & -> & _)]; [constructor |].
    unfold mcpRows. apply StronglySorted_window.
    unfold McpServerDb.orderBy. rewrite Hsort, Hsearch.
    destruct s; [congruence |]. apply mcp_relevance_sorted.
  - intros L o w s page w' Htot Htr Hsort Hsearch Hs E.
    rewrite getPluginsPaginated_spec in E.
    assert (Hl : StronglySorted (plugin_before P (JS.toLowerCase s))
                                (localItems P L o)).
    { unfold localItems. destruct (negb _); [| constructor].
      rewrite Hsearch. apply sortPlugins_relevance_sorted; assumption. }
    destruct (PluginDbServer.isBuildWithClaude _).
    + injection E as <- _. apply StronglySorted_slice, Hl.
    + destruct (dbUp w); [| discriminate].
      injection E as <- _. apply StronglySorted_slice.
      unfold sortedMerged. rewrite Hsearch.
      apply sortPlugins_relevance_sorted; assumption.
  - intros s r. apply LikeFacts.relevance_tier_plain.
  - eexists _, _. split; reflexivity.
  - reflexivity.
Qed.

End WithPlatform.

(** The code-unit order of the sample platform is a total order. *)
Lemma compare_le_trans : forall a b c : string,
  String.compare a b <> Gt -> String.compare b c <> Gt -> String.compare a c <> Gt.
Proof.
  induction a as [|x a IH]; intros [|y b] [|z c]; simpl; try congruence.
  unfold Ascii.compare.
  destruct (N.compare_spec (N_of_ascii x) (N_of_ascii y)) as [E1 | L1 | G1];
    destruct (N.compare_spec (N_of_ascii y) (N_of_ascii z)) as [E2 | L2 | G2];
    destruct (N.compare_spec (N_of_ascii x) (N_of_ascii z)) as [E3 | L3 | G3];
    try congruence; try lia.
  apply IH.
Qed.

Lemma sample_localeCompare_total : localeCompare_total samplePlatform.
Proof.
  intros a b. simpl. unfold codeUnitCompare.
  rewrite (String.compare_antisym a b).
  destruct (String.compare b a); simpl; lia.
Qed.

Lemma sample_localeCompare_trans : localeCompare_trans samplePlatform.
Proof.
  intros a b c. simpl. unfold codeUnitCompare. intros H1 H2.
  pose proof (compare_le_trans a b c) as H.
  destruct (String.compare a b), (String.compare b c), (String.compare a c);
    try lia; exfalso; apply H; congruence.
Qed.

(** The local skill "github" and the database command "github":
    the page is in tier order. *)
Lemma relevance_order_witness :
  StronglySorted (plugin_before samplePlatform (JS.toLowerCase "github"))
    (PluginDbServer.plugins
       (PluginDbServer.page
          (sortedMerged samplePlatform githubSkill pluginsGithub w_github) 50 0)).
Proof.
  refine (proj1 (proj2 (relevance_order samplePlatform))
            githubSkill pluginsGithub w_github "github" _ w_github
            sample_localeCompare_total sample_localeCompare_trans
            (or_introl eq_refl) eq_refl _ _).
  - discriminate.
  - reflexivity.
Defined.

(** C5 as first stated fails in the unified listing: both items match
    the term exactly, yet the one without stars comes before the one
    with 100 stars, because ties are broken by name, not popularity. *)
Lemma plugin_ties_ignore_popularity :
  exists page w' a b,
    PluginDbServer.getPluginsPaginated samplePlatform githubSkill pluginsGithub w_github
    = (Resolved page, w') /\
    PluginDbServer.plugins page = [a; b] /\
    JS.toLowerCase (PluginDbServer.name a) = "github"%string /\
    JS.toLowerCase (PluginDbServer.name b) = "github"%string /\
    popularity a < popularity b.
Proof.
  eexists _, _, _, _.
  split; [vm_compute; reflexivity |].
  repeat split.
Qed.

End RelevanceFacts.

(* ================================================================== *)
(** * The registry fetchers                                            *)
(* ================================================================== *)

Module FetchFacts.
Import Schema Async Props Indexer.

Section WithPlatform.
Variable P : Platform.

Lemma officialLoop_bounded (W : Web) : forall fuel servers cursor pageCount sent,
  0 <= pageCount < maxPages ->
  (Z.to_nat (maxPages - pageCount) <= fuel)%nat ->
  let r := officialLoop P fuel W servers cursor pageCount sent in
  settled r <> None /\
  (length (requests r) <= length sent + Z.to_nat (maxPages - pageCount))%nat.
Proof.
  unfold maxPages.
  induction fuel as [|fuel IH]; intros servers cursor pageCount sent Hpc Hfuel;
    [lia |].
  simpl. unfold maxPages. destruct (officialRegistry W (JS.orNull cursor)) as [data |].
  - destruct (JS.truthy (JS.orNull (nextCursor data)) && (pageCount + 1 <? 20))
      eqn:Hgo.
    + apply andb_true_iff in Hgo. destruct Hgo as [_ Hlt].
      apply Z.ltb_lt in Hlt.
      specialize (IH (servers ++ omap (officialToRaw P) (responseServers data))
                     (JS.orNull (nextCursor data)) (pageCount + 1)
                     (sent ++ [JS.orNull cursor])).
      destruct IH as [IH1 IH2]; [lia | lia |].
      split; [exact IH1 |]. rewrite length_app in IH2. simpl in IH2. lia.
    + simpl. split; [discriminate |]. rewrite length_app. simpl. lia.
  - simpl. split; [discriminate |]. rewrite length_app. simpl. lia.
Qed.

(** The official registry is asked for at most 20 pages, and the
    fetcher returns, whatever the registry answers. *)
Lemma official_fetch_bounded (W : Web) (fuel : nat) :
  (20 <= fuel)%nat ->
  settled (fetchOfficialMCPServers P fuel W) <> None /\
  (length (requests (fetchOfficialMCPServers P fuel W)) <= 20)%nat.
Proof.
  intros Hfuel. unfold fetchOfficialMCPServers.
  destruct (officialLoop_bounded W fuel [] None 0 []) as [H1 H2];
    unfold maxPages; try lia.
  split; [exact H1 |]. unfold maxPages in H2. simpl in H2. lia.
Qed.

(** Against a registry that never stops handing out cursors the
    fetcher sends exactly 20 requests. *)
Lemma official_fetch_endless :
  length (requests (fetchOfficialMCPServers P 30 endlessRegistry)) = 20%nat /\
  settled (fetchOfficialMCPServers P 30 endlessRegistry) = Some [].
Proof. split; reflexivity. Qed.

End WithPlatform.

Lemma dockerLoop_endless : forall fuel servers url sent,
  JS.truthy url = true ->
  let r := dockerLoop fuel endlessHub servers url sent in
  settled r = None /\ length (requests r) = (length sent + fuel)%nat.
Proof.
  induction fuel as [|fuel IH]; intros servers url sent Hurl.
  - simpl. split; [reflexivity | lia].
  - destruct url as [[|c u]|]; try discriminate.
    cbn [dockerLoop endlessHub dockerHub results next].
    edestruct IH as [IH1 IH2]; [| split; [exact IH1 |]].
    + reflexivity.
    + rewrite IH2, length_app. simpl. lia.
Qed.

(** C6 (the Docker Hub half fails). Against a Docker Hub whose every
    page carries a next link the fetcher never returns: after any number
    [n] of loop turns it has sent [n] requests and is still looping, so
    it sends more than 20. *)
Theorem docker_fetch_unbounded :
  forall n : nat,
    settled (fetchDockerMCPServers n endlessHub) = None /\
    length (requests (fetchDockerMCPServers n endlessHub)) = n.
Proof.
  intros n. unfold fetchDockerMCPServers.
  destruct (dockerLoop_endless n [] (Some dockerStartUrl) [] eq_refl) as [H1 H2].
  split; [exact H1 | exact H2].
Qed.

End FetchFacts.

(* ================================================================== *)
(** * Upserts                                                          *)
(* ================================================================== *)

Module UpsertFacts.
Import Schema Async Props Indexer.

(** A row with its two indexing timestamps blanked. *)
Local Notation "'erase'" := (withTimestamps None 0).



Section Upserts.
Variable JSON_stringify : list Unknown -> string.

Local Notation "'valuesOf'" := (Props.valuesOf JSON_stringify).
Local Notation "'upsertDb'" := (Props.upsertDb JSON_stringify).
Local Notation "'touch'" := (Props.touch JSON_stringify).
Local Notation "'rows'" := mcpServers.

Lemma upsertDb_rows t d s :
  rows (upsertDb t d s) =
    if present (slugOf s) (rows d)
    then map (fun r => touch t r s) (rows d)
    else rows d ++ [valuesOf s t (nextId d)].
Proof.
  unfold Props.upsertDb, insertOnConflict, present.
  destruct (existsb _ _); reflexivity.
Qed.






Lemma present_app k l1 l2 : present k (l1 ++ l2) = present k l1 || present k l2.
Proof. apply existsb_app. Qed.

Lemma present_values s t id : present (slugOf s) [valuesOf s t id] = true.
Proof.
  unfold present, hasSlug. simpl. rewrite String.eqb_refl. reflexivity.
Qed.






Lemma touch_nomatch t r s : hasSlug (slugOf s) r = false -> touch t r s = r.
Proof. unfold Props.touch. intros ->. reflexivity. Qed.




Lemma hasSlug_not_present k r l :
  present k l = false -> In r l -> hasSlug k r = false.
Proof.
  unfold present. intros H Hr.
  destruct (hasSlug k r) eqn:E; [| reflexivity].
  assert (existsb (hasSlug k) l = true) by (apply existsb_exists; eauto).
  congruence.
Qed.



(** What one upsert does to the world. *)
Lemma upsertMCPServer_world s registry w :
  upsertMCPServer JSON_stringify s registry w
  = if dbUp w
    then (Resolved true, set_db (upsertDb (now w) (db w) (s, registry)) w)
    else (Rejected, w).
Proof.
  unfold upsertMCPServer, bind, dateNow, dbWrite, ret.
  destruct (dbUp w); reflexivity.
Qed.

(** What an indexing loop does to the world. *)
Lemma indexAll_world registry ss : forall acc w,
  exists acc',
    indexAll JSON_stringify ss registry acc w
    = (Resolved acc',
       if dbUp w
       then set_db (fold_left (upsertDb (now w)) (labelled registry ss) (db w)) w
       else w).
Proof.
  induction ss as [|s ss IH]; intros acc w.
  - exists acc. simpl. unfold ret. destruct (dbUp w); [destruct w |]; reflexivity.
  - cbn [indexAll]. unfold bind, try_catch, ret.
    rewrite upsertMCPServer_world.
    destruct (dbUp w) eqn:Hup.
    + match goal with
      | |- context [indexAll _ ss registry ?a ?w1] =>
          destruct (IH a w1) as (acc' & ->)
      end.
      exists acc'. simpl. rewrite Hup. reflexivity.
    + match goal with
      | |- context [indexAll _ ss registry ?a ?w1] =>
          destruct (IH a w1) as (acc' & ->)
      end.
      exists acc'. rewrite Hup. reflexivity.
Qed.

Lemma same_but_timestamps_refl r : same_but_timestamps r r.
Proof. unfold same_but_timestamps. destruct r. reflexivity. Qed.











(** C10. Two raw servers of one registry whose names normalize
    alike get one slug; indexed one after the other into a database
    that does not hold the slug yet, they end up in a single row, which
    keeps the name of the first and carries the descriptive columns of
    the second: one row for two records. *)
Theorem slug_collision_merges_rows :
  forall (registry : string) (s1 s2 : RawMCPServer) (acc : Tally) (w : World),
    dbUp w = true ->
    present (generateSlug (name s1) registry) (rows (db w)) = false ->
    normalizeName (name s1) = normalizeName (name s2) ->
    let w' := snd (indexAll JSON_stringify [s1; s2] registry acc w) in
    let row := onConflictDoUpdate (valuesOf (s1, registry) (now w) (nextId (db w)))
                                  (valuesOf (s2, registry) (now w) 0) (now w) in
    generateSlug (name s1) registry = generateSlug (name s2) registry /\
    rows (db w') = rows (db w) ++ [row] /\
    length (rows (db w')) = S (length (rows (db w))) /\
    Schema.name row = name s1 /\
    Schema.displayName row = display_name s2 /\
    Schema.description row = JS.orNull (Some (description s2)) /\
    Schema.category row = JS.orStr (Some (category s2)) "utilities".
Proof.
  intros registry s1 s2 acc w Hup Hnew Hnorm w' row.
  assert (Hslug : slugOf (s1, registry) = slugOf (s2, registry)).
  { unfold slugOf, generateSlug. simpl. unfold normalizeName in Hnorm.
    rewrite Hnorm. reflexivity. }
  change (present (slugOf (s1, registry)) (rows (db w)) = false) in Hnew.
  assert (Hrows : rows (db w') = rows (db w) ++ [row]).
  { unfold w'. destruct (indexAll_world registry [s1; s2] acc w) as (a & ->).
    rewrite Hup. simpl.
    rewrite upsertDb_rows, upsertDb_rows, Hnew.
    rewrite <- Hslug, present_app, present_values, orb_true_r.
    rewrite map_app. simpl. f_equal.
    - rewrite <- (map_id (rows (db w))) at 2.
      apply map_ext_in. intros r Hr. apply touch_nomatch.
      rewrite <- Hslug. apply (hasSlug_not_present _ _ _ Hnew Hr).
    - unfold Props.touch, hasSlug. simpl. rewrite <- Hslug.
      unfold slugOf at 1 2. simpl. rewrite String.eqb_refl. reflexivity. }
  split; [exact Hslug |]. split; [exact Hrows |].
  split; [rewrite Hrows, length_app; simpl; lia |].
  repeat split.
Qed.

End Upserts.


(** The upstream names "foo.bar" and "foo_bar" differ, their short
    names and slugs do not; indexed into an empty database they share
    one row. *)
Lemma slug_collision_merges_rows_witness :
  "foo.bar"%string <> "foo_bar"%string /\
  getShortName "foo.bar" = "foo-bar"%string /\
  getShortName "foo_bar" = "foo-bar"%string /\
  generateSlug (getShortName "foo.bar") "official-mcp"
  = generateSlug (getShortName "foo_bar") "official-mcp" /\
  map (fun r => (Schema.slug r, Schema.displayName r))
      (mcpServers
         (db (snd (indexAll sampleStringify
                     [rawServer (getShortName "foo.bar") "Foo Dot Bar";
                      rawServer (getShortName "foo_bar") "Foo Underscore Bar"]
                     "official-mcp" zeroTally w_empty))))
  = [("official-mcp-foo-bar"%string, "Foo Underscore Bar"%string)].
Proof.
  destruct (slug_collision_merges_rows sampleStringify "official-mcp"
              (rawServer (getShortName "foo.bar") "Foo Dot Bar")
              (rawServer (getShortName "foo_bar") "Foo Underscore Bar")
              zeroTally w_empty eq_refl eq_refl eq_refl)
    as (Hslug & Hrows & _).
  split; [discriminate |]. split; [reflexivity |]. split; [reflexivity |].
  split; [exact Hslug |].
  rewrite Hrows. reflexivity.
Defined.

End UpsertFacts.

(* ================================================================== *)
(** * Stats sync                                                       *)
(* ================================================================== *)

Module StatsFacts.
Import Schema Async SafeQuery Props AsyncFacts Indexer.

Lemma map_if_same {A} (c : A -> bool) (l : list A) :
  map (fun x => if c x then x else x) l = l.
Proof.
  rewrite <- (map_id l) at 2. apply map_ext. intros x. destruct (c x); reflexivity.
Qed.

Lemma db_eta (d : Db) :
  {| mcpServers := mcpServers d; mcpServerStats := mcpServerStats d;
     marketplaces := marketplaces d; plugins := plugins d; nextId := nextId d |} = d.
Proof. destruct d. reflexivity. Qed.

(** What one loop turn does to the world when the database answers. *)
Lemma syncServer_world W s w :
  dbUp w = true ->
  exists b w',
    syncServer W s w = (Resolved b, w') /\
    db w' = syncDb W (now w) (db w) s /\ only_db_changed w w'.
Proof.
  intros Hup.
  unfold syncServer, syncDocker, syncGithub, syncDb, syncRow, syncSnapshots,
    dockerLookup, githubLookup, only_db_changed.
  destruct (JS.truthy (refDockerUrl s) && String.eqb (refSourceRegistry s) "docker");
    [destruct (fetchDockerStats W (refName s)) as [pulls|] |];
    (destruct (JS.truthy (refGithubUrl s));
     [destruct (fetchGitHubStats W (JS.orStr (refGithubUrl s) "")) as [stars|] |]);
    unfold bind, dateNow, updateServer, insertStat, dbWrite, ret; simpl;
    rewrite ?Hup; simpl; rewrite ?Hup; simpl; rewrite ?Hup; simpl;
    eexists _, _; (split; [reflexivity |]); simpl;
    (split; [| auto]);
    rewrite ?map_map, ?app_nil_r, ?map_if_same, ?db_eta; try reflexivity.
  f_equal. apply map_ext. intros r. simpl.
  destruct (Nat.eqb (id r) (refId s)) eqn:E; simpl; rewrite E; reflexivity.
Qed.

Lemma syncAll_world W refs : forall u f w,
  dbUp w = true ->
  exists r w',
    syncAll W refs u f w = (Resolved r, w') /\
    db w' = fold_left (syncDb W (now w)) refs (db w) /\ only_db_changed w w'.
Proof.
  induction refs as [|s refs IH]; intros u f w Hup.
  - exists (u, f), w. repeat split.
  - destruct (syncServer_world W s w Hup) as (b & w1 & E1 & Hdb & Hnow & Hup1 & Hbr).
    cbn [syncAll]. unfold bind at 1. unfold try_catch, bind, ret. rewrite E1.
    assert (Hup1' : dbUp w1 = true) by congruence.
    destruct b;
      match goal with
      | |- context [syncAll W refs ?u' ?f' w1] =>
          destruct (IH u' f' w1 Hup1') as (r & w' & E & Hdb' & Hnow' & Hup' & Hbr')
      end;
      exists r, w'; (split; [exact E |]); simpl;
      rewrite Hdb', Hdb, Hnow; repeat split; congruence.
Qed.

Lemma syncMCPServerStats_world W w :
  short_circuits w = false -> dbUp w = true ->
  exists result w',
    syncMCPServerStats W w = (Resolved result, w') /\
    db w' = fold_left (syncDb W (now w))
              (map project (List.filter active (mcpServers (db w)))) (db w).
Proof.
  intros Hs Hup.
  unfold syncMCPServerStats, bind, dateNow, loadServers.
  rewrite safeDbQuery_dbRead, Hs, Hup. simpl.
  destruct (syncAll_world W (map project (List.filter active (mcpServers (db w))))
              0 0 (closeCircuit w)) as (r & w' & E & Hdb & _).
  { rewrite dbUp_closeCircuit. exact Hup. }
  rewrite E. unfold ret. eexists _, _. split; [reflexivity |].
  rewrite Hdb, db_closeCircuit, SafeQueryFacts.now_closeCircuit. reflexivity.
Qed.

Lemma filter_map_same_id (id0 : nat) (f : MCPServerDB -> MCPServerDB) rows :
  (forall r, id (f r) = id r) ->
  rowsWithId id0 (map f rows) = map f (rowsWithId id0 rows).
Proof.
  intros Hf. unfold rowsWithId.
  induction rows as [|r rows IH]; simpl; [reflexivity |].
  rewrite Hf. destruct (Nat.eqb (id r) id0); simpl; rewrite IH; reflexivity.
Qed.

Lemma id_syncRow W s t r : id (syncRow W s t r) = id r.
Proof.
  unfold syncRow. destruct (dockerLookup W s), (githubLookup W s); reflexivity.
Qed.

Lemma syncSnapshots_owner W s st : In st (syncSnapshots W s) -> mcpServerId st = refId s.
Proof.
  unfold syncSnapshots.
  destruct (dockerLookup W s), (githubLookup W s); simpl; intros H;
    repeat destruct H as [H | H]; subst; try reflexivity; destruct H.
Qed.

(** A loop turn for another server leaves the rows and snapshots of
    [id0] alone. *)
Lemma syncDb_other W t d s id0 :
  refId s <> id0 ->
  snapshotsOf id0 (mcpServerStats (syncDb W t d s)) = snapshotsOf id0 (mcpServerStats d) /\
  rowsWithId id0 (mcpServers (syncDb W t d s)) = rowsWithId id0 (mcpServers d).
Proof.
  intros Hne. unfold syncDb. simpl. split.
  - unfold snapshotsOf. rewrite List.filter_app.
    rewrite <- (app_nil_r (List.filter _ (mcpServerStats d))) at 2. f_equal.
    destruct (List.filter _ (syncSnapshots W s)) as [|st l] eqn:E; [reflexivity |].
    assert (Hin : In st (List.filter (fun st => Nat.eqb (mcpServerId st) id0)
                           (syncSnapshots W s))) by (rewrite E; left; reflexivity).
    apply filter_In in Hin. destruct Hin as [Hin Hid].
    apply syncSnapshots_owner in Hin. apply Nat.eqb_eq in Hid. congruence.
  - unfold rowsWithId.
    induction (mcpServers d) as [|r rows IH]; simpl; [reflexivity |].
    destruct (Nat.eqb (id r) (refId s)) eqn:E1.
    + rewrite id_syncRow. apply Nat.eqb_eq in E1.
      destruct (Nat.eqb (id r) id0) eqn:E2; [apply Nat.eqb_eq in E2; congruence |].
      exact IH.
    + destruct (Nat.eqb (id r) id0); [f_equal |]; exact IH.
Qed.

Lemma fold_syncDb_other W t refs id0 : forall d,
  (forall s, In s refs -> refId s <> id0) ->
  snapshotsOf id0 (mcpServerStats (fold_left (syncDb W t) refs d))
  = snapshotsOf id0 (mcpServerStats d) /\
  rowsWithId id0 (mcpServers (fold_left (syncDb W t) refs d))
  = rowsWithId id0 (mcpServers d).
Proof.
  induction refs as [|s refs IH]; intros d H; [split; reflexivity |].
  simpl. destruct (IH (syncDb W t d s)) as [E1 E2].
  { intros s' Hs'. apply H. right. exact Hs'. }
  destruct (syncDb_other W t d s id0) as [E3 E4].
  { apply H. left. reflexivity. }
  rewrite E1, E2, E3, E4. split; reflexivity.
Qed.

(** The loop turn of a server whose GitHub look-up succeeds stores
    exactly one snapshot for it and sets its star count. *)
Lemma syncDb_self W t d s stars :
  githubLookup W s = Some stars ->
  length (snapshotsOf (refId s) (mcpServerStats (syncDb W t d s)))
  = S (length (snapshotsOf (refId s) (mcpServerStats d))) /\
  rowsWithId (refId s) (mcpServers (syncDb W t d s))
  = map (syncRow W s t) (rowsWithId (refId s) (mcpServers d)) /\
  forall r, githubStars (syncRow W s t r) = Some stars.
Proof.
  intros Hg. unfold syncDb. simpl. split; [| split].
  - unfold snapshotsOf. rewrite List.filter_app, length_app.
    unfold syncSnapshots. rewrite Hg.
    destruct (dockerLookup W s); simpl; rewrite Nat.eqb_refl; simpl; lia.
  - unfold rowsWithId.
    induction (mcpServers d) as [|r rows IH]; simpl; [reflexivity |].
    destruct (Nat.eqb (id r) (refId s)) eqn:E1; simpl.
    + rewrite id_syncRow, E1. simpl. f_equal. exact IH.
    + rewrite E1. exact IH.
  - intros r. unfold syncRow. rewrite Hg. reflexivity.
Qed.

Lemma NoDup_map_filter {A B} (f : A -> B) (p : A -> bool) (l : list A) :
  List.NoDup (map f l) -> List.NoDup (map f (List.filter p l)).
Proof.
  induction l as [|x l IH]; simpl; intros H; [constructor |].
  apply NoDup_cons_iff in H. destruct H as [Hx Hl].
  destruct (p x); simpl; [| apply IH, Hl].
  constructor; [| apply IH, Hl].
  intros Hin. apply Hx. apply in_map_iff in Hin.
  destruct Hin as (y & E & Hy). apply filter_In in Hy.
  apply in_map_iff. exists y. tauto.
Qed.

(** C8. In one pass of the stats sync over a reachable database whose
    rows have distinct identifiers: for every active server whose GitHub
    look-up succeeds, whether its Docker look-up fails, does not apply or
    succeeds as well, the pass stores exactly one snapshot for that
    server and leaves its row with the new star count. *)
Theorem stats_sync_one_snapshot :
  forall (W : Web) (w : World) (r : MCPServerDB) (stars : Z),
    short_circuits w = false -> dbUp w = true ->
    List.NoDup (map id (mcpServers (db w))) ->
    In r (mcpServers (db w)) -> active r = true ->
    githubLookup W (project r) = Some stars ->
    exists result w',
      syncMCPServerStats W w = (Resolved result, w') /\
      length (snapshotsOf (id r) (mcpServerStats (db w')))
      = S (length (snapshotsOf (id r) (mcpServerStats (db w)))) /\
      exists r', In r' (mcpServers (db w')) /\ id r' = id r /\
                 githubStars r' = Some stars.
Proof.
  intros W w r stars Hs Hup Hnd Hr Hact Hg.
  destruct (syncMCPServerStats_world W w Hs Hup) as (result & w' & E & Hdb).
  exists result, w'. split; [exact E |]. rewrite Hdb. clear E Hdb.
  assert (Hin : In r (List.filter active (mcpServers (db w))))
    by (apply filter_In; split; assumption).
  pose proof (NoDup_map_filter id active _ Hnd) as Hnd'.
  destruct (in_split _ _ Hin) as (l1 & l2 & El).
  rewrite El in Hnd' |- *. rewrite map_app in Hnd' |- *. simpl in Hnd' |- *.
  apply NoDup_remove_2 in Hnd'.
  assert (H1 : forall s, In s (map project l1) -> refId s <> id r).
  { intros s Hs1 Eid. apply in_map_iff in Hs1. destruct Hs1 as (x & <- & Hx).
    apply Hnd'. apply in_or_app. left. apply in_map_iff. exists x. split; auto. }
  assert (H2 : forall s, In s (map project l2) -> refId s <> id r).
  { intros s Hs2 Eid. apply in_map_iff in Hs2. destruct Hs2 as (x & <- & Hx).
    apply Hnd'. apply in_or_app. right. apply in_map_iff. exists x. split; auto. }
  rewrite fold_left_app. simpl.
  set (d1 := fold_left (syncDb W (now w)) (map project l1) (db w)).
  destruct (fold_syncDb_other W (now w) (map project l1) (id r) (db w) H1) as [A1 A2].
  fold d1 in A1, A2.
  destruct (syncDb_self W (now w) d1 (project r) stars Hg) as (B1 & B2 & B3).
  change (refId (project r)) with (id r) in B1, B2.
  destruct (fold_syncDb_other W (now w) (map project l2) (id r)
              (syncDb W (now w) d1 (project r)) H2) as [C1 C2].
  split.
  - rewrite C1, B1, A1. reflexivity.
  - exists (syncRow W (project r) (now w) r).
    split; [| split; [apply id_syncRow | apply B3]].
    assert (Hrow : In (syncRow W (project r) (now w) r)
                      (rowsWithId (id r)
                         (mcpServers (fold_left (syncDb W (now w)) (map project l2)
                                        (syncDb W (now w) d1 (project r)))))).
    { rewrite C2, B2, A2. apply in_map. unfold rowsWithId.
      apply filter_In. split; [exact Hr | apply Nat.eqb_refl]. }
    unfold rowsWithId in Hrow. apply filter_In in Hrow. tauto.
Qed.

(** GitHub answers, Docker Hub does not: one snapshot, 77 stars. *)
Lemma stats_sync_one_snapshot_witness :
  exists result w',
    syncMCPServerStats starsOnly w_stats = (Resolved result, w') /\
    length (snapshotsOf 7 (mcpServerStats (db w'))) = 1%nat /\
    exists r', In r' (mcpServers (db w')) /\ id r' = 7%nat /\
               githubStars r' = Some 77.
Proof.
  refine (stats_sync_one_snapshot starsOnly w_stats dockerServer 77
            eq_refl eq_refl _ _ eq_refl eq_refl).
  - repeat constructor. intros [].
  - left. reflexivity.
Defined.

End StatsFacts.

(* ================================================================== *)
(** * Strings: slugs, short names and display names                    *)
(* ================================================================== *)

Module StringFacts.
Import Checks.

Lemma all_chars_map_string (p : ascii -> bool) (f : ascii -> ascii) s :
  (forall c, p (f c) = true) -> all_chars p (JS.map_string f s) = true.
Proof.
  intros Hf. induction s as [|c s IH]; simpl; [reflexivity |].
  rewrite Hf, IH. reflexivity.
Qed.

Lemma all_chars_map_string_keep (p : ascii -> bool) (f : ascii -> ascii) s :
  (forall c, p c = true -> p (f c) = true) ->
  all_chars p s = true -> all_chars p (JS.map_string f s) = true.
Proof.
  intros Hf. induction s as [|c s IH]; simpl; [reflexivity |].
  rewrite !andb_true_iff. intros [Hc Hs]. split; [apply Hf, Hc | apply IH, Hs].
Qed.

Lemma map_string_id (p : ascii -> bool) (f : ascii -> ascii) s :
  (forall c, p c = true -> f c = c) ->
  all_chars p s = true -> JS.map_string f s = s.
Proof.
  intros Hf. induction s as [|c s IH]; simpl; [reflexivity |].
  rewrite andb_true_iff. intros [Hc Hs]. rewrite Hf, IH by assumption. reflexivity.
Qed.

Lemma length_map_string f s : String.length (JS.map_string f s) = String.length s.
Proof. induction s as [|c s IH]; simpl; congruence. Qed.

Lemma slug_char_replace c :
  JS.slug_char (if JS.slug_char c then c else "-"%char) = true.
Proof. destruct (JS.slug_char c) eqn:E; [exact E | reflexivity]. Qed.

Lemma replace_non_slug_ok s : all_chars JS.slug_char (JS.replace_non_slug s) = true.
Proof. apply all_chars_map_string, slug_char_replace. Qed.

Lemma slug_char_lower c : JS.slug_char c = true -> JS.lower_ascii c = c.
Proof. destruct c as [[] [] [] [] [] [] [] []]; vm_compute; congruence. Qed.

Lemma slug_fixed s :
  all_chars JS.slug_char s = true ->
  JS.replace_non_slug (JS.toLowerCase s) = s.
Proof.
  intros Hs. unfold JS.toLowerCase, JS.replace_non_slug.
  rewrite (map_string_id JS.slug_char JS.lower_ascii s slug_char_lower Hs).
  apply (map_string_id JS.slug_char); [| exact Hs].
  intros c Hc. rewrite Hc. reflexivity.
Qed.

Lemma prefix_nil s : String.prefix "" s = true.
Proof. destruct s; reflexivity. Qed.

Lemma prefix_one c d s : String.prefix (String c "") (String d s) = Ascii.eqb c d.
Proof. rewrite LikeFacts.prefix_cons, prefix_nil. apply andb_true_r. Qed.

Lemma collapse_cons c s :
  JS.collapse_hyphens (String c s) =
    if Ascii.eqb c "-" && String.prefix "-" s then JS.collapse_hyphens s
    else String c (JS.collapse_hyphens s).
Proof.
  cbn [JS.collapse_hyphens]. destruct (Ascii.eqb c "-") eqn:Ec; [| reflexivity].
  destruct s as [|c' s']; [reflexivity |].
  rewrite prefix_one, (Ascii.eqb_sym "-" c'). cbn [andb].
  destruct (Ascii.eqb c' "-"); reflexivity.
Qed.

Lemma prefix_hyphen_collapse s :
  String.prefix "-" (JS.collapse_hyphens s) = String.prefix "-" s.
Proof.
  induction s as [|c s IH]; [reflexivity |].
  rewrite collapse_cons, prefix_one.
  destruct (Ascii.eqb c "-") eqn:Ec; cbn [andb].
  - apply Ascii.eqb_eq in Ec. subst c.
    destruct (String.prefix "-" s) eqn:Ep.
    + rewrite IH. reflexivity.
    + rewrite prefix_one. reflexivity.
  - rewrite prefix_one. reflexivity.
Qed.

Lemma prefix_two c s :
  String.prefix "--" (String c s) = Ascii.eqb c "-" && String.prefix "-" s.
Proof. rewrite LikeFacts.prefix_cons, (Ascii.eqb_sym "-" c). reflexivity. Qed.

Lemma collapse_no_run s : JS.includes (JS.collapse_hyphens s) "--" = false.
Proof.
  induction s as [|c s IH]; [reflexivity |].
  rewrite collapse_cons.
  destruct (Ascii.eqb c "-" && String.prefix "-" s) eqn:E; [exact IH |].
  cbn [JS.includes]. rewrite IH, prefix_two, prefix_hyphen_collapse, E. reflexivity.
Qed.

Lemma collapse_fixed s : JS.includes s "--" = false -> JS.collapse_hyphens s = s.
Proof.
  induction s as [|c s IH]; [reflexivity |].
  cbn [JS.includes]. rewrite prefix_two, orb_false_iff. intros [Hp Hs].
  rewrite collapse_cons, Hp, IH by exact Hs. reflexivity.
Qed.

Lemma all_chars_collapse p s :
  all_chars p s = true -> all_chars p (JS.collapse_hyphens s) = true.
Proof.
  induction s as [|c s IH]; [reflexivity |].
  cbn [all_chars]. rewrite andb_true_iff. intros [Hc Hs].
  rewrite collapse_cons. destruct (_ && _); [apply IH, Hs |].
  cbn [all_chars]. rewrite Hc. apply IH, Hs.
Qed.

Lemma length_collapse s :
  (String.length (JS.collapse_hyphens s) <= String.length s)%nat.
Proof.
  induction s as [|c s IH]; [reflexivity |].
  rewrite collapse_cons. destruct (_ && _); simpl; lia.
Qed.

(** X1.  [generateSlug] returns the registry, a hyphen and a base
    name; the base name is made of [a-z], [0-9] and hyphens only, holds
    no two hyphens in a row, and normalizing it again changes nothing. *)
Theorem generateSlug_shape (name sourceRegistry : string) :
  exists base,
    Indexer.generateSlug name sourceRegistry = sourceRegistry +:+ "-" +:+ base /\
    all_chars JS.slug_char base = true /\
    JS.includes base "--" = false /\
    Indexer.generateSlug base sourceRegistry
    = Indexer.generateSlug name sourceRegistry.
Proof.
  exists (JS.collapse_hyphens (JS.replace_non_slug (JS.toLowerCase name))).
  assert (Hok : all_chars JS.slug_char
                  (JS.collapse_hyphens (JS.replace_non_slug (JS.toLowerCase name)))
                = true)
    by apply all_chars_collapse, replace_non_slug_ok.
  split; [reflexivity |]. split; [exact Hok |].
  split; [apply collapse_no_run |].
  unfold Indexer.generateSlug.
  rewrite (slug_fixed _ Hok), (collapse_fixed _ (collapse_no_run _)). reflexivity.
Qed.

(** ** The part after the last slash *)

Lemma includes_slash_cons c s :
  JS.includes (String c s) "/" = Ascii.eqb c "/" || JS.includes s "/".
Proof. cbn [JS.includes]. rewrite prefix_one, (Ascii.eqb_sym "/" c). reflexivity. Qed.

Lemma includes_slash_nil : JS.includes "" "/" = false.
Proof. reflexivity. Qed.

Lemma includes_slash_app a b : JS.includes (a +:+ "/" +:+ b) "/" = true.
Proof.
  induction a as [|c a IH].
  - change ("" +:+ "/" +:+ b) with (String "/" b).
    rewrite includes_slash_cons. reflexivity.
  - change (String c a +:+ "/" +:+ b) with (String c (a +:+ "/" +:+ b)).
    rewrite includes_slash_cons, IH. apply orb_true_r.
Qed.

Lemma after_last_slash_app a b :
  JS.includes b "/" = false -> JS.after_last_slash (a +:+ "/" +:+ b) = b.
Proof.
  intros Hb. induction a as [|c a IH].
  - change ("" +:+ "/" +:+ b) with (String "/" b).
    cbn [JS.after_last_slash]. rewrite Hb. reflexivity.
  - change (String c a +:+ "/" +:+ b) with (String c (a +:+ "/" +:+ b)).
    cbn [JS.after_last_slash]. rewrite includes_slash_app. exact IH.
Qed.

Lemma after_last_slash_clean s : JS.includes (JS.after_last_slash s) "/" = false.
Proof.
  induction s as [|c s IH]; [reflexivity |].
  cbn [JS.after_last_slash].
  destruct (JS.includes s "/") eqn:Es; [exact IH |].
  destruct (Ascii.eqb c "/") eqn:Ec; [exact Es |].
  rewrite includes_slash_cons, Ec, Es. reflexivity.
Qed.

Lemma map_string_nil f s : JS.map_string f s = "" -> s = "".
Proof. destruct s; [reflexivity | discriminate]. Qed.

Lemma orStr_nonempty s d : d <> "" -> JS.orStr (Some s) d <> "".
Proof. intros Hd. destruct s; [exact Hd | discriminate]. Qed.

Lemma app_cons_nonempty a c b : a +:+ String c b <> "".
Proof. destruct a; discriminate. Qed.

(** X2.  [getShortName] never returns the empty string, returns a
    string of [a-z], [0-9] and hyphens only, drops everything up to the
    last slash, and answers ["unknown"] for a name that ends in a
    slash. *)
Theorem getShortName_shape :
  (forall name : string,
     Indexer.getShortName name <> ""%string /\
     all_chars JS.slug_char (Indexer.getShortName name) = true) /\
  (forall owner base : string,
     base <> ""%string -> JS.includes base "/" = false ->
     Indexer.getShortName (owner +:+ "/" +:+ base) = Indexer.getShortName base) /\
  (forall owner : string, Indexer.getShortName (owner +:+ "/") = "unknown"%string).
Proof.
  split; [| split].
  - intros name. unfold Indexer.getShortName.
    destruct name as [|c name]; [split; [discriminate | reflexivity] |].
    split; [| apply replace_non_slug_ok].
    intros E. apply map_string_nil, map_string_nil in E.
    revert E. apply orStr_nonempty. discriminate.
  - intros owner base Hne Hb. unfold Indexer.getShortName.
    destruct (owner +:+ "/" +:+ base) as [|c s] eqn:E;
      [exfalso; revert E; apply app_cons_nonempty |].
    rewrite <- E, includes_slash_app, after_last_slash_app by exact Hb.
    destruct base as [|d base]; [congruence |]. rewrite Hb. reflexivity.
  - intros owner. unfold Indexer.getShortName.
    destruct (owner +:+ "/") as [|c s] eqn:E;
      [exfalso; revert E; apply app_cons_nonempty |].
    rewrite <- E. change (owner +:+ "/") with (owner +:+ "/" +:+ "").
    rewrite includes_slash_app, after_last_slash_app by reflexivity.
    reflexivity.
Qed.

Lemma getShortName_shape_witness :
  Indexer.getShortName ("io.github.acme" +:+ "/" +:+ "Weather_Server")
  = Indexer.getShortName "Weather_Server".
Proof.
  apply (proj1 (proj2 getShortName_shape) "io.github.acme" "Weather_Server").
  - discriminate.
  - reflexivity.
Defined.

(** ** Display names *)

Lemma split_cons c s :
  JS.split " " (String c s) =
    if Ascii.eqb c " " then EmptyString :: JS.split " " s
    else match JS.split " " s with
         | h :: t => String c h :: t
         | [] => [String c EmptyString]
         end.
Proof. reflexivity. Qed.

Lemma concat_cons_char c h (l : list string) :
  String.concat " " (String c h :: l) = String c (String.concat " " (h :: l)).
Proof. destruct l; reflexivity. Qed.

Lemma concat_nil_head (x : string) (l : list string) :
  String.concat " " (EmptyString :: x :: l) = String " " (String.concat " " (x :: l)).
Proof. reflexivity. Qed.

Lemma split_title s :
  exists h t,
    JS.split " " s = h :: t /\
    String.concat " " (map JS.capitalize (h :: t)) = title_case true s /\
    String.concat " " (h :: map JS.capitalize t) = title_case false s.
Proof.
  induction s as [|c s (h & t & E & HA & HB)].
  - exists EmptyString, []. repeat split.
  - rewrite split_cons, E. cbn [title_case].
    destruct (Ascii.eqb c " ") eqn:Ec.
    + apply Ascii.eqb_eq in Ec. subst c.
      exists EmptyString, (h :: t). split; [reflexivity |].
      cbn [map JS.capitalize]. rewrite concat_nil_head.
      change (JS.capitalize h :: map JS.capitalize t) with (map JS.capitalize (h :: t)).
      rewrite HA. split; reflexivity.
    + exists (String c h), t. split; [reflexivity |].
      cbn [map JS.capitalize]. rewrite !concat_cons_char, HB. split; reflexivity.
Qed.

Lemma concat_capitalize_split s :
  String.concat " " (map JS.capitalize (JS.split " " s)) = title_case true s.
Proof. destruct (split_title s) as (h & t & -> & HA & _). exact HA. Qed.

Lemma upper_not_lower c : JS.in_range 97 122 (JS.upper_ascii c) = false.
Proof. destruct c as [[] [] [] [] [] [] [] []]; vm_compute; reflexivity. Qed.

Lemma upper_keeps_clean c :
  negb (is_separator c) = true -> negb (is_separator (JS.upper_ascii c)) = true.
Proof. destruct c as [[] [] [] [] [] [] [] []]; vm_compute; congruence. Qed.

Lemma title_case_capitalized b s : words_capitalized b (title_case b s) = true.
Proof.
  revert b. induction s as [|c s IH]; intros b; [reflexivity |].
  cbn [title_case]. destruct (Ascii.eqb c " ") eqn:Ec.
  - cbn [words_capitalized]. rewrite Ec, IH.
    apply Ascii.eqb_eq in Ec. subst c. destruct b; reflexivity.
  - cbn [words_capitalized]. destruct b.
    + rewrite upper_not_lower. cbn [negb andb].
      replace (Ascii.eqb (JS.upper_ascii c) " ") with false; [apply IH |].
      revert Ec. clear. destruct c as [[] [] [] [] [] [] [] []]; vm_compute; congruence.
    + rewrite Ec. apply IH.
Qed.

Lemma title_case_clean b s :
  all_chars (fun c => negb (is_separator c)) s = true ->
  all_chars (fun c => negb (is_separator c)) (title_case b s) = true.
Proof.
  revert b. induction s as [|c s IH]; intros b; [reflexivity |].
  cbn [all_chars]. rewrite andb_true_iff. intros [Hc Hs].
  cbn [title_case]. destruct (Ascii.eqb c " "); cbn [all_chars].
  - rewrite Hc. apply IH, Hs.
  - destruct b; [rewrite upper_keeps_clean by exact Hc | rewrite Hc]; apply IH, Hs.
Qed.

Lemma all_chars_strip_suffix p x s :
  all_chars p s = true -> all_chars p (JS.strip_suffix x s) = true.
Proof.
  induction s as [|c s IH]; [reflexivity |].
  cbn [all_chars]. rewrite andb_true_iff. intros [Hc Hs].
  cbn [JS.strip_suffix]. destruct (String.eqb _ _); [reflexivity |].
  cbn [all_chars]. rewrite Hc. apply IH, Hs.
Qed.

Lemma no_slash_chars s :
  JS.includes s "/" = false ->
  all_chars (fun c => negb (Ascii.eqb c "/")) s = true.
Proof.
  induction s as [|c s IH]; [reflexivity |].
  rewrite includes_slash_cons, orb_false_iff. intros [Hc Hs].
  cbn [all_chars]. rewrite Hc. apply IH, Hs.
Qed.

Lemma spaced_clean s :
  all_chars (fun c => negb (Ascii.eqb c "/")) s = true ->
  all_chars (fun c => negb (is_separator c))
    (JS.map_string
       (fun c => if Ascii.eqb c "-" || Ascii.eqb c "_" then " "%char else c) s)
  = true.
Proof.
  induction s as [|c s IH]; [reflexivity |].
  cbn [all_chars JS.map_string]. rewrite andb_true_iff. intros [Hc Hs].
  rewrite IH by exact Hs. rewrite andb_true_r.
  unfold is_separator.
  destruct (Ascii.eqb c "-") eqn:E1; [reflexivity |].
  destruct (Ascii.eqb c "_") eqn:E2; [reflexivity |].
  cbn [orb]. rewrite E1, E2. exact Hc.
Qed.

(** X3.  [formatServerName] answers ["Unknown Server"] for the empty
    name; its result never holds a hyphen, an underscore or a slash,
    and none of its words starts with a lower-case letter. *)
Theorem formatServerName_shape (name : string) :
  Indexer.formatServerName "" = "Unknown Server"%string /\
  all_chars (fun c => negb (is_separator c)) (Indexer.formatServerName name) = true /\
  words_capitalized true (Indexer.formatServerName name) = true.
Proof.
  split; [reflexivity |].
  unfold Indexer.formatServerName.
  destruct name as [|c name]; [split; reflexivity |].
  rewrite concat_capitalize_split.
  split; [| apply title_case_capitalized].
  apply title_case_clean, spaced_clean, all_chars_strip_suffix.
  destruct (JS.includes (String c name) "/") eqn:E.
  - pose proof (after_last_slash_clean (String c name)) as H.
    destruct (JS.after_last_slash (String c name)); [reflexivity |].
    apply no_slash_chars, H.
  - apply no_slash_chars, E.
Qed.

End StringFacts.

(* ================================================================== *)
(** * The helper functions of the indexer                              *)
(* ================================================================== *)

Module HelperFacts.
Import Checks Indexer.

Lemma lower_lower c : JS.lower_ascii (JS.lower_ascii c) = JS.lower_ascii c.
Proof. destruct c as [[] [] [] [] [] [] [] []]; vm_compute; reflexivity. Qed.

Lemma toLowerCase_idem s : JS.toLowerCase (JS.toLowerCase s) = JS.toLowerCase s.
Proof.
  unfold JS.toLowerCase. induction s as [|c s IH]; [reflexivity |].
  cbn [JS.map_string]. rewrite lower_lower, IH. reflexivity.
Qed.

Lemma lower_text a b :
  JS.toLowerCase (JS.toLowerCase a +:+ " " +:+ JS.toLowerCase b)
  = JS.toLowerCase (a +:+ " " +:+ b).
Proof.
  rewrite !LikeFacts.toLowerCase_app, !toLowerCase_idem. reflexivity.
Qed.

Lemma firstRule_In rules text :
  In (firstRule rules text) ("utilities"%string :: map snd rules).
Proof.
  induction rules as [|[kws cat] rules IH]; [left; reflexivity |].
  cbn [firstRule map snd]. destruct (JS.matches_word kws text).
  - right. left. reflexivity.
  - destruct IH as [IH | IH]; [left; exact IH | right; right; exact IH].
Qed.

(** X4.  [categorizeServer] always answers one of the eleven known
    category identifiers, and the case of the letters of the name and
    of the description does not matter. *)
Theorem categorizeServer_known (name description : string) :
  In (categorizeServer name description) knownCategories /\
  categorizeServer (JS.toLowerCase name) (JS.toLowerCase description)
  = categorizeServer name description.
Proof.
  split.
  - unfold categorizeServer.
    pose proof (firstRule_In categoryRules
                  (JS.toLowerCase (name +:+ " " +:+ description))) as H.
    cbn [categoryRules map snd] in H. unfold knownCategories. cbn [In] in *.
    intuition.
  - unfold categorizeServer. rewrite lower_text. reflexivity.
Qed.

Lemma filter_NoDup {A} (f : A -> bool) (l : list A) :
  List.NoDup l -> List.NoDup (List.filter f l).
Proof.
  induction 1 as [|x l Hx Hl IH]; cbn [List.filter]; [constructor |].
  destruct (f x); [| exact IH].
  constructor; [| exact IH]. rewrite filter_In. tauto.
Qed.

Lemma dedupe_NoDup_id (l : list string) : List.NoDup l -> JS.dedupe l = l.
Proof.
  induction 1 as [|x l Hx Hl IH]; [reflexivity |].
  cbn [JS.dedupe]. rewrite IH. f_equal.
  clear IH Hl. induction l as [|y l IH]; [reflexivity |].
  cbn [List.filter]. destruct (String.eqb_spec x y) as [-> | Hne].
  - exfalso. apply Hx. left. reflexivity.
  - cbn [negb]. f_equal. apply IH. intros H. apply Hx. right. exact H.
Qed.

Lemma tagKeywords_NoDup : List.NoDup tagKeywords.
Proof.
  unfold tagKeywords.
  repeat (constructor; [cbn [In]; intuition discriminate |]). constructor.
Qed.

(** X5.  [extractTags] returns exactly the tag keywords that occur in
    the lower-cased name and description, each once and in the order
    of the keyword list. *)
Theorem extractTags_exact (name description : string) :
  let text := JS.toLowerCase (name +:+ " " +:+ description) in
  extractTags name description
  = List.filter (fun keyword => JS.includes text keyword) tagKeywords /\
  List.NoDup (extractTags name description) /\
  (forall t, In t (extractTags name description) <->
             In t tagKeywords /\ JS.includes text t = true) /\
  (length (extractTags name description) <= 10)%nat.
Proof.
  intros text. unfold extractTags. fold text.
  rewrite dedupe_NoDup_id by apply filter_NoDup, tagKeywords_NoDup.
  split; [reflexivity |]. split; [apply filter_NoDup, tagKeywords_NoDup |].
  split; [intros t; apply filter_In |].
  etransitivity; [apply List.filter_length_le |]. reflexivity.
Qed.

(** ** Environment variables *)

Lemma envStep_names acc env :
  map evName (envStep acc env)
  = if existsb (fun e => String.eqb (evName e) (envName env)) acc
    then map evName acc else map evName acc ++ [envName env].
Proof.
  unfold envStep. destruct (existsb _ acc); [reflexivity |].
  rewrite map_app. reflexivity.
Qed.

Lemma existsb_name acc n :
  existsb (fun e => String.eqb (evName e) n) acc = true <-> In n (map evName acc).
Proof.
  rewrite existsb_exists, in_map_iff. split.
  - intros (e & He & E). apply String.eqb_eq in E. eauto.
  - intros (e & E & He). exists e. split; [exact He | apply String.eqb_eq, E].
Qed.

Lemma fold_envStep_NoDup decls : forall acc,
  List.NoDup (map evName acc) ->
  List.NoDup (map evName (fold_left envStep decls acc)).
Proof.
  induction decls as [|env decls IH]; intros acc Hacc; [exact Hacc |].
  cbn [fold_left]. apply IH. rewrite envStep_names.
  destruct (existsb _ acc) eqn:E; [exact Hacc |].
  apply List.NoDup_app; [exact Hacc | repeat constructor; intros [] |].
  intros n Hn [<- | []]. apply existsb_name in Hn. congruence.
Qed.

Lemma fold_envStep_keeps decls : forall acc e,
  In e acc -> In e (fold_left envStep decls acc).
Proof.
  induction decls as [|env decls IH]; intros acc e He; [exact He |].
  cbn [fold_left]. apply IH. unfold envStep.
  destruct (existsb _ acc); [exact He | apply in_or_app; left; exact He].
Qed.

Lemma fold_envStep_covers decls : forall acc env,
  In env decls -> In (envName env) (map evName (fold_left envStep decls acc)).
Proof.
  induction decls as [|d decls IH]; intros acc env Hin; [destruct Hin |].
  destruct Hin as [<- | Hin]; cbn [fold_left].
  - assert (H : In (envName d) (map evName (envStep acc d))).
    { rewrite envStep_names. destruct (existsb _ acc) eqn:E.
      - apply existsb_name, E.
      - apply in_or_app. right. left. reflexivity. }
    apply in_map_iff in H. destruct H as (e & <- & He).
    apply in_map, fold_envStep_keeps, He.
  - apply IH, Hin.
Qed.

Lemma fold_envStep_origin decls : forall acc e,
  In e (fold_left envStep decls acc) ->
  In e acc \/
  exists env, In env decls /\
    e = {| evName := envName env;
           evDescription := JS.orStr (envDescription env) "";
           evRequired := match envRequired env with
                         | Some false => false
                         | _ => true
                         end |}.
Proof.
  induction decls as [|d decls IH]; intros acc e He; [left; exact He |].
  cbn [fold_left] in He. apply IH in He. destruct He as [He | (env & Hin & E)].
  - unfold envStep in He. destruct (existsb _ acc); [left; exact He |].
    apply in_app_or in He. destruct He as [He | [<- | []]]; [left; exact He |].
    right. exists d. split; [left |]; reflexivity.
  - right. exists env. split; [right; exact Hin | exact E].
Qed.

(** X6.  [extractEnvVars] lists every environment variable that a
    package declares, each name once; an entry takes its description
    (the empty string if there is none) from a declaration of that
    name and is required unless that declaration says [false]; without
    packages the list is empty. *)
Theorem extractEnvVars_distinct (packages : option (list Package)) :
  List.NoDup (map evName (extractEnvVars packages)) /\
  (forall pkg env,
     In pkg (JS.orEmpty packages) -> In env (JS.orEmpty (packageEnv pkg)) ->
     In (envName env) (map evName (extractEnvVars packages))) /\
  (forall e,
     In e (extractEnvVars packages) ->
     exists pkg env,
       In pkg (JS.orEmpty packages) /\ In env (JS.orEmpty (packageEnv pkg)) /\
       evName e = envName env /\
       evDescription e = JS.orStr (envDescription env) "" /\
       (evRequired e = false <-> envRequired env = Some false)) /\
  extractEnvVars None = [].
Proof.
  change (extractEnvVars packages)
    with (fold_left envStep
            (flat_map (fun pkg => JS.orEmpty (packageEnv pkg)) (JS.orEmpty packages)) []).
  split; [apply fold_envStep_NoDup; constructor |].
  split; [| split; [| reflexivity]].
  - intros pkg env Hpkg Henv. apply fold_envStep_covers, in_flat_map. eauto.
  - intros e He. apply fold_envStep_origin in He. destruct He as [[] | (env & Hin & ->)].
    apply in_flat_map in Hin. destruct Hin as (pkg & Hpkg & Henv).
    exists pkg, env. repeat split; try assumption; cbn.
    + destruct (envRequired env) as [[]|]; congruence.
    + intros ->. reflexivity.
Qed.

Lemma extractEnvVars_distinct_witness :
  In "API_KEY"%string (map evName (extractEnvVars (Some [samplePackage]))).
Proof.
  apply (proj1 (proj2 (extractEnvVars_distinct (Some [samplePackage])))
           samplePackage sampleEnv).
  - left. reflexivity.
  - left. reflexivity.
Defined.

(** ** Installation methods *)

Lemma find_existsb {A} (f : A -> bool) (l : list A) :
  match List.find f l with Some _ => true | None => false end = existsb f l.
Proof.
  induction l as [|x l IH]; [reflexivity |].
  cbn [List.find existsb]. destruct (f x); [reflexivity | exact IH].
Qed.

(** X7.  [buildInstallationMethods] offers at most three methods, of
    pairwise different types; when it offers any, the first one is the
    recommended one and no other is; it offers none exactly when there
    is neither an npm package nor an OCI package nor an HTTP remote. *)
Theorem buildInstallationMethods_recommended (serverName : string)
    (packages : option (list Package)) (remotes : option (list Remote)) :
  let methods := buildInstallationMethods serverName packages remotes in
  (length methods <= 3)%nat /\
  List.NoDup (map methodType methods) /\
  (methods = [] \/
   exists m rest, methods = m :: rest /\ recommended m = true /\
                  forallb (fun x => negb (recommended x)) rest = true) /\
  (methods = [] <->
   existsb (fun p => String.eqb (registryType p) "npm") (JS.orEmpty packages) = false /\
   existsb (fun p => String.eqb (registryType p) "oci") (JS.orEmpty packages) = false /\
   existsb isHttpRemote (JS.orEmpty remotes) = false).
Proof.
  intros methods. subst methods. unfold buildInstallationMethods.
  rewrite <- !find_existsb.
  destruct (List.find (fun p => String.eqb (registryType p) "npm") _) as [npm|];
    destruct (List.find (fun p => String.eqb (registryType p) "oci") _) as [oci|];
    destruct (List.find isHttpRemote _) as [r|];
    cbn [app length map methodType];
    (split; [lia |]);
    (split; [repeat (constructor; [cbn [In]; intuition discriminate |]); constructor |]);
    (split; [first [left; reflexivity
                   | right; eexists _, _; split; [reflexivity |]; split; reflexivity] |]);
    split; intros H; try discriminate; try reflexivity;
    try (destruct H as (H1 & H2 & H3); discriminate); auto.
Qed.

(** X8.  [determineServerType] answers [http], [sse] or [stdio]; it
    answers [http] exactly when [buildInstallationMethods] offers a
    remote method for the same remotes, whatever their order. *)
Theorem determineServerType_remote (serverName : string)
    (packages : option (list Package)) (remotes : option (list Remote)) :
  In (determineServerType remotes) ["http"; "sse"; "stdio"]%string /\
  existsb (fun m => String.eqb (methodType m) "remote")
          (buildInstallationMethods serverName packages remotes)
  = String.eqb (determineServerType remotes) "http".
Proof.
  unfold determineServerType, buildInstallationMethods.
  fold isHttpRemote.
  change (fun r => String.eqb (remoteType r) "streamable-http"
                   || String.eqb (remoteType r) "http") with isHttpRemote.
  rewrite <- (find_existsb isHttpRemote).
  destruct (List.find isHttpRemote _) as [r|].
  - split; [left; reflexivity |].
    rewrite !existsb_app. cbn. rewrite !orb_true_r. reflexivity.
  - split.
    + destruct (existsb _ _); cbn [In]; auto.
    + rewrite !existsb_app.
      destruct (List.find (fun p => String.eqb (registryType p) "npm") _);
        destruct (List.find (fun p => String.eqb (registryType p) "oci") _);
        destruct (existsb (fun r => String.eqb (remoteType r) "sse") _);
        reflexivity.
Qed.

End HelperFacts.

(* ================================================================== *)
(** * Fetching, indexing and syncing                                   *)
(* ================================================================== *)

Module IndexerFacts.
Import Schema Async SafeQuery Props Checks Indexer ListFacts AsyncFacts.

Section WithPlatform.
Variable P : Platform.

Lemma officialLoop_failure (W : Web) : forall fuel servers cursor pageCount sent,
  (forall c, In c sent -> officialRegistry W c <> None) ->
  (exists c, In c (requests (officialLoop P fuel W servers cursor pageCount sent))
             /\ officialRegistry W c = None) ->
  settled (officialLoop P fuel W servers cursor pageCount sent) = Some [].
Proof.
  induction fuel as [|fuel IH]; intros servers cursor pageCount sent Hsent.
  - cbn. intros (c & Hc & E). exfalso. exact (Hsent c Hc E).
  - cbn [officialLoop].
    destruct (officialRegistry W (JS.orNull cursor)) as [data|] eqn:E;
      [| reflexivity].
    assert (Hsent' : forall c, In c (sent ++ [JS.orNull cursor]) ->
                               officialRegistry W c <> None).
    { intros c Hc. apply in_app_or in Hc. destruct Hc as [Hc | [<- | []]].
      - apply Hsent, Hc.
      - congruence. }
    destruct (_ && _).
    + apply IH, Hsent'.
    + cbn. intros (c & Hc & E'). exfalso. exact (Hsent' c Hc E').
Qed.

Lemma dockerLoop_failure (W : Web) : forall fuel servers url sent,
  (forall u, In u sent -> dockerHub W u <> None) ->
  (exists u, In u (requests (dockerLoop fuel W servers url sent))
             /\ dockerHub W u = None) ->
  settled (dockerLoop fuel W servers url sent) = Some [].
Proof.
  induction fuel as [|fuel IH]; intros servers url sent Hsent.
  - cbn. intros (u & Hu & E). exfalso. exact (Hsent u Hu E).
  - cbn [dockerLoop].
    destruct url as [[|c u0]|];
      try (cbn; intros (u & Hu & E); exfalso; exact (Hsent u Hu E)).
    destruct (dockerHub W (String c u0)) as [data|] eqn:E; [| reflexivity].
    apply IH. intros u Hu. apply in_app_or in Hu.
    destruct Hu as [Hu | [<- | []]]; [apply Hsent, Hu | congruence].
Qed.

(** X9.  A fetcher that meets one failed page request returns no
    server at all: what the pages before it delivered is dropped. *)
Theorem fetch_failure_discards (fuel : nat) (W : Web) :
  ((exists c, In c (requests (fetchOfficialMCPServers P fuel W))
              /\ officialRegistry W c = None) ->
   settled (fetchOfficialMCPServers P fuel W) = Some []) /\
  ((exists u, In u (requests (fetchDockerMCPServers fuel W))
              /\ dockerHub W u = None) ->
   settled (fetchDockerMCPServers fuel W) = Some []).
Proof.
  split.
  - apply officialLoop_failure. intros c [].
  - apply dockerLoop_failure. intros u [].
Qed.

End WithPlatform.

Lemma fetch_failure_discards_witness :
  requests (fetchOfficialMCPServers samplePlatform 5 flakyWeb)
  = [None; Some "page-2"%string] /\
  settled (fetchOfficialMCPServers samplePlatform 5 flakyWeb) = Some [].
Proof.
  split; [reflexivity |].
  apply (proj1 (fetch_failure_discards samplePlatform 5 flakyWeb)).
  exists (Some "page-2"%string). split; [right; left |]; reflexivity.
Defined.

Section Run.
Variable P : Platform.
Variable JSON_stringify : list Unknown -> string.

Lemma upsert_outcome s registry w :
  upsertMCPServer JSON_stringify s registry w
  = if dbUp w
    then (Resolved true,
          set_db (insertOnConflict JSON_stringify s registry
                    (generateSlug (name s) registry) (now w) (db w)) w)
    else (Rejected, w).
Proof.
  unfold upsertMCPServer, bind, dateNow, dbWrite, ret.
  destruct (dbUp w); reflexivity.
Qed.

Lemma indexAll_tally registry ss : forall acc w,
  exists acc' w',
    indexAll JSON_stringify ss registry acc w = (Resolved acc', w') /\
    dbUp w' = dbUp w /\
    tSkipped acc' = tSkipped acc /\
    (if dbUp w
     then tIndexed acc' = tIndexed acc + Z.of_nat (length ss)
          /\ tFailed acc' = tFailed acc
     else tIndexed acc' = tIndexed acc
          /\ tFailed acc' = tFailed acc + Z.of_nat (length ss)
          /\ w' = w).
Proof.
  induction ss as [|s ss IH]; intros acc w.
  - exists acc, w. cbn. unfold ret.
    repeat split; destruct (dbUp w); repeat split; lia.
  - cbn [indexAll]. unfold bind at 1. unfold try_catch, bind, ret.
    rewrite upsert_outcome.
    destruct (dbUp w) eqn:Hup.
    + match goal with
      | |- context [indexAll _ ss registry ?a ?w1] =>
          destruct (IH a w1) as (acc' & w' & -> & Hup' & Hsk & Hcount)
      end.
      cbn [dbUp set_db] in Hup', Hcount. rewrite Hup in Hcount.
      cbn in Hsk, Hcount.
      exists acc', w'. split; [reflexivity |].
      split; [congruence |]. split; [exact Hsk |].
      cbn [length]. lia.
    + match goal with
      | |- context [indexAll _ ss registry ?a ?w1] =>
          destruct (IH a w1) as (acc' & w' & -> & Hup' & Hsk & Hcount)
      end.
      rewrite Hup in Hcount. cbn in Hsk, Hcount.
      exists acc', w'. split; [reflexivity |].
      split; [congruence |]. split; [exact Hsk |].
      cbn [length]. destruct Hcount as (? & ? & ->). repeat split; lia.
Qed.

(** X10.  Once both fetchers have returned, [indexMCPServers]
    resolves; every fetched record is counted as indexed or as
    failed, none as skipped; the two per-source counters add up to
    [indexed]; with the database reachable nothing fails, and with
    the database unreachable everything fails and no row is
    written. *)
Theorem indexMCPServers_tally (fuel : nat) (W : Web) (w : World)
    (officialServers dockerServers : list RawMCPServer) :
  settled (fetchOfficialMCPServers P fuel W) = Some officialServers ->
  settled (fetchDockerMCPServers fuel W) = Some dockerServers ->
  exists result w',
    indexMCPServers P JSON_stringify fuel W w = Some (Resolved result, w') /\
    skipped result = 0 /\
    indexed result + failed result
    = Z.of_nat (length officialServers) + Z.of_nat (length dockerServers) /\
    sourcesOfficialMcp result + sourcesDocker result = indexed result /\
    (dbUp w = true ->
     failed result = 0 /\
     sourcesOfficialMcp result = Z.of_nat (length officialServers) /\
     sourcesDocker result = Z.of_nat (length dockerServers)) /\
    (dbUp w = false -> indexed result = 0 /\ w' = w).
Proof.
  intros Ho Hd. unfold indexMCPServers. rewrite Ho, Hd.
  unfold bind, dateNow, ret.
  destruct (indexAll_tally "official-mcp" officialServers zeroTally w)
    as (o & w1 & -> & Hup1 & Hsk1 & Hc1).
  destruct (indexAll_tally "docker" dockerServers zeroTally w1)
    as (d & w2 & -> & Hup2 & Hsk2 & Hc2).
  eexists _, _. split; [reflexivity |]. cbn.
  rewrite Hup1 in Hc2. cbn in Hsk1, Hsk2.
  destruct (dbUp w); cbn in Hc1, Hc2.
  - repeat split; try lia; discriminate.
  - destruct Hc1 as (? & ? & ->). destruct Hc2 as (? & ? & ->).
    repeat split; try lia; discriminate.
Qed.

(** ** Upsert followed by a look-up *)

Lemma find_updated slug (f : MCPServerDB -> MCPServerDB) rows :
  (forall r, Schema.slug (f r) = Schema.slug r) ->
  List.find (hasSlug slug) (map (fun r => if hasSlug slug r then f r else r) rows)
  = option_map f (List.find (hasSlug slug) rows).
Proof.
  intros Hf. induction rows as [|r rows IH]; [reflexivity |].
  cbn [map List.find]. destruct (hasSlug slug r) eqn:E.
  - unfold hasSlug in *. rewrite Hf, E. reflexivity.
  - rewrite E. exact IH.
Qed.

Lemma find_appended slug (x : MCPServerDB) rows :
  existsb (hasSlug slug) rows = false -> hasSlug slug x = true ->
  List.find (hasSlug slug) (rows ++ [x]) = Some x.
Proof.
  intros Hno Hx. induction rows as [|r rows IH]; cbn [app List.find].
  - rewrite Hx. reflexivity.
  - cbn [existsb] in Hno. apply orb_false_iff in Hno. destruct Hno as [-> Hno].
    apply IH, Hno.
Qed.

Lemma existsb_find {A} (f : A -> bool) l :
  existsb f l = true -> exists x, List.find f l = Some x.
Proof.
  induction l as [|y l IH]; cbn [existsb List.find]; [discriminate |].
  destruct (f y); [eauto | exact IH].
Qed.

(** X11.  After [upsertMCPServer] has stored a record, a look-up by
    the slug it generated finds a row that carries the record's
    display name, description, category, verification status and the
    time of the upsert. *)
Theorem upsert_then_lookup (server : RawMCPServer) (sourceRegistry : string)
    (w : World) :
  dbUp w = true -> short_circuits w = false ->
  exists w1 found w2,
    upsertMCPServer JSON_stringify server sourceRegistry w = (Resolved true, w1) /\
    McpServerDb.getMCPServerBySlug P (generateSlug (name server) sourceRegistry) w1
    = (Resolved (Some found), w2) /\
    let r := McpServerDb.server P found in
    Schema.slug r = generateSlug (name server) sourceRegistry /\
    Schema.displayName r = display_name server /\
    Schema.description r = JS.orNull (Some (description server)) /\
    Schema.category r = JS.orStr (Some (category server)) "utilities" /\
    Schema.verificationStatus r
    = Some (JS.orStr (verification_status server) "community") /\
    Schema.lastIndexedAt r = Some (now w) /\
    Schema.updatedAt r = now w.
Proof.
  intros Hup Hs. rewrite upsert_outcome, Hup.
  set (slug := generateSlug (name server) sourceRegistry).
  set (d1 := insertOnConflict JSON_stringify server sourceRegistry slug (now w) (db w)).
  assert (Hfind : exists r,
             List.find (hasSlug slug) (mcpServers d1) = Some r /\
             Schema.slug r = slug /\
             Schema.displayName r = display_name server /\
             Schema.description r = JS.orNull (Some (description server)) /\
             Schema.category r = JS.orStr (Some (category server)) "utilities" /\
             Schema.verificationStatus r
             = Some (JS.orStr (verification_status server) "community") /\
             Schema.lastIndexedAt r = Some (now w) /\
             Schema.updatedAt r = now w).
  { subst d1. unfold insertOnConflict.
    destruct (existsb (hasSlug slug) (mcpServers (db w))) eqn:Ex; cbn [mcpServers].
    - rewrite find_updated by reflexivity.
      destruct (existsb_find _ _ Ex) as (r0 & E0). rewrite E0. cbn [option_map].
      eexists. split; [reflexivity |].
      apply find_some in E0. destruct E0 as [_ H0].
      unfold hasSlug in H0. apply String.eqb_eq in H0.
      cbn. repeat split. exact H0.
    - rewrite find_appended; [| exact Ex | apply String.eqb_refl].
      eexists. split; [reflexivity |]. cbn. repeat split. }
  destruct Hfind as (r & Ef & Hr).
  exists (set_db d1 w), (McpServerDb.transformToMCPServerWithParsedJSON P r),
    (closeCircuit (set_db d1 w)).
  split; [reflexivity |]. split; [| exact Hr].
  unfold McpServerDb.getMCPServerBySlug, bind.
  rewrite safeDbQuery_dbRead.
  change (short_circuits (set_db d1 w)) with (short_circuits w). rewrite Hs.
  cbn [dbUp db set_db]. rewrite Hup.
  change (fun s => String.eqb (Schema.slug s) slug) with (hasSlug slug).
  rewrite select_first, Ef. reflexivity.
Qed.

(** X12.  An upsert that meets a row with the same slug rewrites
    that row in place: no row is added, and the row keeps its
    identifier, name, slug, source registry, creation time, last
    stats sync and its [active] flag, so a row that was made
    inactive stays inactive. *)
Theorem upsert_conflict_keeps (server : RawMCPServer) (sourceRegistry : string)
    (w : World) (r : MCPServerDB) :
  dbUp w = true ->
  In r (mcpServers (db w)) ->
  Schema.slug r = generateSlug (name server) sourceRegistry ->
  exists w1 r',
    upsertMCPServer JSON_stringify server sourceRegistry w = (Resolved true, w1) /\
    length (mcpServers (db w1)) = length (mcpServers (db w)) /\
    nextId (db w1) = nextId (db w) /\
    In r' (mcpServers (db w1)) /\
    Schema.id r' = Schema.id r /\
    Schema.name r' = Schema.name r /\
    Schema.slug r' = Schema.slug r /\
    Schema.sourceRegistry r' = Schema.sourceRegistry r /\
    Schema.createdAt r' = Schema.createdAt r /\
    Schema.lastStatsSync r' = Schema.lastStatsSync r /\
    Schema.active r' = Schema.active r /\
    Schema.displayName r' = display_name server /\
    Schema.updatedAt r' = now w.
Proof.
  intros Hup Hin Hslug. rewrite upsert_outcome, Hup.
  set (slug := generateSlug (name server) sourceRegistry) in *.
  assert (Hr : hasSlug slug r = true) by (apply String.eqb_eq, Hslug).
  assert (Hex : existsb (hasSlug slug) (mcpServers (db w)) = true)
    by (apply existsb_exists; eauto).
  eexists _, _. split; [reflexivity |].
  unfold insertOnConflict. rewrite Hex. cbn [db set_db mcpServers nextId].
  split; [apply length_map |]. split; [reflexivity |].
  split.
  - apply in_map_iff. exists r. rewrite Hr. split; [reflexivity | exact Hin].
  - cbn. repeat split.
Qed.

(** ** The stats sync never rejects *)

Lemma guarded_resolves {A} (body : M A) w :
  exists r w1,
    try_catch (bind body (fun x => ret (Some x))) (ret None) w = (Resolved r, w1).
Proof.
  unfold try_catch, bind, ret. destruct (body w) as [[a|] w1]; eauto.
Qed.

Lemma syncAll_bound (W : Web) servers : forall u f w,
  exists u' f' w',
    syncAll W servers u f w = (Resolved (u', f'), w') /\
    u <= u' /\ f <= f' /\
    (u' - u) + (f' - f) <= Z.of_nat (length servers).
Proof.
  induction servers as [|s servers IH]; intros u f w.
  - exists u, f, w. cbn. unfold ret. repeat split; lia.
  - cbn [syncAll]. unfold bind at 1.
    destruct (guarded_resolves (syncServer W s) w) as (r & w1 & ->).
    destruct r as [[]|];
      match goal with
      | |- context [syncAll W servers ?a ?b w1] =>
          destruct (IH a b w1) as (u' & f' & w' & -> & Hu & Hf & Hsum)
      end;
      exists u', f', w'; cbn [length]; repeat split; lia.
Qed.

End Run.

(** X13.  [syncMCPServerStats] always resolves; the servers it counts
    as updated or failed are at most the active ones; and when the
    bulk load is short-circuited or fails it reports
    [updated = 0, failed = 0] and writes nothing. *)
Theorem syncMCPServerStats_total (W : Web) (w : World) :
  exists result w',
    syncMCPServerStats W w = (Resolved result, w') /\
    0 <= updated result /\ 0 <= syncFailed result /\
    updated result + syncFailed result
    <= Z.of_nat (length (List.filter active (mcpServers (db w)))) /\
    (short_circuits w = true \/ dbUp w = false ->
     updated result = 0 /\ syncFailed result = 0 /\ db w' = db w).
Proof.
  unfold syncMCPServerStats, bind, dateNow, loadServers.
  rewrite safeDbQuery_dbRead.
  destruct (short_circuits w) eqn:Hs.
  { cbn. unfold ret. eexists _, _. split; [reflexivity |]. cbn.
    repeat split; lia. }
  destruct (dbUp w) eqn:Hup.
  2:{ cbn. unfold ret. eexists _, _. split; [reflexivity |]. cbn.
      rewrite db_closeCircuit. repeat split; lia. }
  cbn [fromDb data negb].
  destruct (syncAll_bound W (map project (List.filter active (mcpServers (db w))))
              0 0 (closeCircuit w)) as (u & f & w' & -> & Hu & Hf & Hsum).
  unfold ret. eexists _, _. split; [reflexivity |]. cbn.
  rewrite length_map in Hsum.
  repeat split; try lia; destruct H; discriminate.
Qed.

Lemma indexMCPServers_tally_witness :
  exists result w',
    indexMCPServers samplePlatform sampleStringify 5 sampleWeb w_empty
    = Some (Resolved result, w') /\
    skipped result = 0 /\
    indexed result + failed result = 2 /\
    sourcesOfficialMcp result + sourcesDocker result = indexed result /\
    (dbUp w_empty = true ->
     failed result = 0 /\ sourcesOfficialMcp result = 1 /\ sourcesDocker result = 1) /\
    (dbUp w_empty = false -> indexed result = 0 /\ w' = w_empty).
Proof.
  exact (indexMCPServers_tally samplePlatform sampleStringify 5 sampleWeb w_empty
           _ _ eq_refl eq_refl).
Defined.

Lemma upsert_then_lookup_witness :
  exists w1 found w2,
    upsertMCPServer sampleStringify (rawServer "foo.bar" "Foo Bar") "official-mcp"
      w_empty
    = (Resolved true, w1) /\
    McpServerDb.getMCPServerBySlug samplePlatform "official-mcp-foo-bar" w1
    = (Resolved (Some found), w2) /\
    Schema.displayName (McpServerDb.server samplePlatform found) = "Foo Bar"%string.
Proof.
  destruct (upsert_then_lookup samplePlatform sampleStringify
              (rawServer "foo.bar" "Foo Bar") "official-mcp" w_empty
              eq_refl eq_refl)
    as (w1 & found & w2 & E1 & E2 & _ & Hname & _).
  exists w1, found, w2. repeat split; assumption.
Defined.

Lemma upsert_conflict_keeps_witness :
  exists w1 r',
    upsertMCPServer sampleStringify (rawServer "foo.bar" "Foo Bar") "official-mcp"
      w_retired
    = (Resolved true, w1) /\
    In r' (mcpServers (db w1)) /\
    length (mcpServers (db w1)) = 1%nat /\
    Schema.active r' = false /\
    Schema.displayName r' = "Foo Bar"%string.
Proof.
  destruct (upsert_conflict_keeps sampleStringify
              (rawServer "foo.bar" "Foo Bar") "official-mcp" w_retired retiredRow
              eq_refl (or_introl eq_refl) eq_refl)
    as (w1 & r' & E & Hlen & _ & Hin & _ & _ & _ & _ & _ & _ & Hact & Hname & _).
  exists w1, r'. repeat split; assumption.
Defined.

Lemma syncMCPServerStats_total_witness :
  exists result w',
    syncMCPServerStats starsOnly w_down = (Resolved result, w') /\
    updated result = 0 /\ syncFailed result = 0 /\ db w' = db w_down.
Proof.
  destruct (syncMCPServerStats_total starsOnly w_down)
    as (result & w' & E & _ & _ & _ & H).
  exists result, w'. split; [exact E |]. apply H. right. reflexivity.
Defined.

End IndexerFacts.

(* ================================================================== *)
(** * GROUP BY and counting objects                                    *)
(* ================================================================== *)

Module GroupFacts.
Import Schema Async SafeQuery Props Checks.

Section Keys.
Context {K : Type} (eqb : K -> K -> bool).
Hypothesis eqb_eq : forall x y, eqb x y = true <-> x = y.

Lemma eqb_refl x : eqb x x = true.
Proof. apply eqb_eq. reflexivity. Qed.

Lemma In_distinct k ks : In k (Sql.distinct eqb ks) <-> In k ks.
Proof.
  induction ks as [|a ks IH]; [reflexivity |].
  cbn [Sql.distinct In]. rewrite filter_In, IH. split.
  - intros [H | [H _]]; auto.
  - intros [H | H]; [left; exact H |].
    destruct (eqb a k) eqn:E.
    + left. apply eqb_eq, E.
    + right. split; [exact H | reflexivity].
Qed.

Lemma NoDup_distinct ks : List.NoDup (Sql.distinct eqb ks).
Proof.
  induction ks as [|a ks IH]; [constructor |].
  cbn [Sql.distinct]. constructor.
  - rewrite filter_In, eqb_refl. intros [_ H]. discriminate.
  - apply HelperFacts.filter_NoDup, IH.
Qed.

Lemma groupCount_keys ks : map fst (Sql.groupCount eqb ks) = Sql.distinct eqb ks.
Proof.
  unfold Sql.groupCount. rewrite map_map. cbn [fst]. apply map_id.
Qed.

Lemma groupCount_In k n ks :
  In (k, n) (Sql.groupCount eqb ks) <->
  In k ks /\ n = Z.of_nat (length (List.filter (eqb k) ks)).
Proof.
  unfold Sql.groupCount. rewrite in_map_iff. split.
  - intros (d & E & Hd). injection E as E1 E2. subst d n.
    split; [apply In_distinct, Hd | reflexivity].
  - intros [Hk ->]. exists k. split; [reflexivity | apply In_distinct, Hk].
Qed.

Lemma sum_indicator k D :
  List.NoDup D -> In k D ->
  sumZ (map (fun d => if eqb d k then 1 else 0) D) = 1.
Proof.
  induction 1 as [|d D Hd HD IH]; [intros [] |].
  cbn [map sumZ fold_right]. fold (sumZ (map (fun d => if eqb d k then 1 else 0) D)).
  intros [-> | Hk].
  - rewrite eqb_refl.
    assert (Hz : sumZ (map (fun d => if eqb d k then 1 else 0) D) = 0).
    { clear IH HD. induction D as [|x D IH]; [reflexivity |].
      cbn [map sumZ fold_right].
      destruct (eqb x k) eqn:E.
      - apply eqb_eq in E. subst x. exfalso. apply Hd. left. reflexivity.
      - fold (sumZ (map (fun d => if eqb d k then 1 else 0) D)).
        rewrite IH; [reflexivity |]. intros H. apply Hd. right. exact H. }
    rewrite Hz. reflexivity.
  - destruct (eqb d k) eqn:E.
    + apply eqb_eq in E. subst d. contradiction.
    + rewrite IH by exact Hk. reflexivity.
Qed.

Lemma sum_counts D : List.NoDup D -> forall ks,
  (forall k, In k ks -> In k D) ->
  sumZ (map (fun d => Z.of_nat (length (List.filter (eqb d) ks))) D)
  = Z.of_nat (length ks).
Proof.
  intros HD. induction ks as [|k ks IH]; intros Hin.
  - cbn [List.filter length]. clear. induction D as [|d D IH]; [reflexivity |].
    cbn [map sumZ fold_right]. fold (sumZ (map (fun _ : K => Z.of_nat 0) D)).
    rewrite IH. reflexivity.
  - assert (Hs : forall l : list K,
               sumZ (map (fun d => Z.of_nat (length (List.filter (eqb d) (k :: ks)))) l)
               = sumZ (map (fun d => if eqb d k then 1 else 0) l)
                 + sumZ (map (fun d => Z.of_nat (length (List.filter (eqb d) ks))) l)).
    { induction l as [|d l IHl]; [reflexivity |].
      cbn [map sumZ fold_right]. unfold sumZ in IHl. rewrite IHl.
      cbn [List.filter]. destruct (eqb d k); cbn [length]; lia. }
    rewrite Hs, sum_indicator, IH; [cbn [length]; lia | | exact HD |].
    + intros x Hx. apply Hin. right. exact Hx.
    + apply Hin. left. reflexivity.
Qed.

Lemma groupCount_total ks :
  sumZ (map snd (Sql.groupCount eqb ks)) = Z.of_nat (length ks).
Proof.
  unfold Sql.groupCount. rewrite map_map. cbn [snd].
  apply sum_counts; [apply NoDup_distinct |].
  intros k Hk. apply In_distinct, Hk.
Qed.

Lemma groupCount_positive k n ks : In (k, n) (Sql.groupCount eqb ks) -> 0 < n.
Proof.
  rewrite groupCount_In. intros [Hk ->].
  assert (In k (List.filter (eqb k) ks)) as H
    by (apply filter_In; split; [exact Hk | apply eqb_refl]).
  destruct (List.filter (eqb k) ks); [destruct H | cbn [length]; lia].
Qed.

End Keys.

Lemma string_eqb_eq x y : String.eqb x y = true <-> x = y.
Proof. apply String.eqb_eq. Qed.

Lemma option_eqb_eq x y : McpServerDb.option_eqb x y = true <-> x = y.
Proof.
  destruct x as [x|], y as [y|]; cbn; try (split; congruence).
  rewrite String.eqb_eq. split; congruence.
Qed.

(** ** Objects filled from rows with distinct keys *)

Lemma fold_total (l : list (string * Z)) : forall (obj : gmap string Z) t,
  fold_left (fun (acc : gmap string Z * Z) stat =>
               (JS.setProp (fst stat) (snd stat) acc.1, acc.2 + snd stat)) l (obj, t)
  = (fold_left (fun o stat => JS.setProp (fst stat) (snd stat) o) l obj,
     t + sumZ (map snd l)).
Proof.
  induction l as [|s l IH]; intros obj t.
  - cbn. f_equal. lia.
  - cbn [fold_left map sumZ fold_right]. rewrite IH. cbn [fst snd].
    f_equal. unfold sumZ. lia.
Qed.

Lemma fold_setProp_other (l : list (string * Z)) k : forall obj : gmap string Z,
  ~ In k (map fst l) ->
  fold_left (fun o stat => JS.setProp (fst stat) (snd stat) o) l obj !! k = obj !! k.
Proof.
  induction l as [|s l IH]; intros obj Hk; [reflexivity |].
  cbn [fold_left]. rewrite IH by (intros H; apply Hk; right; exact H).
  unfold JS.setProp. destruct (String.eqb s.1 "__proto__"); [reflexivity |].
  apply lookup_insert_ne. intros E. apply Hk. left. exact E.
Qed.

Lemma fold_setProp_lookup (l : list (string * Z)) k n :
  forall obj : gmap string Z,
  List.NoDup (map fst l) -> In (k, n) l -> k <> "__proto__"%string ->
  fold_left (fun o stat => JS.setProp (fst stat) (snd stat) o) l obj !! k = Some n.
Proof.
  induction l as [|s l IH]; intros obj Hnd Hin Hk; [destruct Hin |].
  cbn [map] in Hnd. apply NoDup_cons_iff in Hnd. destruct Hnd as [Hs Hnd].
  cbn [fold_left]. destruct Hin as [-> | Hin].
  - rewrite fold_setProp_other by exact Hs.
    unfold JS.setProp. cbn [fst snd].
    destruct (String.eqb_spec k "__proto__"); [contradiction |].
    apply lookup_insert_eq.
  - apply IH; assumption.
Qed.

Lemma fold_setProp_proto (l : list (string * Z)) : forall obj : gmap string Z,
  fold_left (fun o stat => JS.setProp (fst stat) (snd stat) o) l obj !! "__proto__"%string
  = obj !! "__proto__"%string.
Proof.
  induction l as [|s l IH]; intros obj; [reflexivity |].
  cbn [fold_left]. rewrite IH. unfold JS.setProp.
  destruct (String.eqb_spec s.1 "__proto__") as [E | Hne]; [reflexivity |].
  apply lookup_insert_ne. exact Hne.
Qed.

Lemma length_filter_map {A B} (f : A -> B) (p : B -> bool) (l : list A) :
  length (List.filter p (map f l)) = length (List.filter (fun x => p (f x)) l).
Proof.
  induction l as [|x l IH]; [reflexivity |].
  cbn [map List.filter]. destruct (p (f x)); cbn [length]; congruence.
Qed.

Lemma filter_filter {A} (p q : A -> bool) (l : list A) :
  List.filter p (List.filter q l) = List.filter (fun x => q x && p x) l.
Proof.
  induction l as [|x l IH]; [reflexivity |].
  cbn [List.filter]. destruct (q x); cbn [List.filter andb]; [| exact IH].
  destruct (p x); congruence.
Qed.

(** The count stored for the key [k] of a string column. *)
Lemma column_count (col : MCPServerDB -> string) (d : Db) (k : string) :
  Z.of_nat (length (List.filter (String.eqb k) (McpServerDb.activeColumn col d)))
  = activeCount (fun r => String.eqb (col r) k) d.
Proof.
  unfold McpServerDb.activeColumn, activeCount.
  rewrite length_filter_map, filter_filter. do 2 f_equal.
  apply List.filter_ext. intros r. rewrite (String.eqb_sym k). reflexivity.
Qed.

Lemma counted_lookup (col : MCPServerDB -> string) (d : Db) (k : string) :
  k <> "__proto__"%string ->
  fold_left (fun o stat => JS.setProp (fst stat) (snd stat) o)
    (Sql.groupCount String.eqb (McpServerDb.activeColumn col d)) (∅ : gmap string Z) !! k
  = counted (activeCount (fun r => String.eqb (col r) k) d).
Proof.
  intros Hk. rewrite <- column_count.
  set (ks := McpServerDb.activeColumn col d).
  destruct (in_dec string_dec k ks) as [Hin | Hout].
  - rewrite (fold_setProp_lookup _ k (Z.of_nat (length (List.filter (String.eqb k) ks)))).
    + unfold counted.
      pose proof (groupCount_positive String.eqb string_eqb_eq k _ ks
                    (proj2 (groupCount_In String.eqb string_eqb_eq k _ ks)
                       (conj Hin eq_refl))) as Hpos.
      destruct (Z.eqb_spec (Z.of_nat (length (List.filter (String.eqb k) ks))) 0);
        [lia | reflexivity].
    + rewrite groupCount_keys. apply NoDup_distinct, string_eqb_eq.
    + apply groupCount_In; [apply string_eqb_eq | auto].
    + exact Hk.
  - rewrite fold_setProp_other.
    + rewrite lookup_empty. unfold counted.
      replace (List.filter (String.eqb k) ks) with (@nil string); [reflexivity |].
      symmetry. clear -Hout. induction ks as [|x ks IH]; [reflexivity |].
      cbn [List.filter]. destruct (String.eqb_spec k x) as [-> | _].
      * exfalso. apply Hout. left. reflexivity.
      * apply IH. intros H. apply Hout. right. exact H.
    + rewrite groupCount_keys, (In_distinct String.eqb string_eqb_eq). exact Hout.
Qed.

End GroupFacts.

(* ================================================================== *)
(** * Aggregates of the MCP server catalogue                           *)
(* ================================================================== *)

Module CatalogFacts.
Import Schema Async SafeQuery Props Checks ListFacts AsyncFacts GroupFacts.

Lemma sort_desc_sorted {A} (key : A -> Z) (l : list A) :
  StronglySorted (fun a b => key b <= key a) (JS.sort (Sql.desc key) l).
Proof.
  apply RelevanceFacts.sort_strongly_sorted; unfold Sql.desc; intros; lia.
Qed.

Lemma sorted_app_inv {A} (R : A -> A -> Prop) (l1 l2 : list A) :
  StronglySorted R (l1 ++ l2) -> forall a b, In a l1 -> In b l2 -> R a b.
Proof.
  induction l1 as [|x l1 IH]; intros Hs a b Ha Hb; [destruct Ha |].
  cbn [app] in Hs. apply StronglySorted_inv in Hs. destruct Hs as [Hs Hx].
  destruct Ha as [<- | Ha].
  - rewrite List.Forall_forall in Hx. apply Hx, in_or_app. right. exact Hb.
  - apply (IH Hs a b Ha Hb).
Qed.

(** X14.  [getFeaturedMCPServersFromDB] never rejects; the servers it
    returns are active, verified rows of the table, in descending
    order of pulls plus a hundred times the stars.  When the query
    runs with a limit that is not negative (10 by default), it
    returns that many featured servers, or all there are if these
    are fewer, and no featured server that is left out scores higher
    than one that is returned; a negative limit is no limit, and all
    featured servers are returned.  When the query is
    short-circuited or fails, no server is returned. *)
Theorem featured_servers (P : Platform) (limit : option Z) (w : World) :
  let lim := match limit with Some n => n | None => 10 end in
  exists rows w',
    McpServerDb.getFeaturedMCPServersFromDB P limit w
    = (Resolved (map (McpServerDb.transformToMCPServerWithParsedJSON P) rows), w') /\
    (forall r, In r rows ->
       In r (mcpServers (db w)) /\ active r = true /\
       verificationStatus r = Some "verified"%string) /\
    StronglySorted
      (fun a b => McpServerDb.featuredScore b <= McpServerDb.featuredScore a) rows /\
    (short_circuits w = true \/ dbUp w = false -> rows = []) /\
    (short_circuits w = false -> dbUp w = true ->
     (0 <= lim ->
      Z.of_nat (length rows) = Z.min lim (Z.of_nat (length (featured (db w)))) /\
      forall r r', In r rows -> In r' (featured (db w)) -> ~ In r' rows ->
                   McpServerDb.featuredScore r' <= McpServerDb.featuredScore r) /\
     (lim < 0 -> Permutation rows (featured (db w)))).
Proof.
  intros lim. unfold McpServerDb.getFeaturedMCPServersFromDB, bind. fold lim.
  rewrite safeDbQuery_dbRead.
  assert (Hempty : forall w1 : World,
            short_circuits w = true \/ dbUp w = false ->
            exists rows w',
              (Resolved (map (McpServerDb.transformToMCPServerWithParsedJSON P) []), w1)
              = (Resolved (map (McpServerDb.transformToMCPServerWithParsedJSON P) rows),
                 w') /\
              (forall r, In r rows ->
                 In r (mcpServers (db w)) /\ active r = true /\
                 verificationStatus r = Some "verified"%string) /\
              StronglySorted
                (fun a b => McpServerDb.featuredScore b <= McpServerDb.featuredScore a)
                rows /\
              (short_circuits w = true \/ dbUp w = false -> rows = []) /\
              (short_circuits w = false -> dbUp w = true ->
               (0 <= lim ->
                Z.of_nat (length rows)
                = Z.min lim (Z.of_nat (length (featured (db w)))) /\
                forall r r', In r rows -> In r' (featured (db w)) -> ~ In r' rows ->
                             McpServerDb.featuredScore r'
                             <= McpServerDb.featuredScore r) /\
               (lim < 0 -> Permutation rows (featured (db w))))).
  { intros w1 Hfail. exists [], w1. split; [reflexivity |].
    split; [intros r [] |]. split; [constructor |].
    split; [reflexivity |].
    intros Hs Hup. destruct Hfail; congruence. }
  destruct (short_circuits w) eqn:Hs; [apply Hempty; auto |].
  destruct (dbUp w) eqn:Hup; [| apply Hempty; auto].
  unfold Sql.select. cbn [Z.ltb Z.compare data ret]. unfold ret.
  eexists _, _. split; [reflexivity |]. cbn [data].
  split; [| split; [| split]].
  - intros r Hr. apply In_window, sort_In, filter_In in Hr.
    destruct Hr as [Hin Hf]. unfold McpServerDb.isFeatured in Hf.
    apply andb_true_iff in Hf. destruct Hf as [Ha Hv].
    apply option_eqb_eq in Hv. auto.
  - apply RelevanceFacts.StronglySorted_window, sort_desc_sorted.
  - intros [H | H]; discriminate.
  - intros _ _. unfold featured. split.
    + intros Hl. rewrite window_nonneg by exact Hl.
      cbn [Z.to_nat skipn]. rewrite List.skipn_O. split.
      * rewrite length_firstn, sort_length. lia.
      * intros r r' Hr Hr' Hout.
        set (l := JS.sort (Sql.desc McpServerDb.featuredScore)
                    (List.filter McpServerDb.isFeatured (mcpServers (db w)))) in *.
        assert (Hl' : In r' l) by (apply sort_In; exact Hr').
        rewrite <- (firstn_skipn (Z.to_nat lim) l) in Hl'.
        apply in_app_or in Hl'. destruct Hl' as [Hl' | Hl']; [contradiction |].
        pose proof (sort_desc_sorted McpServerDb.featuredScore
                      (List.filter McpServerDb.isFeatured (mcpServers (db w)))) as Hs'.
        fold l in Hs'. rewrite <- (firstn_skipn (Z.to_nat lim) l) in Hs'.
        apply (sorted_app_inv _ _ _ Hs' r r' Hr Hl').
    + intros Hl. rewrite window_negative by exact Hl.
      cbn [Z.to_nat]. rewrite List.skipn_O. apply sort_perm.
Qed.

(** Two of the three servers are verified; asked for with the limit
    [-1], both are returned, the one with more pulls first. *)
Lemma featured_servers_witness :
  exists rows w',
    McpServerDb.getFeaturedMCPServersFromDB samplePlatform (Some (-1)) w_featured
    = (Resolved (map (McpServerDb.transformToMCPServerWithParsedJSON samplePlatform)
                     rows), w') /\
    Permutation rows [verifiedServer 1 "small" 5; verifiedServer 2 "large" 500].
Proof.
  destruct (featured_servers samplePlatform (Some (-1)) w_featured)
    as (rows & w' & E & _ & _ & _ & H).
  exists rows, w'. split; [exact E |].
  apply (proj2 (H eq_refl eq_refl)). reflexivity.
Defined.

(** ** Counts by source, category and verification status *)

Lemma fold_named (l : list (option string * Z)) : forall obj : gmap string Z,
  fold_left (fun o stat =>
               if JS.truthy (fst stat)
               then JS.setProp (JS.orStr (fst stat) "") (snd stat) o
               else o) l obj
  = fold_left (fun o stat => JS.setProp (fst stat) (snd stat) o)
              (omap namedGroup l) obj.
Proof.
  induction l as [|s l IH]; intros obj; [reflexivity |].
  cbn [fold_left]. rewrite IH.
  change (omap namedGroup (s :: l))
    with (match namedGroup s with
          | Some y => y :: omap namedGroup l
          | None => omap namedGroup l
          end).
  unfold namedGroup. destruct (JS.truthy s.1); reflexivity.
Qed.

Lemma namedGroup_In k n (l : list (option string * Z)) :
  k <> ""%string ->
  In (k, n) (omap namedGroup l) <-> In (Some k, n) l.
Proof.
  intros Hk. induction l as [|[o m] l IH]; [reflexivity |].
  cbn [omap list_omap]. unfold namedGroup at 1. cbn [fst snd].
  destruct o as [[|c s]|]; cbn [JS.truthy JS.orStr In]; rewrite IH.
  - split; [auto | intros [E | H]; [injection E as E _; congruence | exact H]].
  - split; intros [E | H]; auto; left; congruence.
  - split; [auto | intros [E | H]; [discriminate | exact H]].
Qed.

Lemma namedGroup_keys (l : list (option string * Z)) k :
  In k (map fst (omap namedGroup l)) -> In (Some k) (map fst l).
Proof.
  induction l as [|[o m] l IH]; [intros [] |].
  cbn [omap list_omap]. unfold namedGroup at 1. cbn [fst snd].
  destruct o as [[|c s]|]; cbn [JS.truthy JS.orStr map fst In].
  - intros H. right. apply IH, H.
  - intros [<- | H]; [left; reflexivity | right; apply IH, H].
  - intros H. right. apply IH, H.
Qed.

Lemma namedGroup_NoDup (l : list (option string * Z)) :
  List.NoDup (map fst l) -> List.NoDup (map fst (omap namedGroup l)).
Proof.
  induction l as [|[o m] l IH]; [constructor |].
  cbn [map fst]. intros Hnd. apply NoDup_cons_iff in Hnd. destruct Hnd as [Ho Hnd].
  cbn [omap list_omap]. unfold namedGroup at 1. cbn [fst snd].
  destruct o as [[|c s]|]; cbn [JS.truthy JS.orStr map fst]; try (apply IH, Hnd).
  constructor; [| apply IH, Hnd].
  intros H. apply Ho, namedGroup_keys, H.
Qed.

Lemma status_count (d : Db) (k : string) :
  Z.of_nat (length (List.filter (McpServerDb.option_eqb (Some k))
                      (McpServerDb.activeColumn verificationStatus d)))
  = activeCount (fun r => McpServerDb.option_eqb (verificationStatus r) (Some k)) d.
Proof.
  unfold McpServerDb.activeColumn, activeCount.
  rewrite length_filter_map, filter_filter. do 2 f_equal.
  apply List.filter_ext. intros r. f_equal.
  destruct (verificationStatus r) as [v|]; cbn; [apply String.eqb_sym | reflexivity].
Qed.

Lemma status_lookup (d : Db) (k : string) :
  k <> ""%string -> k <> "__proto__"%string ->
  fold_left (fun o stat =>
               if JS.truthy (fst stat)
               then JS.setProp (JS.orStr (fst stat) "") (snd stat) o
               else o)
    (Sql.groupCount McpServerDb.option_eqb
       (McpServerDb.activeColumn verificationStatus d)) (∅ : gmap string Z) !! k
  = counted (activeCount
               (fun r => McpServerDb.option_eqb (verificationStatus r) (Some k)) d).
Proof.
  intros Hne Hk. rewrite fold_named, <- status_count.
  set (ks := McpServerDb.activeColumn verificationStatus d).
  set (n := Z.of_nat (length (List.filter (McpServerDb.option_eqb (Some k)) ks))).
  assert (Hnd : List.NoDup (map fst (Sql.groupCount McpServerDb.option_eqb ks))).
  { rewrite groupCount_keys. apply NoDup_distinct, option_eqb_eq. }
  assert (Hdec : forall x y : option string, {x = y} + {x <> y})
    by (decide equality; apply string_dec).
  destruct (in_dec Hdec (Some k) ks) as [Hin | Hout].
  - assert (Hg : In (Some k, n) (Sql.groupCount McpServerDb.option_eqb ks))
      by (apply groupCount_In; [apply option_eqb_eq | auto]).
    rewrite (fold_setProp_lookup _ k n).
    + unfold counted.
      pose proof (groupCount_positive _ option_eqb_eq _ _ _ Hg).
      destruct (Z.eqb_spec n 0); [lia | reflexivity].
    + apply namedGroup_NoDup, Hnd.
    + apply namedGroup_In; assumption.
    + exact Hk.
  - rewrite fold_setProp_other.
    + rewrite lookup_empty. unfold counted. subst n.
      replace (List.filter (McpServerDb.option_eqb (Some k)) ks) with (@nil (option string));
        [reflexivity |].
      symmetry. clear -Hout. induction ks as [|x ks IH]; [reflexivity |].
      cbn [List.filter].
      destruct (McpServerDb.option_eqb (Some k) x) eqn:E.
      * apply option_eqb_eq in E. subst x. exfalso. apply Hout. left. reflexivity.
      * apply IH. intros H. apply Hout. right. exact H.
    + intros H. apply namedGroup_keys in H.
      rewrite groupCount_keys, (In_distinct _ option_eqb_eq) in H. contradiction.
Qed.

Lemma total_count (d : Db) :
  Z.of_nat (length (McpServerDb.activeColumn sourceRegistry d))
  = activeCount (fun _ => true) d.
Proof.
  unfold McpServerDb.activeColumn, activeCount. rewrite length_map.
  do 2 f_equal. apply List.filter_ext. intros r. rewrite andb_true_r. reflexivity.
Qed.

(** X15.  [getMCPServerStatsFromDB] never rejects.  When its queries
    run, [total] is the number of active servers, and each of the three
    objects holds, under a key, the number of active servers with that
    source registry, category or verification status, and no entry
    where that number is zero (the key [__proto__] is never stored, and
    servers without a verification status are not counted by status).
    When the queries are short-circuited or fail, [total] is 0 and the
    three objects are empty. *)
Theorem getMCPServerStatsFromDB_counts (w : World) :
  exists result w',
    McpServerDb.getMCPServerStatsFromDB w = (Resolved result, w') /\
    db w' = db w /\
    (short_circuits w = true \/ dbUp w = false ->
     McpServerDb.statsTotal result = 0 /\
     McpServerDb.bySource result = ∅ /\
     McpServerDb.byCategory result = ∅ /\
     McpServerDb.byVerification result = ∅) /\
    (short_circuits w = false -> dbUp w = true ->
     McpServerDb.statsTotal result = activeCount (fun _ => true) (db w) /\
     forall k : string,
       k <> "__proto__"%string ->
       McpServerDb.bySource result !! k
       = counted (activeCount (fun r => String.eqb (sourceRegistry r) k) (db w)) /\
       McpServerDb.byCategory result !! k
       = counted (activeCount (fun r => String.eqb (category r) k) (db w)) /\
       (k <> ""%string ->
        McpServerDb.byVerification result !! k
        = counted (activeCount
                     (fun r => McpServerDb.option_eqb (verificationStatus r) (Some k))
                     (db w)))).
Proof.
  unfold McpServerDb.getMCPServerStatsFromDB, bind.
  rewrite safeDbQuery_dbRead.
  destruct (short_circuits w) eqn:Hs.
  { cbv beta iota. rewrite safeDbQuery_dbRead, Hs. cbv beta iota.
    rewrite safeDbQuery_dbRead, Hs. cbn [data]. unfold ret.
    eexists _, _. split; [reflexivity |]. split; [reflexivity |].
    split; [intros _; repeat split | discriminate]. }
  destruct (dbUp w) eqn:Hup.
  2:{ cbv beta iota. rewrite safeDbQuery_dbRead, short_circuits_openCircuit.
      cbv beta iota. rewrite safeDbQuery_dbRead, short_circuits_openCircuit.
      cbn [data]. unfold ret.
      eexists _, _. split; [reflexivity |].
      split; [cbn [db openCircuit set_breaker]; apply db_closeCircuit |].
      split; [intros _; repeat split | discriminate]. }
  cbv beta iota.
  rewrite safeDbQuery_dbRead, short_circuits_closeCircuit, dbUp_closeCircuit, Hup.
  cbv beta iota.
  rewrite safeDbQuery_dbRead, short_circuits_closeCircuit, !dbUp_closeCircuit, Hup.
  cbn [data]. unfold ret. rewrite fold_total. cbn [fst snd].
  eexists _, _. split; [reflexivity |].
  split; [rewrite !db_closeCircuit; reflexivity |].
  split; [intros [H | H]; discriminate |]. intros _ _.
  cbn [McpServerDb.statsTotal McpServerDb.bySource McpServerDb.byCategory
       McpServerDb.byVerification].
  rewrite !db_closeCircuit.
  split.
  - rewrite (groupCount_total _ string_eqb_eq), total_count. lia.
  - intros k Hk. split; [apply counted_lookup, Hk |].
    split; [apply counted_lookup, Hk |].
    intros Hne. apply status_lookup; assumption.
Qed.

Lemma getMCPServerStatsFromDB_counts_witness :
  exists result w',
    McpServerDb.getMCPServerStatsFromDB w_stats = (Resolved result, w') /\
    McpServerDb.statsTotal result = 1 /\
    McpServerDb.bySource result !! "docker"%string = Some 1 /\
    McpServerDb.bySource result !! "github"%string = None.
Proof.
  destruct (getMCPServerStatsFromDB_counts w_stats)
    as (result & w' & E & _ & _ & H).
  destruct (H eq_refl eq_refl) as [Ht Hk].
  exists result, w'. split; [exact E |]. split; [exact Ht |].
  split.
  - exact (proj1 (Hk "docker"%string ltac:(discriminate))).
  - exact (proj1 (Hk "github"%string ltac:(discriminate))).
Defined.

(** ** Categories with counts *)

Lemma fold_insert_other (l : list (string * Z)) k : forall m : gmap string Z,
  ~ In k (map fst l) ->
  fold_left (fun (m : gmap string Z) row => <[fst row := snd row]> m) l m !! k = m !! k.
Proof.
  induction l as [|s l IH]; intros m Hk; [reflexivity |].
  cbn [fold_left]. rewrite IH by (intros H; apply Hk; right; exact H).
  apply lookup_insert_ne. intros E. apply Hk. left. exact E.
Qed.

Lemma fold_insert_lookup (l : list (string * Z)) k n : forall m : gmap string Z,
  List.NoDup (map fst l) -> In (k, n) l ->
  fold_left (fun (m : gmap string Z) row => <[fst row := snd row]> m) l m !! k = Some n.
Proof.
  induction l as [|s l IH]; intros m Hnd Hin; [destruct Hin |].
  cbn [map] in Hnd. apply NoDup_cons_iff in Hnd. destruct Hnd as [Hs Hnd].
  cbn [fold_left]. destruct Hin as [-> | Hin].
  - rewrite fold_insert_other by exact Hs. apply lookup_insert_eq.
  - apply IH; assumption.
Qed.

Lemma countMap_lookup (d : Db) (k : string) :
  JS.orZero
    (fold_left (fun (m : gmap string Z) row => <[fst row := snd row]> m)
       (Sql.groupCount String.eqb (McpServerDb.activeColumn category d)) ∅ !! k)
  = activeCount (fun r => String.eqb (category r) k) d.
Proof.
  rewrite <- column_count.
  set (ks := McpServerDb.activeColumn category d).
  destruct (in_dec string_dec k ks) as [Hin | Hout].
  - rewrite (fold_insert_lookup _ k (Z.of_nat (length (List.filter (String.eqb k) ks)))).
    + reflexivity.
    + rewrite groupCount_keys. apply NoDup_distinct, string_eqb_eq.
    + apply groupCount_In; [apply string_eqb_eq | auto].
  - rewrite fold_insert_other.
    + rewrite lookup_empty. cbn [JS.orZero].
      replace (List.filter (String.eqb k) ks) with (@nil string); [reflexivity |].
      symmetry. clear -Hout. induction ks as [|x ks IH]; [reflexivity |].
      cbn [List.filter]. destruct (String.eqb_spec k x) as [-> | _].
      * exfalso. apply Hout. left. reflexivity.
      * apply IH. intros H. apply Hout. right. exact H.
    + rewrite groupCount_keys, (In_distinct String.eqb string_eqb_eq). exact Hout.
Qed.

(** X16.  [getMCPCategoriesFromDB] never rejects.  When its query
    runs it returns, in the order of [MCP_CATEGORIES], one entry for
    each category of that table that at least one active server
    carries, with the number of those servers; a category that is not
    in [MCP_CATEGORIES] gets no entry.  When the query is
    short-circuited or fails, it returns no entry. *)
Theorem getMCPCategoriesFromDB_counts
    (MCP_CATEGORIES : list (string * McpServerDb.CategoryData)) (w : World) :
  exists result w',
    McpServerDb.getMCPCategoriesFromDB MCP_CATEGORIES w = (Resolved result, w') /\
    (short_circuits w = true \/ dbUp w = false -> result = []) /\
    (short_circuits w = false -> dbUp w = true ->
     result
     = flat_map
         (fun e =>
            let n := activeCount (fun r => String.eqb (category r) e.1) (db w) in
            if n >? 0 then [categoryEntry e n] else [])
         MCP_CATEGORIES).
Proof.
  unfold McpServerDb.getMCPCategoriesFromDB, bind.
  rewrite safeDbQuery_dbRead.
  assert (Hnone : flat_map
                    (fun e : string * McpServerDb.CategoryData =>
                       let count := JS.orZero ((∅ : gmap string Z) !! fst e) in
                       if count >? 0
                       then [ {| McpServerDb.cwcId := fst e;
                                 McpServerDb.cwcDisplayName := McpServerDb.catName (snd e);
                                 McpServerDb.cwcIcon := McpServerDb.catIcon (snd e);
                                 McpServerDb.cwcCount := count |} ]
                       else [])
                    MCP_CATEGORIES = []).
  { induction MCP_CATEGORIES as [|e l IH]; [reflexivity |].
    cbn [flat_map]. rewrite lookup_empty. cbn. exact IH. }
  destruct (short_circuits w) eqn:Hs.
  { cbn [data fold_left]. unfold ret. eexists _, _. split; [reflexivity |].
    split; [intros _; exact Hnone | discriminate]. }
  destruct (dbUp w) eqn:Hup.
  2:{ cbn [data fold_left]. unfold ret. eexists _, _. split; [reflexivity |].
      split; [intros _; exact Hnone | discriminate]. }
  cbn [data]. unfold ret. eexists _, _. split; [reflexivity |].
  split; [intros [H | H]; discriminate |]. intros _ _.
  apply flat_map_ext. intros e. cbv zeta. rewrite countMap_lookup. reflexivity.
Qed.

Lemma getMCPCategoriesFromDB_counts_witness :
  exists w',
    McpServerDb.getMCPCategoriesFromDB sampleCategories w_stats
    = (Resolved [categoryEntry ("database"%string,
                                {| McpServerDb.catName := "Databases";
                                   McpServerDb.catIcon := "db" |}) 1], w').
Proof.
  destruct (getMCPCategoriesFromDB_counts sampleCategories w_stats)
    as (result & w' & E & _ & H).
  exists w'. rewrite E, (H eq_refl eq_refl). reflexivity.
Defined.

(** X17.  [recordMCPServerStats] never rejects.  When the statement
    runs, for the id of a server of the table, it appends one
    snapshot for that server, with 0 for every metric that is not
    given, and touches no other table; when it is short-circuited or
    fails, nothing is written. *)
Theorem recordMCPServerStats_appends (serverId : nat) (stats : McpServerDb.StatsInput)
    (w : World) :
  exists w',
    McpServerDb.recordMCPServerStats serverId stats w = (Resolved tt, w') /\
    (short_circuits w = true \/ dbUp w = false -> db w' = db w) /\
    (short_circuits w = false -> dbUp w = true ->
     In serverId (map Schema.id (mcpServers (db w))) ->
     mcpServerStats (db w') = mcpServerStats (db w) ++ [snapshotOf serverId stats] /\
     mcpServers (db w') = mcpServers (db w) /\
     marketplaces (db w') = marketplaces (db w) /\
     Schema.plugins (db w') = Schema.plugins (db w)).
Proof.
  unfold McpServerDb.recordMCPServerStats, bind, safeDbQuery.
  destruct (short_circuits w) eqn:Hs.
  { unfold ret. eexists. split; [reflexivity |].
    split; [reflexivity | discriminate]. }
  unfold attempt, dbWrite. rewrite dbUp_closeCircuit.
  destruct (dbUp w) eqn:Hup.
  - unfold ret. eexists. split; [reflexivity |].
    split; [intros [H | H]; discriminate |]. intros _ _ _.
    cbn [db set_db mcpServerStats mcpServers marketplaces Schema.plugins].
    rewrite db_closeCircuit. repeat split.
  - unfold ret. eexists. split; [reflexivity |].
    split; [| discriminate]. intros _.
    cbn [db openCircuit set_breaker]. apply db_closeCircuit.
Qed.

Lemma recordMCPServerStats_appends_witness :
  exists w',
    McpServerDb.recordMCPServerStats 7 starsOnlyInput w_stats = (Resolved tt, w') /\
    mcpServerStats (db w')
    = [ {| mcpServerId := 7; statGithubStars := 12; statDockerPulls := 0;
           statNpmDownloads := 0 |} ].
Proof.
  destruct (recordMCPServerStats_appends 7 starsOnlyInput w_stats)
    as (w' & E & _ & H).
  exists w'. split; [exact E |].
  exact (proj1 (H eq_refl eq_refl (or_introl eq_refl))).
Defined.

End CatalogFacts.

(* ================================================================== *)
(** * Marketplaces and the unified listing, continued                  *)
(* ================================================================== *)

Module ListingMoreFacts.
Import Schema Async SafeQuery Props Checks ListFacts AsyncFacts GroupFacts.






(** ** Pages of the local marketplace *)

Lemma firstn_skipn_add {A} (a b : nat) (l : list A) :
  firstn a l ++ firstn b (skipn a l) = firstn (a + b) l.
Proof.
  revert l. induction a as [|a IH]; intros l; [reflexivity |].
  destruct l as [|x l]; [cbn; rewrite List.firstn_nil; reflexivity |].
  cbn [firstn skipn app Nat.add]. rewrite IH. reflexivity.
Qed.

Lemma firstn_min {A} (n : nat) (l : list A) :
  firstn (Nat.min n (length l)) l = firstn n l.
Proof.
  destruct (Nat.le_ge_cases n (length l)) as [H | H].
  - rewrite Nat.min_l by exact H. reflexivity.
  - rewrite Nat.min_r by exact H. rewrite firstn_all, firstn_all2; [reflexivity | exact H].
Qed.

Lemma slice_forward {A} (offset limit : Z) (l : list A) :
  0 <= offset -> 0 <= limit ->
  JS.slice offset (offset + limit) l
  = firstn (Z.to_nat limit) (skipn (Z.to_nat offset) l).
Proof.
  intros Ho Hl. unfold JS.slice.
  destruct (Z.ltb_spec offset 0); [lia |].
  destruct (Z.ltb_spec (offset + limit) 0); [lia |].
  set (len := Z.of_nat (length l)).
  destruct (Z.le_gt_cases offset len) as [Hle | Hgt].
  - rewrite (Z.min_l offset len) by lia.
    rewrite <- (firstn_min (Z.to_nat limit)). f_equal.
    rewrite length_skipn. subst len. lia.
  - rewrite (Z.min_r offset len), (Z.min_r (offset + limit) len) by lia.
    replace (Z.to_nat (Z.max (len - len) 0)) with 0%nat by lia.
    rewrite (skipn_all2 (n := Z.to_nat offset)) by (subst len; lia).
    rewrite List.firstn_nil. reflexivity.
Qed.

Lemma slice_backward {A} (k : Z) (l : list A) :
  0 < k ->
  JS.slice 0 (0 + - k) l = firstn (length l - Z.to_nat k) l.
Proof.
  intros Hk. unfold JS.slice.
  destruct (Z.ltb_spec 0 0); [lia |].
  destruct (Z.ltb_spec (0 + - k) 0); [| lia].
  rewrite Z.min_l by lia. cbn [Z.to_nat skipn]. f_equal. lia.
Qed.

Section WithPlatform.
Variable P : Platform.

Lemma local_page (L : PluginDbServer.LocalContent) (o : PluginDbServer.Options)
    (limit offset : Z) (w : World) :
  PluginDbServer.isBuildWithClaude (PluginDbServer.marketplaceFilter o) = true ->
  PluginDbServer.getPluginsPaginated P L (withWindow o limit offset) w
  = (Resolved (PluginDbServer.page (localItems P L o) limit offset), w).
Proof.
  intros Hb. rewrite ListingFacts.getPluginsPaginated_spec.
  cbn [withWindow PluginDbServer.marketplaceFilter]. rewrite Hb. reflexivity.
Qed.

(** X19.  The local marketplace is listed without the database.
    Pages of a positive size [limit] asked for at the offsets
    [0, limit, 2 * limit, ...] hold, one after the other, the filtered
    and sorted local items: no item is left out or comes twice, and
    every page reports their number as its total. *)
Theorem local_pages_compose (L : PluginDbServer.LocalContent)
    (o : PluginDbServer.Options) (limit : Z) (w : World) (n : nat) :
  PluginDbServer.isBuildWithClaude (PluginDbServer.marketplaceFilter o) = true ->
  0 < limit ->
  let pageAt := fun i : nat =>
    PluginDbServer.getPluginsPaginated P L
      (withWindow o limit (Z.of_nat i * limit)) w in
  concat (map (fun i => pluginsOf (pageAt i)) (seq 0 n))
  = firstn (n * Z.to_nat limit) (localItems P L o) /\
  (forall i, exists page,
     pageAt i = (Resolved page, w) /\
     PluginDbServer.total page = Z.of_nat (length (localItems P L o))) /\
  ((length (localItems P L o) <= n * Z.to_nat limit)%nat ->
   concat (map (fun i => pluginsOf (pageAt i)) (seq 0 n)) = localItems P L o).
Proof.
  intros Hb Hl pageAt.
  assert (Hpage : forall i,
            pluginsOf (pageAt i)
            = firstn (Z.to_nat limit)
                (skipn (i * Z.to_nat limit) (localItems P L o))).
  { intros i. subst pageAt. cbv beta. rewrite local_page by exact Hb.
    unfold pluginsOf, PluginDbServer.page.
    cbn [fst PluginDbServer.plugins].
    rewrite slice_forward by lia. do 2 f_equal. lia. }
  assert (Hcat : concat (map (fun i => pluginsOf (pageAt i)) (seq 0 n))
                 = firstn (n * Z.to_nat limit) (localItems P L o)).
  { induction n as [|n IH]; [reflexivity |].
    rewrite seq_S, map_app, concat_app, IH. cbn [map concat Nat.add].
    rewrite app_nil_r, Hpage, firstn_skipn_add. f_equal. lia. }
  split; [exact Hcat |]. split.
  - intros i. subst pageAt. cbv beta. rewrite local_page by exact Hb.
    eexists. split; reflexivity.
  - intros Hlen. rewrite Hcat. apply firstn_all2, Hlen.
Qed.

(** X20.  A negative limit is not refused by the listing of the
    local marketplace: with offset 0 and limit [- k] the page holds
    all the filtered local items but the last [k], however many
    these are. *)
Theorem negative_limit_page (L : PluginDbServer.LocalContent)
    (o : PluginDbServer.Options) (k : Z) (w : World) :
  PluginDbServer.isBuildWithClaude (PluginDbServer.marketplaceFilter o) = true ->
  0 < k ->
  exists page,
    PluginDbServer.getPluginsPaginated P L (withWindow o (- k) 0) w
    = (Resolved page, w) /\
    PluginDbServer.plugins page
    = firstn (length (localItems P L o) - Z.to_nat k) (localItems P L o) /\
    PluginDbServer.total page = Z.of_nat (length (localItems P L o)).
Proof.
  intros Hb Hk. rewrite local_page by exact Hb.
  eexists. split; [reflexivity |]. split; [| reflexivity].
  unfold PluginDbServer.page. cbn [PluginDbServer.plugins].
  apply slice_backward, Hk.
Qed.

(** ** The number of skills *)

Lemma fold_addUnseen_length ps : forall acc,
  (length (fold_left PluginDbServer.addUnseen ps acc).2
   <= length acc.2 + length ps)%nat.
Proof.
  induction ps as [|p ps IH]; intros acc; cbn [fold_left length]; [lia |].
  etransitivity; [apply IH |].
  unfold PluginDbServer.addUnseen.
  destruct (decide (PluginDbServer.keyOf p ∈ acc.1)); cbn [snd]; [lia |].
  rewrite length_app. cbn [length]. lia.
Qed.

Lemma mergePlugins_length locals dbs :
  (length (PluginDbServer.mergePlugins locals dbs) <= length locals + length dbs)%nat.
Proof.
  unfold PluginDbServer.mergePlugins.
  etransitivity; [apply fold_addUnseen_length |].
  pose proof (fold_addUnseen_length locals (∅, [])) as H. cbn [snd length] in H. lia.
Qed.

(** X21.  For the skills page, the number that [getSkillOnlyCount]
    reports is never below the total of the skills listing: the
    listing merges a database skill into the local skill of the same
    name and reads at most 1000 rows, the count does neither. *)
Theorem skill_count_bounds_listing (L : PluginDbServer.LocalContent)
    (limit offset : Z) (w : World) :
  dbUp w = true ->
  exists page w1 count w2,
    PluginDbServer.getPluginsPaginated P L (skillsWindow limit offset) w
    = (Resolved page, w1) /\
    PluginDbServer.getSkillOnlyCount L w = (Resolved count, w2) /\
    PluginDbServer.total page <= count.
Proof.
  intros Hup. rewrite ListingFacts.getPluginsPaginated_spec.
  cbn [skillsWindow PluginDbServer.marketplaceFilter PluginDbServer.isBuildWithClaude].
  rewrite Hup.
  unfold PluginDbServer.getSkillOnlyCount, bind, dbRead. rewrite Hup.
  unfold Sql.count, ret. cbn [head JS.orZero].
  eexists _, _, _, _. split; [reflexivity |]. split; [reflexivity |].
  unfold PluginDbServer.page. cbn [PluginDbServer.total].
  unfold sortedMerged.
  rewrite (Permutation_length (PluginFacts.sortPlugins_perm P _ _ _)).
  pose proof (mergePlugins_length
                (localItems P L (skillsWindow limit offset))
                (dbItems P (skillsWindow limit offset) w)) as Hm.
  assert (Hlocal : length (localItems P L (skillsWindow limit offset))
                   = length (List.filter (PluginDbServer.hasType "skill")
                               (PluginDbServer.getLocalBuildWithClaudePlugins L))).
  { unfold localItems. cbn [skillsWindow PluginDbServer.marketplaceFilter
                              PluginDbServer.selective JS.truthy andb negb].
    rewrite (Permutation_length (PluginFacts.sortPlugins_perm P _ _ _)).
    reflexivity. }
  assert (Hdb : (length (dbItems P (skillsWindow limit offset) w)
                 <= length (List.filter
                              (fun p => pActive p && String.eqb (pType p) "skill")
                              (Schema.plugins (db w))))%nat).
  { unfold dbItems. rewrite length_map, length_firstn, sort_length.
    etransitivity; [apply Nat.le_min_r |].
    apply Nat.eq_le_incl. f_equal. apply List.filter_ext. intros r.
    unfold PluginDbServer.whereClause. cbn. rewrite !andb_true_r. reflexivity. }
  lia.
Qed.

End WithPlatform.

Lemma local_pages_compose_witness :
  concat (map (fun i : nat =>
                 pluginsOf (PluginDbServer.getPluginsPaginated samplePlatform
                              oneSubagent (withWindow localPage 1 (Z.of_nat i * 1))
                              w_down))
              (seq 0 2))
  = localItems samplePlatform oneSubagent localPage.
Proof.
  apply (proj2 (proj2 (local_pages_compose samplePlatform oneSubagent localPage 1
                         w_down 2 eq_refl eq_refl))).
  cbn. lia.
Defined.

Lemma negative_limit_page_witness :
  exists page,
    PluginDbServer.getPluginsPaginated samplePlatform oneSubagent
      (withWindow localPage (- 1) 0) w_down
    = (Resolved page, w_down) /\
    PluginDbServer.plugins page = [] /\
    PluginDbServer.total page = 1.
Proof.
  exact (negative_limit_page samplePlatform oneSubagent localPage 1 w_down
           eq_refl eq_refl).
Defined.

Lemma skill_count_bounds_listing_witness :
  exists page w1 count w2,
    PluginDbServer.getPluginsPaginated samplePlatform githubSkill (skillsWindow 24 0)
      w_skill
    = (Resolved page, w1) /\
    PluginDbServer.getSkillOnlyCount githubSkill w_skill = (Resolved count, w2) /\
    PluginDbServer.total page <= count.
Proof.
  exact (skill_count_bounds_listing samplePlatform githubSkill 24 0 w_skill eq_refl).
Defined.

(** The bound is not always met: a database skill that a local skill
    shadows is counted but not listed. *)
Example skill_count_exceeds_listing :
  exists page w1 count w2,
    PluginDbServer.getPluginsPaginated samplePlatform githubSkill (skillsWindow 24 0)
      w_skill
    = (Resolved page, w1) /\
    PluginDbServer.getSkillOnlyCount githubSkill w_skill = (Resolved count, w2) /\
    PluginDbServer.total page = 1 /\ count = 2.
Proof. eexists _, _, _, _. repeat split. Qed.

End ListingMoreFacts.

(* ================================================================== *)
(** * Counters, filter options, sorting and the routes                 *)
(* ================================================================== *)

Module CounterFacts.
Import Schema Async SafeQuery Props Checks ListFacts AsyncFacts GroupFacts.
Import PluginDbServer.

Lemma countLocal_sum ps : forall acc,
  nonneg acc ->
  sumFields (fold_left countLocal ps acc) = sumFields acc + Z.of_nat (length ps) /\
  nonneg (fold_left countLocal ps acc).
Proof.
  induction ps as [|p ps IH]; intros acc Hacc.
  - cbn. split; [lia | exact Hacc].
  - cbn [fold_left length].
    assert (Hstep : sumFields (countLocal acc p) = sumFields acc + 1
                    /\ nonneg (countLocal acc p)).
    { unfold countLocal, sumFields, nonneg in *.
      repeat match goal with
             | |- context [if ?c then _ else _] => destruct c
             end; cbn; lia. }
    destruct Hstep as [Hs Hn]. destruct (IH _ Hn) as [IH1 IH2].
    split; [rewrite IH1, Hs; lia | exact IH2].
Qed.

Lemma countDb_sum l : forall acc,
  List.NoDup (map fst l) -> (forall s, In s l -> 0 <= s.2) ->
  untouched l acc -> nonneg acc ->
  sumFields (fold_left countDb l acc) = sumFields acc + sumZ (map snd l) /\
  nonneg (fold_left countDb l acc).
Proof.
  induction l as [|s l IH]; intros acc Hnd Hpos Hun Hacc.
  - cbn. split; [lia | exact Hacc].
  - cbn [map] in Hnd. apply NoDup_cons_iff in Hnd. destruct Hnd as [Hs Hnd].
    assert (Hs2 : 0 <= s.2) by (apply Hpos; left; reflexivity).
    assert (Hstep : sumFields (countDb acc s) = sumFields acc + s.2
                    /\ nonneg (countDb acc s) /\ untouched l (countDb acc s)).
    { unfold untouched in Hun. cbn [map In] in Hun.
      destruct Hun as (H1 & H2 & H3 & H4).
      unfold countDb, sumFields, nonneg, untouched in *.
      destruct (String.eqb_spec s.1 "subagent") as [E | _].
      { rewrite E in Hs. cbn. rewrite (H1 (or_introl E)) in *.
        repeat split; try lia; try (intros; contradiction); auto. }
      destruct (String.eqb_spec s.1 "command") as [E | _].
      { rewrite E in Hs. cbn. rewrite (H2 (or_introl E)) in *.
        repeat split; try lia; try (intros; contradiction); auto. }
      destruct (String.eqb_spec s.1 "hook") as [E | _].
      { rewrite E in Hs. cbn. rewrite (H3 (or_introl E)) in *.
        repeat split; try lia; try (intros; contradiction); auto. }
      destruct (String.eqb_spec s.1 "skill") as [E | _].
      { rewrite E in Hs. cbn. rewrite (H4 (or_introl E)) in *.
        repeat split; try lia; try (intros; contradiction); auto. }
      cbn. repeat split; try lia; auto. }
    destruct Hstep as (Hsum & Hn & Hu).
    cbn [fold_left map sumZ fold_right].
    destruct (IH (countDb acc s) Hnd (fun x Hx => Hpos x (or_intror Hx)) Hu Hn)
      as [IH1 IH2].
    split; [rewrite IH1, Hsum; unfold sumZ; cbn [snd]; lia | exact IH2].
Qed.

(** X22.  [getPluginStatsForUI] rejects when the database is
    unreachable.  Otherwise its total is the sum of its five counters,
    is at least the number of local items and at most that number plus
    the number of active plugin rows. *)
Theorem pluginStats_bounds (L : LocalContent) (w : World) :
  (dbUp w = false -> getPluginStatsForUI L w = (Rejected, w)) /\
  (dbUp w = true ->
   exists stats,
     getPluginStatsForUI L w = (Resolved stats, w) /\
     uiTotal stats = sumFields (uiCounts stats) /\
     Z.of_nat (length (getLocalBuildWithClaudePlugins L)) <= uiTotal stats /\
     uiTotal stats
     <= Z.of_nat (length (getLocalBuildWithClaudePlugins L))
        + Z.of_nat (length (List.filter pActive (Schema.plugins (db w))))).
Proof.
  unfold getPluginStatsForUI, bind, dbRead, ret.
  split; intros Hup; rewrite Hup; [reflexivity |].
  eexists. split; [reflexivity |]. cbn [uiTotal uiCounts].
  set (ps := getLocalBuildWithClaudePlugins L).
  set (keys := map pType (List.filter pActive (Schema.plugins (db w)))).
  assert (H0 : nonneg noCounts) by (unfold nonneg; cbn; lia).
  destruct (countLocal_sum ps noCounts H0) as [Hls Hln].
  destruct (countDb_sum (Sql.groupCount String.eqb keys) noCounts) as [Hds Hdn].
  { rewrite groupCount_keys. apply NoDup_distinct, string_eqb_eq. }
  { intros [k n] Hs. apply (groupCount_positive _ string_eqb_eq) in Hs. cbn. lia. }
  { unfold untouched. cbn. auto. }
  { exact H0. }
  rewrite (groupCount_total _ string_eqb_eq) in Hds.
  subst keys. rewrite length_map in Hds.
  unfold sumFields, nonneg in *. cbn in Hls, Hds. cbn.
  split; [reflexivity |]. lia.
Qed.

Lemma pluginStats_bounds_witness :
  exists stats,
    getPluginStatsForUI githubSkill w_skill = (Resolved stats, w_skill) /\
    1 <= uiTotal stats <= 2.
Proof.
  destruct (proj2 (pluginStats_bounds githubSkill w_skill) eq_refl)
    as (stats & E & _ & Hlo & Hhi).
  exists stats. split; [exact E |]. split; [exact Hlo | exact Hhi].
Defined.

(** ** Marketplace options *)

Lemma names_inv_start (x : MarketplaceOption) :
  names_inv ({[optDisplayName x]}, [x]).
Proof.
  split.
  - intros k. cbn. rewrite elem_of_singleton. split; [intros ->; auto |].
    intros [E | []]. symmetry. exact E.
  - cbn. repeat constructor. intros [].
Qed.

Lemma names_inv_push acc (x : MarketplaceOption) :
  names_inv acc -> optDisplayName x ∉ acc.1 ->
  names_inv ({[optDisplayName x]} ∪ acc.1, acc.2 ++ [x]).
Proof.
  intros [Hset Hnd] Hx. split; cbn [fst snd].
  - intros k. rewrite map_app, in_app_iff, elem_of_union, elem_of_singleton, Hset.
    cbn. split; [intros [-> | H]; auto | intros [H | [E | []]]; auto].
  - rewrite map_app. apply List.NoDup_app; [exact Hnd | repeat constructor; intros [] |].
    intros k Hk [<- | []]. apply Hx, Hset, Hk.
Qed.

Lemma addMarketplace_inv acc m : names_inv acc -> names_inv (addMarketplace acc m).
Proof.
  intros Hacc. unfold addMarketplace.
  destruct (decide (mDisplayName m ∈ acc.1)) as [_ | Hout]; [exact Hacc |].
  exact (names_inv_push acc
           {| optId := mId m; optName := mName m; optDisplayName := mDisplayName m;
              optPluginCount := mPluginCount m |} Hacc Hout).
Qed.

Lemma addPluginSource_inv acc pm : names_inv acc -> names_inv (addPluginSource acc pm).
Proof.
  intros Hacc. unfold addPluginSource.
  destruct pm.1 as [[|c s]|]; try exact Hacc.
  destruct (decide (String c s ∈ acc.1)) as [_ | Hout]; [exact Hacc |].
  exact (names_inv_push acc
           {| optId := String c s; optName := String c s;
              optDisplayName := String c s; optPluginCount := pm.2 |} Hacc Hout).
Qed.

Lemma fold_inv {X} (step : gset string * list MarketplaceOption -> X ->
                           gset string * list MarketplaceOption) xs :
  (forall acc x, names_inv acc -> names_inv (step acc x)) ->
  forall acc, names_inv acc -> names_inv (fold_left step xs acc).
Proof.
  intros Hstep. induction xs as [|x xs IH]; intros acc Hacc; [exact Hacc |].
  cbn [fold_left]. apply IH, Hstep, Hacc.
Qed.

Lemma addMarketplace_grows acc m :
  (forall k, k ∈ acc.1 -> k ∈ (addMarketplace acc m).1) /\
  (forall x, In x acc.2 -> In x (addMarketplace acc m).2) /\
  mDisplayName m ∈ (addMarketplace acc m).1.
Proof.
  unfold addMarketplace.
  destruct (decide (mDisplayName m ∈ acc.1)) as [Hin | Hout]; cbn [fst snd].
  - auto.
  - split; [intros k Hk; apply elem_of_union; auto |].
    split; [intros x Hx; apply in_or_app; auto |].
    apply elem_of_union. left. apply elem_of_singleton. reflexivity.
Qed.

Lemma addPluginSource_grows acc pm :
  (forall k, k ∈ acc.1 -> k ∈ (addPluginSource acc pm).1) /\
  (forall x, In x acc.2 -> In x (addPluginSource acc pm).2).
Proof.
  unfold addPluginSource.
  destruct pm.1 as [[|c s]|]; auto.
  destruct (decide (String c s ∈ acc.1)) as [Hin | Hout]; cbn [fst snd]; auto.
  split; [intros k Hk; apply elem_of_union; auto |].
  intros x Hx. apply in_or_app. auto.
Qed.

Lemma fold_addMarketplace_grows ms : forall acc,
  (forall k, k ∈ acc.1 -> k ∈ (fold_left addMarketplace ms acc).1) /\
  (forall x, In x acc.2 -> In x (fold_left addMarketplace ms acc).2) /\
  (forall m, In m ms -> mDisplayName m ∈ (fold_left addMarketplace ms acc).1).
Proof.
  induction ms as [|m ms IH]; intros acc; cbn [fold_left].
  - split; [auto |]. split; [auto |]. intros m [].
  - destruct (IH (addMarketplace acc m)) as (I1 & I2 & I3).
    destruct (addMarketplace_grows acc m) as (G1 & G2 & G3).
    split; [auto |]. split; [auto |].
    intros x [<- | Hx]; [apply I1, G3 | apply I3, Hx].
Qed.

Lemma fold_addPluginSource_grows pms : forall acc,
  (forall k, k ∈ acc.1 -> k ∈ (fold_left addPluginSource pms acc).1) /\
  (forall x, In x acc.2 -> In x (fold_left addPluginSource pms acc).2).
Proof.
  induction pms as [|pm pms IH]; intros acc; cbn [fold_left]; [auto |].
  destruct (IH (addPluginSource acc pm)) as (I1 & I2).
  destruct (addPluginSource_grows acc pm) as (G1 & G2).
  split; auto.
Qed.

(** X23.  [getPluginMarketplaces] rejects when the database is
    unreachable.  Otherwise it returns options with pairwise different
    display names, in descending order of their plugin count; the
    local marketplace is among them with the number of local items,
    and so is the display name of every active registered
    marketplace. *)
Theorem pluginMarketplaces_distinct (L : LocalContent) (w : World) :
  (dbUp w = false -> getPluginMarketplaces L w = (Rejected, w)) /\
  (dbUp w = true ->
   exists options,
     getPluginMarketplaces L w = (Resolved options, w) /\
     List.NoDup (map optDisplayName options) /\
     StronglySorted (fun a b => optPluginCount b <= optPluginCount a) options /\
     In (localOption L) options /\
     forall m, In m (marketplaces (db w)) -> mActive m = true ->
               In (mDisplayName m) (map optDisplayName options)).
Proof.
  unfold getPluginMarketplaces, bind, dbRead, ret.
  split; intros Hup; rewrite Hup; [reflexivity |].
  unfold Sql.select, Sql.window. cbn [Z.ltb Z.compare Z.to_nat]. rewrite Hup.
  rewrite List.skipn_O.
  eexists. split; [reflexivity |].
  set (ms := JS.sort _ (List.filter mActive _)).
  set (pms := Sql.groupCount _ _).
  set (start := ({[BUILD_WITH_CLAUDE_MARKETPLACE]}, [_])
                : gset string * list MarketplaceOption).
  assert (Hstart : names_inv start) by apply (names_inv_start (localOption L)).
  pose proof (fold_inv addMarketplace ms addMarketplace_inv start Hstart) as H1.
  pose proof (fold_inv addPluginSource pms addPluginSource_inv _ H1) as [Hset Hnd].
  destruct (fold_addMarketplace_grows ms start) as (G1 & G2 & G3).
  destruct (fold_addPluginSource_grows pms (fold_left addMarketplace ms start))
    as (F1 & F2).
  set (final := fold_left addPluginSource pms (fold_left addMarketplace ms start)) in *.
  pose proof (sort_perm byPluginCountDesc final.2) as Hperm.
  split; [| split; [| split]].
  - apply (Permutation_NoDup (Permutation_map optDisplayName (Permutation_sym Hperm))).
    exact Hnd.
  - apply RelevanceFacts.sort_strongly_sorted; unfold byPluginCountDesc; intros; lia.
  - apply sort_In, F2, G2. left. reflexivity.
  - intros m Hm Hact.
    apply (Permutation_in _ (Permutation_map optDisplayName (Permutation_sym Hperm))).
    apply Hset, F1, G3. subst ms.
    apply sort_In, filter_In. auto.
Qed.

Lemma pluginMarketplaces_distinct_witness :
  exists options,
    getPluginMarketplaces githubSkill w_skill = (Resolved options, w_skill) /\
    List.NoDup (map optDisplayName options) /\
    In (localOption githubSkill) options.
Proof.
  destruct (proj2 (pluginMarketplaces_distinct githubSkill w_skill) eq_refl)
    as (options & E & Hnd & _ & Hin & _).
  exists options. repeat split; assumption.
Defined.

End CounterFacts.

(* ================================================================== *)
(** * Sorting, the routes and the breaker                              *)
(* ================================================================== *)

Module RouteFacts.
Import Schema Async SafeQuery Props Checks ListFacts AsyncFacts.

Section WithPlatform.
Variable P : Platform.

(** X24.  [sortPlugins] never drops or repeats an item; the sort
    options [newest], [oldest] and [updated] leave the order as it
    is, and [stars] puts the items in descending order of their
    stars, missing stars counting as 0. *)
Theorem sortPlugins_keeps (ps : list PluginDbServer.UnifiedPlugin)
    (sort : option PluginDbServer.SortOption) (search : option string) :
  Permutation (PluginDbServer.sortPlugins P ps sort search) ps /\
  (sort = Some PluginDbServer.Newest \/ sort = Some PluginDbServer.Oldest
   \/ sort = Some PluginDbServer.Updated ->
   PluginDbServer.sortPlugins P ps sort search = ps) /\
  (sort = Some PluginDbServer.Stars ->
   StronglySorted (fun a b => popularity b <= popularity a)
     (PluginDbServer.sortPlugins P ps sort search)).
Proof.
  split; [| split].
  - unfold PluginDbServer.sortPlugins.
    destruct sort as [[]|]; try destruct (JS.truthy search);
      try apply sort_perm; reflexivity.
  - intros [-> | [-> | ->]]; reflexivity.
  - intros ->. cbn [PluginDbServer.sortPlugins].
    apply RelevanceFacts.sort_strongly_sorted; unfold popularity; intros; lia.
Qed.

Lemma slice_length_le {A} (offset limit : Z) (l : list A) :
  0 <= limit ->
  Z.of_nat (length (JS.slice offset (offset + limit) l)) <= limit.
Proof.
  intros Hl. unfold JS.slice. rewrite length_firstn, length_skipn.
  destruct (Z.ltb_spec offset 0); destruct (Z.ltb_spec (offset + limit) 0); lia.
Qed.

(** X25.  A request whose [limit] is absent or not negative is
    answered by each of the three list routes with status 200 and at
    most 100 items, whatever the other parameters and the state of
    the database. *)
Theorem routes_page_cap (L : PluginDbServer.LocalContent) (q : Routes.SearchParams)
    (w : World) :
  (forall n, Routes.limit q = Some n -> 0 <= n) ->
  (exists r w',
     Routes.GET_mcp_servers P q w = (Resolved r, w') /\ Routes.status r = 200 /\
     (length (McpServerDb.servers P (Routes.body r)) <= 100)%nat) /\
  (exists r w',
     Routes.GET_marketplaces P q w = (Resolved r, w') /\ Routes.status r = 200 /\
     (length (MarketplaceServer.marketplaceItems (Routes.body r)) <= 100)%nat) /\
  (exists r w',
     Routes.GET_plugins P L q w = (Resolved r, w') /\ Routes.status r = 200 /\
     (length (PluginDbServer.plugins (Routes.body r)) <= 100)%nat).
Proof.
  intros Hlimit. split; [| split].
  - unfold Routes.GET_mcp_servers, try_catch, bind.
    match goal with
    | |- context [McpServerDb.getMCPServersPaginated P ?o w] =>
        destruct (ListingFacts.getMCPServersPaginated_spec P o w)
          as (rows & n & w' & -> & H)
    end.
    unfold ret. eexists _, _. split; [reflexivity |]. split; [reflexivity |].
    cbn [Routes.body Routes.json McpServerDb.servers]. rewrite length_map.
    destruct H as [(_ & -> & _) | (_ & -> & _)]; [cbn; lia |].
    unfold mcpRows.
    rewrite window_nonneg
      by (cbn [McpServerDb.limitOf McpServerDb.limit];
          destruct (Routes.limit q) as [given|] eqn:E;
          [specialize (Hlimit given eq_refl) |]; lia).
    rewrite length_firstn.
    cbn [McpServerDb.limitOf McpServerDb.limit]. lia.
  - unfold Routes.GET_marketplaces, try_catch, bind.
    match goal with
    | |- context [MarketplaceServer.getMarketplacesPaginated P ?o w] =>
        destruct (ListingFacts.getMarketplacesPaginated_spec P o w)
          as (rows & n & w' & -> & H)
    end.
    unfold ret. eexists _, _. split; [reflexivity |]. split; [reflexivity |].
    cbn [Routes.body Routes.json MarketplaceServer.marketplaceItems].
    rewrite length_map.
    destruct H as [(_ & -> & _) | (_ & _ & _ & [(_ & ->) | (_ & ->)])];
      try (cbn; lia).
    unfold marketplaceRows.
    rewrite window_nonneg
      by (cbn [MarketplaceServer.limitOf MarketplaceServer.limit];
          destruct (Routes.limit q) as [given|] eqn:E;
          [specialize (Hlimit given eq_refl) |]; lia).
    rewrite length_firstn.
    cbn [MarketplaceServer.limitOf MarketplaceServer.limit]. lia.
  - unfold Routes.GET_plugins, try_catch, bind.
    rewrite ListingFacts.getPluginsPaginated_spec.
    cbn [PluginDbServer.marketplaceFilter PluginDbServer.limitOf
         PluginDbServer.offsetOf PluginDbServer.limit PluginDbServer.offset].
    set (limit := Z.min (match Routes.limit q with Some n => n | None => 50 end) 100).
    assert (Hl : 0 <= limit <= 100).
    { subst limit. destruct (Routes.limit q) as [n|] eqn:E; [| lia].
      specialize (Hlimit n eq_refl). lia. }
    assert (Hpage : forall items offset,
              (length (PluginDbServer.plugins
                         (PluginDbServer.page items limit offset)) <= 100)%nat).
    { intros items offset. unfold PluginDbServer.page. cbn [PluginDbServer.plugins].
      pose proof (slice_length_le offset limit items (proj1 Hl)). lia. }
    destruct (PluginDbServer.isBuildWithClaude _);
      [| destruct (dbUp w)]; unfold ret;
      eexists _, _; (split; [reflexivity |]); (split; [reflexivity |]);
      cbn [Routes.body Routes.json]; try apply Hpage.
    cbn. lia.
Qed.

End WithPlatform.

Lemma sortPlugins_keeps_witness :
  PluginDbServer.sortPlugins samplePlatform [plActions; plGithub]
    (Some PluginDbServer.Updated) None
  = [plActions; plGithub].
Proof.
  apply (proj1 (proj2 (sortPlugins_keeps samplePlatform [plActions; plGithub]
                         (Some PluginDbServer.Updated) None))).
  right. right. reflexivity.
Defined.

Lemma routes_page_cap_witness :
  exists r w',
    Routes.GET_plugins samplePlatform oneSubagent bareRequest w_down = (Resolved r, w')
    /\ Routes.status r = 200
    /\ (length (PluginDbServer.plugins (Routes.body r)) <= 100)%nat.
Proof.
  apply (proj2 (proj2 (routes_page_cap samplePlatform oneSubagent bareRequest w_down
                         ltac:(intros n E; discriminate)))).
Defined.

(** ** The breaker opens on a failure only *)

Lemma short_circuits_rest d w :
  0 <= d -> short_circuits w = false -> short_circuits (advance d w) = false.
Proof.
  unfold short_circuits, advance. cbn [breaker now].
  destruct (circuitOpen (breaker w)); [| reflexivity]. cbn [andb].
  rewrite !negb_false_iff, !Z.gtb_lt. lia.
Qed.

Lemma calm_query (c : Call) (w : World) :
  calm (Query c) -> dbUp w = true -> short_circuits w = false ->
  exists v w',
    safeDbQuery (queryFn c) (fallback c) w
    = (Resolved {| data := v; fromDb := true |}, w') /\
    dbUp w' = true /\ circuitOpen (breaker w') = false.
Proof.
  intros Hc Hup Hs. unfold safeDbQuery, attempt. rewrite Hs.
  destruct (Hc (closeCircuit w)) as (v & w' & -> & Hb & Hup' & _).
  { rewrite dbUp_closeCircuit. exact Hup. }
  exists v, w'. split; [reflexivity |]. split; [exact Hup' |].
  rewrite Hb. pose proof (short_circuits_closeCircuit w) as H.
  unfold closeCircuit in *. destruct (circuitOpen (breaker w)) eqn:E; [reflexivity |].
  exact E.
Qed.

(** X26.  The breaker opens on a failure only.  From a state in
    which calls are not short-circuited and the database is reachable,
    and through any sequence of ticks and calls whose operations
    resolve, no call is ever short-circuited: each call runs its
    operation and reports [fromDb = true], and after the first call the
    breaker is closed. *)
Theorem breaker_opens_on_failure_only (es : list Event) (w : World) :
  dbUp w = true -> short_circuits w = false -> Forall calm es ->
  short_circuits (run es w) = false /\
  dbUp (run es w) = true /\
  forall pre c post, es = pre ++ Query c :: post ->
    exists v w',
      safeDbQuery (queryFn c) (fallback c) (run pre w)
      = (Resolved {| data := v; fromDb := true |}, w') /\
      circuitOpen (breaker w') = false.
Proof.
  intros Hup Hs Hes. revert w Hup Hs.
  induction Hes as [|e es He Hes IH]; intros w Hup Hs.
  - split; [exact Hs |]. split; [exact Hup |].
    intros pre c post E. destruct pre; discriminate.
  - assert (Hstep : dbUp (step e w) = true /\ short_circuits (step e w) = false).
    { destruct e as [d | c]; cbn [step].
      - split; [exact Hup | apply short_circuits_rest; assumption].
      - destruct (calm_query c w He Hup Hs) as (v & w' & -> & Hup' & Hclosed).
        cbn [snd]. split; [exact Hup' |].
        unfold short_circuits. rewrite Hclosed. reflexivity. }
    destruct Hstep as [Hup1 Hs1].
    destruct (IH (step e w) Hup1 Hs1) as (I1 & I2 & I3).
    rewrite SafeQueryFacts.run_cons.
    split; [exact I1 |]. split; [exact I2 |].
    intros pre c post E. destruct pre as [|e' pre].
    + cbn in E. injection E as -> _. cbn [run fold_left].
      destruct (calm_query c w He Hup Hs) as (v & w' & Hq & _ & Hclosed).
      exists v, w'. split; [exact Hq | exact Hclosed].
    + cbn in E. injection E as <- E.
      rewrite SafeQueryFacts.run_cons. apply (I3 pre c post E).
Qed.

Lemma calm_count_call : calm (Query count_call).
Proof.
  intros w Hup. exists 7, w. cbn. unfold dbRead. rewrite Hup.
  split; [reflexivity |]. split; [reflexivity |]. split; [reflexivity | lia].
Qed.

Lemma breaker_opens_on_failure_only_witness :
  short_circuits (run [Query count_call; Tick 40000; Query count_call] w_up) = false.
Proof.
  apply (breaker_opens_on_failure_only
           [Query count_call; Tick 40000; Query count_call] w_up eq_refl eq_refl).
  repeat constructor; try apply calm_count_call. cbn. lia.
Defined.

End RouteFacts.

(* ================================================================== *)
(** * Links: plugin cards and the GitHub API address                   *)
(* ================================================================== *)

Module LinkFacts.
Import Schema Async SafeQuery Props Checks ListFacts AsyncFacts.
Import PluginDbServer.

Lemma local_marketplace L x :
  In x (getLocalBuildWithClaudePlugins L) ->
  marketplaceName x = Some BUILD_WITH_CLAUDE_MARKETPLACE.
Proof.
  unfold getLocalBuildWithClaudePlugins, loaded. rewrite !in_app_iff.
  intros H.
  repeat match type of H with
         | _ \/ _ => destruct H as [H | H]
         end;
    match type of H with
    | In _ (match ?o with Resolved _ => _ | Rejected => _ end) =>
        destruct o; [| destruct H]
    end;
    apply in_map_iff in H; destruct H as (e & <- & _); reflexivity.
Qed.

(** X27.  Every item of a page of the local marketplace has one of
    the five local types, and its card links to the internal page
    [/type/name]. *)
Theorem local_detail_url (P : Platform) (L : LocalContent) (o : Options) (w : World) :
  isBuildWithClaude (marketplaceFilter o) = true ->
  exists page,
    getPluginsPaginated P L o w = (Resolved page, w) /\
    forall x, In x (plugins page) ->
      In (type x) localTypes /\
      PluginCard.getDetailUrl x = "/" +:+ type x +:+ "/" +:+ name x.
Proof.
  intros Hb. rewrite ListingFacts.getPluginsPaginated_spec, Hb.
  eexists. split; [reflexivity |].
  intros x Hx. unfold page in Hx. cbn [plugins] in Hx.
  apply ActiveFacts.slice_In, PluginFacts.localItems_In in Hx.
  pose proof (PluginFacts.local_type L x Hx) as Ht.
  pose proof (local_marketplace L x Hx) as Hm.
  split; [exact Ht |].
  unfold PluginCard.getDetailUrl. rewrite Hm.
  unfold localTypes in Ht. cbn [In] in Ht.
  destruct Ht as [<- | [<- | [<- | [<- | [<- | []]]]]]; reflexivity.
Qed.

Lemma local_detail_url_witness :
  exists page,
    getPluginsPaginated samplePlatform oneSubagent (withWindow localPage 10 0) w_down
    = (Resolved page, w_down) /\
    map PluginCard.getDetailUrl (plugins page) = ["/subagent/code-reviewer"%string].
Proof.
  destruct (local_detail_url samplePlatform oneSubagent (withWindow localPage 10 0)
              w_down eq_refl) as (page & E & _).
  exists page. split; [exact E |].
  injection E as <-. reflexivity.
Defined.

(** ** The address of the GitHub API *)

Lemma append_cons c a b : String c a +:+ b = String c (a +:+ b).
Proof. reflexivity. Qed.

Lemma append_nil b : "" +:+ b = b.
Proof. reflexivity. Qed.

Lemma span_run a b :
  JS.includes a "/" = false ->
  JS.span_no_slash (a +:+ String "/" b) = (a, String "/" b).
Proof.
  induction a as [|c a IH]; intros Ha.
  - reflexivity.
  - rewrite StringFacts.includes_slash_cons in Ha.
    apply orb_false_iff in Ha. destruct Ha as [Hc Ha].
    rewrite append_cons. cbn [JS.span_no_slash]. rewrite Hc, IH by exact Ha.
    reflexivity.
Qed.

Lemma span_all a :
  JS.includes a "/" = false -> JS.span_no_slash a = (a, ""%string).
Proof.
  induction a as [|c a IH]; intros Ha; [reflexivity |].
  rewrite StringFacts.includes_slash_cons in Ha.
  apply orb_false_iff in Ha. destruct Ha as [Hc Ha].
  cbn [JS.span_no_slash]. rewrite Hc, IH by exact Ha. reflexivity.
Qed.

Lemma match_here_repo owner repo tail :
  owner <> ""%string -> repo <> ""%string ->
  JS.includes owner "/" = false ->
  JS.span_no_slash tail = (repo, snd (JS.span_no_slash tail)) ->
  Indexer.match_github_here ("github.com/" +:+ owner +:+ String "/" tail)
  = Some (owner, repo).
Proof.
  intros Ho Hr Hos Ht. unfold Indexer.match_github_here.
  rewrite !append_cons, append_nil. cbn [JS.strip_prefix Ascii.eqb Bool.eqb].
  rewrite span_run by exact Hos.
  destruct owner as [|c owner]; [congruence |].
  rewrite Ht. destruct repo as [|d repo]; [congruence |]. reflexivity.
Qed.

Lemma match_github_https owner repo tail :
  owner <> ""%string -> repo <> ""%string ->
  JS.includes owner "/" = false ->
  JS.span_no_slash tail = (repo, snd (JS.span_no_slash tail)) ->
  Indexer.match_github ("https://github.com/" +:+ owner +:+ String "/" tail)
  = Some (owner, repo).
Proof.
  intros Ho Hr Hos Ht.
  pose proof (match_here_repo owner repo tail Ho Hr Hos Ht) as H.
  rewrite !append_cons, append_nil in H.
  rewrite !append_cons, append_nil.
  do 8 (cbn [Indexer.match_github];
        match goal with
        | |- context [Indexer.match_github_here (String ?c ?s)] =>
            replace (Indexer.match_github_here (String c s)) with (@None (string * string))
              by reflexivity
        end).
  cbn [Indexer.match_github]. rewrite H. reflexivity.
Qed.

Lemma strip_prefix_none p s : String.prefix p s = false -> JS.strip_prefix p s = None.
Proof.
  revert s. induction p as [|c p IH]; intros s; [destruct s; discriminate |].
  destruct s as [|d s]; [reflexivity |].
  rewrite LikeFacts.prefix_cons. cbn [JS.strip_prefix].
  destruct (Ascii.eqb c d); [apply IH | reflexivity].
Qed.

Lemma match_github_none url :
  JS.includes url "github.com/" = false -> Indexer.match_github url = None.
Proof.
  induction url as [|c url IH]; cbn [JS.includes]; rewrite orb_false_iff.
  - intros [Hp _]. cbn [Indexer.match_github]. unfold Indexer.match_github_here.
    rewrite strip_prefix_none by exact Hp. reflexivity.
  - intros [Hp Hs]. cbn [Indexer.match_github]. unfold Indexer.match_github_here.
    rewrite strip_prefix_none by exact Hp. apply IH, Hs.
Qed.

(** X28.  For a repository address [https://github.com/owner/repo],
    with or without a path after it, [fetchGitHubStats] asks
    [https://api.github.com/repos/owner/repo], a final [.git] of the
    repository name left out; for an address that does not hold
    [github.com/] it computes no address and returns [null] without a
    request. *)
Theorem githubApiUrl_repo (owner repo : string) :
  owner <> ""%string -> repo <> ""%string ->
  JS.includes owner "/" = false -> JS.includes repo "/" = false ->
  Indexer.githubApiUrl ("https://github.com/" +:+ owner +:+ String "/" repo)
  = Some ("https://api.github.com/repos/" +:+ owner +:+ "/"
          +:+ JS.strip_suffix ".git" repo) /\
  (forall path,
     Indexer.githubApiUrl
       ("https://github.com/" +:+ owner +:+ String "/" (repo +:+ String "/" path))
     = Some ("https://api.github.com/repos/" +:+ owner +:+ "/"
             +:+ JS.strip_suffix ".git" repo)) /\
  (forall url, JS.includes url "github.com/" = false ->
               Indexer.githubApiUrl url = None).
Proof.
  intros Ho Hr Hos Hrs. unfold Indexer.githubApiUrl. split; [| split].
  - rewrite (match_github_https owner repo repo Ho Hr Hos); [reflexivity |].
    rewrite span_all by exact Hrs. reflexivity.
  - intros path.
    rewrite (match_github_https owner repo _ Ho Hr Hos); [reflexivity |].
    rewrite span_run by exact Hrs. reflexivity.
  - intros url Hu. rewrite match_github_none by exact Hu. reflexivity.
Qed.

Lemma githubApiUrl_repo_witness :
  Indexer.githubApiUrl ("https://github.com/" +:+ "acme" +:+ String "/" "postgres.git")
  = Some ("https://api.github.com/repos/" +:+ "acme" +:+ "/"
          +:+ JS.strip_suffix ".git" "postgres.git").
Proof.
  apply (proj1 (githubApiUrl_repo "acme" "postgres.git"
                  ltac:(discriminate) ltac:(discriminate) eq_refl eq_refl)).
Defined.

End LinkFacts.
